(** * Menubar part: focus state machine, menu snapshots, modifier key tracker

    Shallow embedding of
    [src/vs/workbench/browser/parts/menubar/menubarPart.ts].

    - JavaScript numbers that hold button indices are integers ([Z]) or
      [NaN] (the result of [%] by zero);
    - the part's object fields are a record, methods are computations in a
      small state-and-exception monad (a property access on [undefined]
      raises [TypeError] and keeps the mutations made so far);
    - DOM calls and emitter firings are appended to an effect trace;
    - external collaborators (menu registry, localisation, path labels,
      platform flag) are the fields of a [Services] record;
    - [updateActions] recurses through the registry, so it takes fuel and
      returns [None] when the fuel runs out. *)

From Stdlib Require Import String Ascii.
From Stdlib Require Import List ZArith Bool Lia Arith.
Import ListNotations.

Set Warnings "-register-all".

Open Scope string_scope.
Open Scope list_scope.
Open Scope Z_scope.

(** ** Modifier key tracker ([class ModifierKeyEmitter]) *)

Module ModifierKeyEmitter.

(** [type ModifierKey = 'alt' | 'ctrl' | 'shift'] *)
Inductive ModifierKey := alt | ctrl | shift.

Definition ModifierKey_eqb (a b : ModifierKey) : bool :=
  match a, b with
  | alt, alt | ctrl, ctrl | shift, shift => true
  | _, _ => false
  end.

(** [interface IModifierKeyStatus]; an absent optional field is [None]. *)
Record IModifierKeyStatus := {
  altKey : bool;
  shiftKey : bool;
  ctrlKey : bool;
  lastKeyPressed : option ModifierKey;
  lastKeyReleased : option ModifierKey
}.

(** The modifier flags of a DOM [KeyboardEvent]. *)
Record KeyboardEvent := {
  e_altKey : bool;
  e_ctrlKey : bool;
  e_shiftKey : bool
}.

(** The status object built by the constructor. *)
Definition initial : IModifierKeyStatus :=
  {| altKey := false; shiftKey := false; ctrlKey := false;
     lastKeyPressed := None; lastKeyReleased := None |}.

(** A handler returns the mutated [_keyStatus] and the value passed to
    [this.fire], if it fired. *)
Definition outcome : Type := IModifierKeyStatus * option IModifierKeyStatus.

(** The [keydown] subscription. *)
Definition keydown (e : KeyboardEvent) (ks : IModifierKeyStatus) : outcome :=
  let pressed :=
    if e_altKey e && negb (altKey ks) then Some alt
    else if e_ctrlKey e && negb (ctrlKey ks) then Some ctrl
    else if e_shiftKey e && negb (shiftKey ks) then Some shift
    else None in
  let ks' :=
    {| altKey := e_altKey e;
       shiftKey := e_shiftKey e;
       ctrlKey := e_ctrlKey e;
       lastKeyPressed := pressed;
       lastKeyReleased := lastKeyReleased ks |} in
  match lastKeyPressed ks' with
  | Some _ => (ks', Some ks')
  | None => (ks', None)
  end.

(** The [keyup] subscription. *)
Definition keyup (e : KeyboardEvent) (ks : IModifierKeyStatus) : outcome :=
  let released :=
    if negb (e_altKey e) && altKey ks then Some alt
    else if negb (e_ctrlKey e) && ctrlKey ks then Some ctrl
    else if negb (e_shiftKey e) && shiftKey ks then Some shift
    else None in
  let ks' :=
    {| altKey := e_altKey e;
       shiftKey := e_shiftKey e;
       ctrlKey := e_ctrlKey e;
       lastKeyPressed := lastKeyPressed ks;
       lastKeyReleased := released |} in
  match lastKeyReleased ks' with
  | Some _ => (ks', Some ks')
  | None => (ks', None)
  end.

(** The window [blur] subscription.  The source assigns [shiftKey] twice
    and never assigns [ctrlKey]. *)
Definition blur (ks : IModifierKeyStatus) : outcome :=
  let ks1 :=
    {| altKey := altKey ks; shiftKey := shiftKey ks; ctrlKey := ctrlKey ks;
       lastKeyPressed := None; lastKeyReleased := None |} in
  let ks2 :=
    {| altKey := false; shiftKey := shiftKey ks1; ctrlKey := ctrlKey ks1;
       lastKeyPressed := lastKeyPressed ks1;
       lastKeyReleased := lastKeyReleased ks1 |} in
  let ks3 :=
    {| altKey := altKey ks2; shiftKey := false; ctrlKey := ctrlKey ks2;
       lastKeyPressed := lastKeyPressed ks2;
       lastKeyReleased := lastKeyReleased ks2 |} in
  let ks4 :=
    {| altKey := altKey ks3; shiftKey := false; ctrlKey := ctrlKey ks3;
       lastKeyPressed := lastKeyPressed ks3;
       lastKeyReleased := lastKeyReleased ks3 |} in
  (ks4, Some ks4).

(** Raw DOM events seen by the tracker. *)
Inductive DomEvent :=
| KeyDown (e : KeyboardEvent)
| KeyUp (e : KeyboardEvent)
| WindowBlur.

Definition handle (ev : DomEvent) (ks : IModifierKeyStatus) : outcome :=
  match ev with
  | KeyDown e => keydown e ks
  | KeyUp e => keyup e ks
  | WindowBlur => blur ks
  end.

(** The status after a sequence of DOM events. *)
Definition run (evs : list DomEvent) (ks : IModifierKeyStatus)
  : IModifierKeyStatus :=
  fold_left (fun k ev => fst (handle ev k)) evs ks.

(** Modifier [m] goes from not pressed to pressed in key-down [e]. *)
Definition newly_pressed (m : ModifierKey) (e : KeyboardEvent)
    (ks : IModifierKeyStatus) : bool :=
  match m with
  | alt => e_altKey e && negb (altKey ks)
  | ctrl => e_ctrlKey e && negb (ctrlKey ks)
  | shift => e_shiftKey e && negb (shiftKey ks)
  end.

Definition mods (a c s : bool) : KeyboardEvent :=
  {| e_altKey := a; e_ctrlKey := c; e_shiftKey := s |}.

End ModifierKeyEmitter.

(** ** Data model of the menubar part *)

(** [enum MenubarState]; TypeScript numbers the members 0 to 3 and the code
    compares them with [>=] and [<]. *)
Inductive MenubarState := HIDDEN | VISIBLE | FOCUSED | OPEN.

Definition MenubarState_value (s : MenubarState) : Z :=
  match s with HIDDEN => 0 | VISIBLE => 1 | FOCUSED => 2 | OPEN => 3 end.

Definition state_ge (a b : MenubarState) : bool :=
  MenubarState_value b <=? MenubarState_value a.

Definition state_lt (a b : MenubarState) : bool :=
  MenubarState_value a <? MenubarState_value b.

Definition state_eq (a b : MenubarState) : bool :=
  MenubarState_value a =? MenubarState_value b.

(** A JavaScript number used as an array index: an integer or [NaN]. *)
Inductive JSNumber := Num (z : Z) | NaN.

Definition js_add (a b : JSNumber) : JSNumber :=
  match a, b with
  | Num x, Num y => Num (x + y)
  | _, _ => NaN
  end.

Definition js_sub (a b : JSNumber) : JSNumber :=
  match a, b with
  | Num x, Num y => Num (x - y)
  | _, _ => NaN
  end.

(** [a % b]: the remainder has the sign of the dividend; [% 0] is [NaN]. *)
Definition js_rem (a b : JSNumber) : JSNumber :=
  match a, b with
  | Num x, Num y => if y =? 0 then NaN else Num (Z.rem x y)
  | _, _ => NaN
  end.

(** [a === b] on numbers: [NaN] equals nothing. *)
Definition js_strict_eq (a b : JSNumber) : bool :=
  match a, b with
  | Num x, Num y => x =? y
  | _, _ => false
  end.

(** [xs[i]]: [None] is [undefined]. *)
Definition js_index {A : Type} (xs : list A) (i : JSNumber) : option A :=
  match i with
  | Num z => if z <? 0 then None else nth_error xs (Z.to_nat z)
  | NaN => None
  end.

Definition js_length {A : Type} (xs : list A) : JSNumber :=
  Num (Z.of_nat (length xs)).

(** A value returned by [configurationService.getValue]. *)
Inductive JSValue :=
| JSUndefined
| JSNull
| JSBoolean (b : bool)
| JSNumeric (n : JSNumber)
| JSString (s : string)
| JSObject.

Definition js_string_is (v : JSValue) (s : string) : bool :=
  match v with
  | JSString t => String.eqb t s
  | _ => false
  end.

(** Handles of DOM elements ([Builder]) and of dropdown widgets ([Menu]). *)
Definition Builder := nat.
Definition Menu := nat.

(** [MenuId]: the top-level menus of the constructor and any other menu. *)
Inductive MenuId :=
| MenubarFileMenu | MenubarEditMenu | MenubarSelectionMenu | MenubarViewMenu
| MenubarGoMenu | MenubarTerminalMenu | MenubarDebugMenu | MenubarTasksMenu
| MenubarWindowMenu | MenubarHelpMenu
| OtherMenu (n : nat).

(** The fields of an [Action] the part reads and writes; [checked] may be
    [undefined]. *)
Record ActionData := {
  id : string;
  label : string;
  checked : option bool;
  enabled : bool
}.

(** What [IMenu.getActions] yields: [MenuItemAction] or
    [SubmenuItemAction] (whose [item.submenu] names another menu). *)
Inductive RegistryAction :=
| MenuItemAction (a : ActionData)
| SubmenuItemAction (a : ActionData) (submenu : MenuId).

Definition registry_data (r : RegistryAction) : ActionData :=
  match r with
  | MenuItemAction a => a
  | SubmenuItemAction a _ => a
  end.

(** A group of [getActions]: [[string, actions[]]]. *)
Definition Group : Type := string * list RegistryAction.

(** Entries of a built action list. *)
Inductive IAction :=
| RegistryItem (a : ActionData)
    (* the registry's action object, relabelled *)
| OpenWindowAction (a : ActionData) (path : string)
    (forceOpenWorkspaceAsFile : bool)
    (* [new Action(commandId, label, undefined, undefined, openWindow)] *)
| Separator
| SubmenuAction (label : string) (entries : list IAction).

(** Items pushed to the native menu bar: [IMenubarMenuItemAction] or the
    separator item [{ id: 'vscode.menubar.separator' }]. *)
Inductive IMenubarMenuItem :=
| MenubarItemAction (a : ActionData)
| MenubarItemSeparator.

(** A recently opened workspace: a folder path (a string) or a workspace
    identifier with its [configPath]. *)
Inductive RecentWorkspace :=
| SingleFolder (path : string)
| WorkspaceIdentifier (wid : string) (configPath : string).

Record IRecentlyOpened := {
  workspaces : list RecentWorkspace;
  files : list string
}.

Record CustomMenu := {
  title : string;
  buttonElement : Builder;
  titleElement : Builder;
  actions : option (list IAction)
}.

Record FocusedMenu := {
  index : JSNumber;
  holder : option Builder;
  widget : option Menu
}.

(** The argument of [_onVisibilityChange.fire]: [new Dimension(0, 0)] or the
    box measured from the first and last button and the container. *)
Inductive Dimension :=
| ZeroDimension
| ItemsDimension (first last container : Builder).

(** Observable calls on the DOM, the emitter and the scheduler. *)
Inductive Effect :=
| VisibilityChangeFired (d : Dimension)
| ContainerVisibility (container : Builder) (hidden : bool)
| DomFocus (b : Builder)
| DomBlur (b : Builder)
| HolderClosed (holder : Builder)
| MenuDisposed (w : Menu)
| HolderOpened (button holder : Builder)
| MenuFocused (holder : Builder) (w : Menu) (entries : option (list IAction))
| MenuUpdaterScheduled
| TitleDecoration (titleElement : Builder) (underline : bool).

(** [_modifierKeyStatus] holds the very object the tracker mutates and
    fires, not a copy. *)
Inductive KeyStatusRef := TrackerKeyStatus.

(** The mutable fields of [MenubarPart], the configuration it reads, and the
    effects performed so far (most recent last). *)
Record MenubarPart := {
  _focusState : MenubarState;
  focusedMenu : option FocusedMenu;
  customMenus : option (list CustomMenu);
  updatePending : bool;
  focusToReturn : option Builder;
  container : option Builder;
  recentlyOpened : option IRecentlyOpened;
  _modifierKeyStatus : option KeyStatusRef;
  configuration : string -> JSValue;
  nextHandle : nat;
  trace : list Effect
}.

Definition with_focusState (v : MenubarState) (s : MenubarPart) :=
  {| _focusState := v; focusedMenu := focusedMenu s;
     customMenus := customMenus s; updatePending := updatePending s;
     focusToReturn := focusToReturn s; container := container s;
     recentlyOpened := recentlyOpened s;
     _modifierKeyStatus := _modifierKeyStatus s;
     configuration := configuration s; nextHandle := nextHandle s;
     trace := trace s |}.

Definition with_focusedMenu (v : option FocusedMenu) (s : MenubarPart) :=
  {| _focusState := _focusState s; focusedMenu := v;
     customMenus := customMenus s; updatePending := updatePending s;
     focusToReturn := focusToReturn s; container := container s;
     recentlyOpened := recentlyOpened s;
     _modifierKeyStatus := _modifierKeyStatus s;
     configuration := configuration s; nextHandle := nextHandle s;
     trace := trace s |}.

Definition with_updatePending (v : bool) (s : MenubarPart) :=
  {| _focusState := _focusState s; focusedMenu := focusedMenu s;
     customMenus := customMenus s; updatePending := v;
     focusToReturn := focusToReturn s; container := container s;
     recentlyOpened := recentlyOpened s;
     _modifierKeyStatus := _modifierKeyStatus s;
     configuration := configuration s; nextHandle := nextHandle s;
     trace := trace s |}.

Definition with_focusToReturn (v : option Builder) (s : MenubarPart) :=
  {| _focusState := _focusState s; focusedMenu := focusedMenu s;
     customMenus := customMenus s; updatePending := updatePending s;
     focusToReturn := v; container := container s;
     recentlyOpened := recentlyOpened s;
     _modifierKeyStatus := _modifierKeyStatus s;
     configuration := configuration s; nextHandle := nextHandle s;
     trace := trace s |}.

Definition with_modifierKeyStatus (v : option KeyStatusRef) (s : MenubarPart) :=
  {| _focusState := _focusState s; focusedMenu := focusedMenu s;
     customMenus := customMenus s; updatePending := updatePending s;
     focusToReturn := focusToReturn s; container := container s;
     recentlyOpened := recentlyOpened s;
     _modifierKeyStatus := v;
     configuration := configuration s; nextHandle := nextHandle s;
     trace := trace s |}.

Definition with_nextHandle (v : nat) (s : MenubarPart) :=
  {| _focusState := _focusState s; focusedMenu := focusedMenu s;
     customMenus := customMenus s; updatePending := updatePending s;
     focusToReturn := focusToReturn s; container := container s;
     recentlyOpened := recentlyOpened s;
     _modifierKeyStatus := _modifierKeyStatus s;
     configuration := configuration s; nextHandle := v;
     trace := trace s |}.

Definition with_trace (v : list Effect) (s : MenubarPart) :=
  {| _focusState := _focusState s; focusedMenu := focusedMenu s;
     customMenus := customMenus s; updatePending := updatePending s;
     focusToReturn := focusToReturn s; container := container s;
     recentlyOpened := recentlyOpened s;
     _modifierKeyStatus := _modifierKeyStatus s;
     configuration := configuration s; nextHandle := nextHandle s;
     trace := v |}.

(** ** State and exception monad *)

Inductive JSError := TypeError.

(** A method returns normally or throws; either way the part keeps the
    mutations made up to that point. *)
Inductive result (A : Type) :=
| Ok (a : A) (s : MenubarPart)
| Throw (e : JSError) (s : MenubarPart).

Arguments Ok {A} a s.
Arguments Throw {A} e s.

Definition M (A : Type) : Type := MenubarPart -> result A.

Definition ret {A : Type} (a : A) : M A := fun s => Ok a s.

Definition bind {A B : Type} (m : M A) (k : A -> M B) : M B :=
  fun s =>
    match m s with
    | Ok a s' => k a s'
    | Throw e s' => Throw e s'
    end.

Definition throw {A : Type} (e : JSError) : M A := fun s => Throw e s.

Definition gets {A : Type} (f : MenubarPart -> A) : M A := fun s => Ok (f s) s.

Definition modify (f : MenubarPart -> MenubarPart) : M unit :=
  fun s => Ok tt (f s).

Definition emit (e : Effect) : M unit :=
  modify (fun s => with_trace (trace s ++ [e]) s).

(** Reading a property of [o]: a [TypeError] when [o] is [undefined]. *)
Definition deref {A : Type} (o : option A) : M A :=
  match o with
  | Some a => ret a
  | None => throw TypeError
  end.

Definition when (b : bool) (m : M unit) : M unit :=
  if b then m else ret tt.

Definition final_state {A : Type} (r : result A) : MenubarPart :=
  match r with
  | Ok _ s => s
  | Throw _ s => s
  end.

Definition returned {A : Type} (r : result A) : bool :=
  match r with
  | Ok _ _ => true
  | Throw _ _ => false
  end.

Declare Scope part_scope.
Delimit Scope part_scope with part.
Notation "x <- m ;; k" := (bind m (fun x => k))
  (at level 61, m at next level, right associativity) : part_scope.
Notation "m ;; k" := (bind m (fun _ => k))
  (at level 61, right associativity) : part_scope.
Open Scope part_scope.

(** ** Configuration getters *)

(** [typeof v !== 'boolean' ? true : v], the body shared by the three
    boolean getters. *)
Definition boolean_or_true (v : JSValue) : bool :=
  match v with
  | JSBoolean b => b
  | _ => true
  end.

Definition currentEnableMenuBarMnemonics (s : MenubarPart) : bool :=
  let enableMenuBarMnemonics := configuration s "window.enableMenuBarMnemonics" in
  boolean_or_true enableMenuBarMnemonics.

Definition currentMultiCursorSetting (s : MenubarPart) : JSValue :=
  configuration s "editor.multiCursorModifier".

Definition currentAutoSaveSetting (s : MenubarPart) : JSValue :=
  configuration s "files.autoSave".

Definition currentSidebarPosition (s : MenubarPart) : JSValue :=
  configuration s "workbench.sideBar.location".

Definition currentStatusBarVisibility (s : MenubarPart) : bool :=
  let setting := configuration s "workbench.statusBar.visible" in
  boolean_or_true setting.

Definition currentActivityBarVisibility (s : MenubarPart) : bool :=
  let setting := configuration s "workbench.activityBar.visible" in
  boolean_or_true setting.

Definition currentMenubarVisibility (s : MenubarPart) : JSValue :=
  configuration s "window.menuBarVisibility".

Definition currentTitlebarStyleSetting (s : MenubarPart) : JSValue :=
  configuration s "window.titleBarStyle".

(** [typeof v === 'boolean'] *)
Definition is_boolean (v : JSValue) : bool :=
  match v with
  | JSBoolean _ => true
  | _ => false
  end.

(** ** Focus state machine *)

Definition isVisible (s : MenubarPart) : bool := state_ge (_focusState s) VISIBLE.
Definition isFocused (s : MenubarPart) : bool := state_ge (_focusState s) FOCUSED.
Definition isOpen (s : MenubarPart) : bool := state_ge (_focusState s) OPEN.

(** [getMenubarItemsDimensions]: measures [customMenus[0]], the last button
    and the container when the buttons exist. *)
Definition getMenubarItemsDimensions : M Dimension :=
  menus <- gets customMenus ;;
  match menus with
  | Some ms =>
      first <- deref (js_index ms (Num 0)) ;;
      last <- deref (js_index ms (js_sub (js_length ms) (Num 1))) ;;
      c <- (o <- gets container ;; deref o) ;;
      ret (ItemsDimension (buttonElement first) (buttonElement last) c)
  | None => ret ZeroDimension
  end.

Definition hideMenubar : M unit :=
  emit (VisibilityChangeFired ZeroDimension) ;;
  c <- (o <- gets container ;; deref o) ;;
  emit (ContainerVisibility c true).

Definition showMenubar : M unit :=
  d <- getMenubarItemsDimensions ;;
  emit (VisibilityChangeFired d) ;;
  c <- (o <- gets container ;; deref o) ;;
  emit (ContainerVisibility c false).

Definition isCurrentMenu (menuIndex : JSNumber) (s : MenubarPart) : bool :=
  match focusedMenu s with
  | None => false
  | Some fm => js_strict_eq (index fm) menuIndex
  end.

Definition cleanupCustomMenu : M unit :=
  fm <- gets focusedMenu ;;
  match fm with
  | Some f =>
      match holder f with
      | Some h => emit (HolderClosed h)
      | None => ret tt
      end ;;
      match widget f with
      | Some w => emit (MenuDisposed w)
      | None => ret tt
      end ;;
      modify (with_focusedMenu
                (Some {| index := index f; holder := None; widget := None |}))
  | None => ret tt
  end.

(** A fresh handle for an element or widget created by the call. *)
Definition fresh : M nat :=
  n <- gets nextHandle ;;
  modify (with_nextHandle (S n)) ;;
  ret n.

(** [this.customMenus[i]] followed by a property read on the element. *)
Definition customMenuAt (i : JSNumber) : M CustomMenu :=
  menus <- (o <- gets customMenus ;; deref o) ;;
  deref (js_index menus i).

Definition showCustomMenu (menuIndex : JSNumber) : M unit :=
  customMenu <- customMenuAt menuIndex ;;
  menuHolder <- fresh ;;
  emit (HolderOpened (buttonElement customMenu) menuHolder) ;;
  _ <- (o <- gets container ;; deref o) ;;
  menuWidget <- fresh ;;
  emit (MenuFocused menuHolder menuWidget (actions customMenu)) ;;
  modify (with_focusedMenu
            (Some {| index := menuIndex;
                     holder := Some menuHolder;
                     widget := Some menuWidget |})).

(** [if (this.focusToReturn) { domFocus(); this.focusToReturn = null; }] *)
Definition returnFocus : M unit :=
  f <- gets focusToReturn ;;
  match f with
  | Some b => emit (DomFocus b) ;; modify (with_focusToReturn None)
  | None => ret tt
  end.

(** The [focusState] setter. *)
Definition set_focusState (value : MenubarState) : M unit :=
  cur <- gets _focusState ;;
  when (state_ge cur FOCUSED && state_lt value FOCUSED)
    (pending <- gets updatePending ;;
     when pending
       (emit MenuUpdaterScheduled ;; modify (with_updatePending false))) ;;
  cur <- gets _focusState ;;
  if state_eq value cur then ret tt
  else
    match value with
    | HIDDEN =>
        (v <- gets isVisible ;; when v hideMenubar) ;;
        (o <- gets isOpen ;; when o cleanupCustomMenu) ;;
        (f <- gets isFocused ;;
         when f (modify (with_focusedMenu None) ;; returnFocus))
    | VISIBLE =>
        (v <- gets isVisible ;; when (negb v) showMenubar) ;;
        (o <- gets isOpen ;; when o cleanupCustomMenu) ;;
        (f <- gets isFocused ;;
         when f
           (fm <- gets focusedMenu ;;
            match fm with
            | Some m =>
                b <- customMenuAt (index m) ;; emit (DomBlur (buttonElement b))
            | None => ret tt
            end ;;
            modify (with_focusedMenu None) ;;
            returnFocus))
    | FOCUSED =>
        (v <- gets isVisible ;; when (negb v) showMenubar) ;;
        (o <- gets isOpen ;; when o cleanupCustomMenu) ;;
        (fm <- gets focusedMenu ;;
         match fm with
         | Some m =>
             b <- customMenuAt (index m) ;; emit (DomFocus (buttonElement b))
         | None => ret tt
         end)
    | OPEN =>
        (v <- gets isVisible ;; when (negb v) showMenubar) ;;
        (fm <- gets focusedMenu ;;
         match fm with
         | Some m => showCustomMenu (index m)
         | None => ret tt
         end)
    end ;;
    modify (with_focusState value).

Definition setUnfocusedState : M unit :=
  vis <- gets currentMenubarVisibility ;;
  set_focusState (if js_string_is vis "toggle" then HIDDEN else VISIBLE).

(** [onDidChangeWindowFocus]; the class toggled on the container is not
    traced. *)
Definition onDidChangeWindowFocus (hasFocus : bool) : M unit :=
  c <- gets container ;;
  match c with
  | Some _ => if hasFocus then ret tt else setUnfocusedState
  | None => ret tt
  end.

(** [customMenus.forEach] of [onModifierKeyToggled]: decorate the child of
    each title element. *)
Fixpoint decorateTitles (menus : list CustomMenu) (underline : bool) : M unit :=
  match menus with
  | [] => ret tt
  | customMenu :: rest =>
      emit (TitleDecoration (titleElement customMenu) underline) ;;
      decorateTitles rest underline
  end.

Import ModifierKeyEmitter.

Definition lastIs (k : option ModifierKey) (m : ModifierKey) : bool :=
  match k with
  | Some k' => ModifierKey_eqb k' m
  | None => false
  end.

Definition onModifierKeyToggled (modifierKeyStatus : IModifierKeyStatus) : M unit :=
  modify (with_modifierKeyStatus (Some TrackerKeyStatus)) ;;
  let altKeyAlone :=
    lastIs (lastKeyPressed modifierKeyStatus) alt
    && negb (ctrlKey modifierKeyStatus) && negb (shiftKey modifierKeyStatus) in
  let allModifiersReleased :=
    negb (altKey modifierKeyStatus) && negb (ctrlKey modifierKeyStatus)
    && negb (shiftKey modifierKeyStatus) in
  (vis <- gets currentMenubarVisibility ;;
   when (js_string_is vis "toggle")
     (if altKeyAlone then
        v <- gets isVisible ;; when (negb v) (set_focusState VISIBLE)
      else
        f <- gets isFocused ;;
        when (negb allModifiersReleased && negb f) (set_focusState HIDDEN))) ;;
  when (allModifiersReleased
        && lastIs (lastKeyPressed modifierKeyStatus) alt
        && lastIs (lastKeyReleased modifierKeyStatus) alt)
    (f <- gets isFocused ;;
     if negb f then
       modify (with_focusedMenu
                 (Some {| index := Num 0; holder := None; widget := None |})) ;;
       set_focusState FOCUSED
     else
       o <- gets isOpen ;; when (negb o) setUnfocusedState) ;;
  (mn <- gets currentEnableMenuBarMnemonics ;;
   menus <- gets customMenus ;;
   match menus with
   | Some ms => when mn (decorateTitles ms (altKey modifierKeyStatus))
   | None => ret tt
   end).

(** [focusPrevious] and [focusNext] differ only in the new index. *)
Definition moveFocus (newIndex : JSNumber -> JSNumber -> JSNumber) : M unit :=
  fm <- gets focusedMenu ;;
  match fm with
  | None => ret tt
  | Some m =>
      menus <- (o <- gets customMenus ;; deref o) ;;
      let newFocusedIndex := newIndex (index m) (js_length menus) in
      if js_strict_eq newFocusedIndex (index m) then ret tt
      else
        o <- gets isOpen ;;
        if o then
          cleanupCustomMenu ;; showCustomMenu newFocusedIndex
        else
          f <- gets isFocused ;;
          when f
            (modify (with_focusedMenu
                       (Some {| index := newFocusedIndex;
                                holder := holder m;
                                widget := widget m |})) ;;
             b <- customMenuAt newFocusedIndex ;;
             emit (DomFocus (buttonElement b)))
  end.

Definition focusPrevious : M unit :=
  moveFocus (fun i len => js_rem (js_add (js_sub i (Num 1)) len) len).

Definition focusNext : M unit :=
  moveFocus (fun i len => js_rem (js_add i (Num 1)) len).

(** ** Menu snapshot builder *)

(** External collaborators of the builder. *)
Record Services := {
  (* [isMacintosh] of [vs/base/common/platform] *)
  isMacintosh : bool;
  (* [nls.localize(key, defaultMessage)] *)
  localize : string -> string -> string;
  (* [getPathLabel(path, environmentService)] *)
  getPathLabel : string -> string;
  (* [getWorkspaceLabel(workspace, environmentService, { verbose: true })] *)
  getWorkspaceLabel : string -> string -> string;
  (* [menuService.createMenu(id, contextKeyService).getActions()] *)
  getActions : MenuId -> list Group
}.

Definition MAX_MENU_RECENT_ENTRIES : nat := 5.

(** [s.replace(/&&(.)/g, '$1')]: every [&&] followed by a character other
    than a line terminator loses the two ampersands; matching resumes after
    the kept character.  Characters are the code units of the label. *)
Definition is_line_terminator (c : ascii) : bool :=
  (Ascii.eqb c "010" || Ascii.eqb c "013")%char.

Fixpoint stripMnemonic (s : string) : string :=
  match s with
  | EmptyString => EmptyString
  | String c rest =>
      match rest with
      | String c2 (String c3 rest3) =>
          if (Ascii.eqb c "&" && Ascii.eqb c2 "&"
              && negb (is_line_terminator c3))%char
          then String c3 (stripMnemonic rest3)
          else String c (stripMnemonic rest)
      | _ => String c (stripMnemonic rest)
      end
  end.

Section Builder.

Context (env : Services).

(** [setCheckedStatus]: returns the action with its [checked] assigned. *)
Definition setCheckedStatus (s : MenubarPart) (action : ActionData) : ActionData :=
  if String.eqb (id action) "workbench.action.toggleAutoSave" then
    {| id := id action; label := label action;
       checked := Some (negb (js_string_is (currentAutoSaveSetting s) "off"));
       enabled := enabled action |}
  else action.

Definition calculateActionLabel (s : MenubarPart) (action : ActionData) : string :=
  let label0 := label action in
  let label1 :=
    if String.eqb (id action) "workbench.action.toggleMultiCursorModifier" then
      if js_string_is (currentMultiCursorSetting s) "ctrlCmd" then
        localize env "miMultiCursorAlt" "Switch to Alt+Click for Multi-Cursor"
      else if isMacintosh env then
        localize env "miMultiCursorCmd" "Switch to Cmd+Click for Multi-Cursor"
      else
        localize env "miMultiCursorCtrl" "Switch to Ctrl+Click for Multi-Cursor"
    else if String.eqb (id action) "workbench.action.toggleSidebarPosition" then
      if negb (js_string_is (currentSidebarPosition s) "right") then
        localize env "miMoveSidebarRight" "&&Move Side Bar Right"
      else
        localize env "miMoveSidebarLeft" "&&Move Side Bar Left"
    else if String.eqb (id action) "workbench.action.toggleStatusbarVisibility" then
      if currentStatusBarVisibility s then
        localize env "miHideStatusbar" "&&Hide Status Bar"
      else
        localize env "miShowStatusbar" "&&Show Status Bar"
    else if String.eqb (id action) "workbench.action.toggleActivityBarVisibility" then
      if currentActivityBarVisibility s then
        localize env "miHideActivityBar" "Hide &&Activity Bar"
      else
        localize env "miShowActivityBar" "Show &&Activity Bar"
    else label0 in
  if currentEnableMenuBarMnemonics s then label1 else stripMnemonic label1.

Definition createOpenRecentMenuAction (workspace : RecentWorkspace)
    (commandId : string) (isFile : bool) : IAction :=
  let '(label, path) :=
    match workspace with
    | SingleFolder p => (getPathLabel env p, p)
    | WorkspaceIdentifier wid configPath =>
        (getWorkspaceLabel env wid configPath, configPath)
    end in
  OpenWindowAction
    {| id := commandId; label := label; checked := None; enabled := true |}
    path isFile.

(** [for (let i = 0; i < MAX_MENU_RECENT_ENTRIES && i < xs.length; i++)
    result.push(make(xs[i]))]; [budget] bounds the iterations left. *)
Fixpoint pushRecent {A : Type} (make : A -> IAction) (xs : list A)
    (budget i : nat) (result : list IAction) : list IAction :=
  match budget with
  | O => result
  | S budget' =>
      if ((i <? MAX_MENU_RECENT_ENTRIES) && (i <? length xs))%nat then
        match nth_error xs i with
        | Some x => pushRecent make xs budget' (S i) (result ++ [make x])
        | None => result
        end
      else result
  end.

Definition getOpenRecentActions (s : MenubarPart) : list IAction :=
  match recentlyOpened s with
  | None => []
  | Some ro =>
      let result := [] in
      let result :=
        if (0 <? length (workspaces ro))%nat then
          pushRecent
            (fun w => createOpenRecentMenuAction w "openRecentWorkspace" false)
            (workspaces ro) MAX_MENU_RECENT_ENTRIES 0%nat result
          ++ [Separator]
        else result in
      let result :=
        if (0 <? length (files ro))%nat then
          pushRecent
            (fun f => createOpenRecentMenuAction (SingleFolder f)
                        "openRecentFile" false)
            (files ro) MAX_MENU_RECENT_ENTRIES 0%nat result
          ++ [Separator]
        else result in
      result
  end.

(** [insertActionsBefore]: returns [target] after the pushes. *)
Definition insertActionsBefore (s : MenubarPart) (nextAction : RegistryAction)
    (target : list IAction) : list IAction :=
  if String.eqb (id (registry_data nextAction)) "workbench.action.openRecent"
  then target ++ getOpenRecentActions s
  else target.

(** The body of [for (let action of actions)] in [updateActions];
    [submenuOf] is the recursive call, [None] when it does not return. *)
Fixpoint pushActions (s : MenubarPart)
    (submenuOf : MenuId -> option (list IAction))
    (group : list RegistryAction) (target : list IAction)
  : option (list IAction) :=
  match group with
  | [] => Some target
  | action :: rest =>
      let target := insertActionsBefore s action target in
      match action with
      | SubmenuItemAction a submenu =>
          match submenuOf submenu with
          | Some submenuActions =>
              pushActions s submenuOf rest
                (target ++ [SubmenuAction (label a) submenuActions])
          | None => None
          end
      | MenuItemAction a =>
          let a1 :=
            {| id := id a; label := calculateActionLabel s a;
               checked := checked a; enabled := enabled a |} in
          pushActions s submenuOf rest
            (target ++ [RegistryItem (setCheckedStatus s a1)])
      end
  end.

(** The body of [for (let group of groups)]. *)
Fixpoint pushGroups (s : MenubarPart)
    (submenuOf : MenuId -> option (list IAction))
    (groups : list Group) (target : list IAction)
  : option (list IAction) :=
  match groups with
  | [] => Some target
  | (_, group) :: rest =>
      match pushActions s submenuOf group target with
      | Some target' => pushGroups s submenuOf rest (target' ++ [Separator])
      | None => None
      end
  end.

(** [updateActions(menu, target)]: [target.splice(0)], the two loops,
    [target.pop()].  The result is the final content of [target]; [fuel]
    bounds the depth of nested submenus. *)
Fixpoint updateActions (fuel : nat) (s : MenubarPart) (menu : MenuId)
  : option (list IAction) :=
  match fuel with
  | O => None
  | S fuel' =>
      match pushGroups s (updateActions fuel' s) (getActions env menu) [] with
      | Some target => Some (removelast target)
      | None => None
      end
  end.

(** The [items] of one top-level menu in [getMenubarMenus]. *)
Definition menubarMenuItem (s : MenubarPart) (menuItemAction : RegistryAction)
  : IMenubarMenuItem :=
  let item := setCheckedStatus s (registry_data menuItemAction) in
  MenubarItemAction
    {| id := id item; label := calculateActionLabel s item;
       checked := checked item; enabled := enabled item |}.

Fixpoint pushMenubarGroups (s : MenubarPart) (groups : list Group)
    (items : list IMenubarMenuItem) : list IMenubarMenuItem :=
  match groups with
  | [] => items
  | (_, group) :: rest =>
      pushMenubarGroups s rest
        (items ++ map (menubarMenuItem s) group ++ [MenubarItemSeparator])
  end.

Definition menubarMenuItems (s : MenubarPart) (menu : MenuId)
  : list IMenubarMenuItem :=
  let items := pushMenubarGroups s (getActions env menu) [] in
  if (0 <? length items)%nat then removelast items else items.

(** The keys of [topLevelMenus] in insertion order. *)
Definition topLevelMenus : list (string * MenuId) :=
  [("File", MenubarFileMenu); ("Edit", MenubarEditMenu);
   ("Selection", MenubarSelectionMenu); ("View", MenubarViewMenu);
   ("Go", MenubarGoMenu); ("Terminal", MenubarTerminalMenu);
   ("Debug", MenubarDebugMenu); ("Tasks", MenubarTasksMenu);
   ("Help", MenubarHelpMenu)]
  ++ (if isMacintosh env then [("Window", MenubarWindowMenu)] else []).

Definition getMenubarMenus (s : MenubarPart)
  : list (string * list IMenubarMenuItem) :=
  map (fun '(name, menu) => (name, menubarMenuItems s menu)) topLevelMenus.

End Builder.

(** ** Separators in built lists *)

Definition is_separator (a : IAction) : bool :=
  match a with
  | Separator => true
  | _ => false
  end.

Definition is_menubar_separator (a : IMenubarMenuItem) : bool :=
  match a with
  | MenubarItemSeparator => true
  | MenubarItemAction _ => false
  end.

Section Separators.

Context {A : Type} (sep : A -> bool).

Definition count_separators (l : list A) : nat :=
  length (filter sep l).

(** The first entry is a separator. *)
Definition leading_separator (l : list A) : bool :=
  match l with
  | [] => false
  | a :: _ => sep a
  end.

(** The last entry is a separator. *)
Fixpoint trailing_separator (l : list A) : bool :=
  match l with
  | [] => false
  | [a] => sep a
  | _ :: rest => trailing_separator rest
  end.

(** Two separators stand next to each other. *)
Fixpoint adjacent_separators (l : list A) : bool :=
  match l with
  | [] => false
  | a :: rest =>
      (sep a && leading_separator rest) || adjacent_separators rest
  end.

End Separators.

(** The action marks the open-recent slot of [insertActionsBefore]. *)
Definition is_slot (r : RegistryAction) : bool :=
  String.eqb (id (registry_data r)) "workbench.action.openRecent".

(** Number of actions of the groups that mark the open-recent slot. *)
Definition openRecentSlots (groups : list Group) : nat :=
  length (filter is_slot (flat_map snd groups)).

Definition all_groups_nonempty (groups : list Group) : bool :=
  forallb (fun g => negb (Nat.eqb (length (snd g)) 0)) groups.

(** Each body followed by the separator [sp], as the group loops push
    them. *)
Definition joined {A : Type} (sp : A) (bodies : list (list A)) : list A :=
  flat_map (fun body => body ++ [sp]) bodies.

Definition separators_inside {A : Type} (sep : A -> bool)
    (bodies : list (list A)) : nat :=
  list_sum (map (count_separators sep) bodies).

(** The entries [getOpenRecentActions] creates. *)
Definition workspaceEntry (env : Services) (w : RecentWorkspace) : IAction :=
  createOpenRecentMenuAction env w "openRecentWorkspace" false.

Definition fileEntry (env : Services) (f : string) : IAction :=
  createOpenRecentMenuAction env (SingleFolder f) "openRecentFile" false.

Definition separator_if (b : bool) : list IAction :=
  if b then [Separator] else [].

(** Separators of one open-recent expansion: one per non-empty list. *)
Definition recentSeparators (s : MenubarPart) : nat :=
  match recentlyOpened s with
  | None => 0
  | Some ro =>
      (if 0 <? length (workspaces ro) then 1 else 0)
      + (if 0 <? length (files ro) then 1 else 0)
  end%nat.

(** A block of entries closed by a separator, or nothing. *)
Definition closed_block (l : list IAction) : Prop :=
  l = []
  \/ (leading_separator is_separator l = false
      /\ adjacent_separators is_separator l = false
      /\ trailing_separator is_separator l = true).

(** A list with at least one entry, whose first and last entries are not
    separators and in which no two separators are adjacent. *)
Definition tidy {A : Type} (sep : A -> bool) (l : list A) : bool :=
  negb (Nat.eqb (length l) 0)
  && negb (leading_separator sep l)
  && negb (trailing_separator sep l)
  && negb (adjacent_separators sep l).

(** The submenus reachable from [menu] nest less than [depth] deep. *)
Fixpoint nested_within (env : Services) (depth : nat) (menu : MenuId) : bool :=
  match depth with
  | O => false
  | S depth' =>
      forallb
        (fun g : Group =>
           forallb
             (fun r =>
                match r with
                | SubmenuItemAction _ submenu => nested_within env depth' submenu
                | MenuItemAction _ => true
                end)
             (snd g))
        (getActions env menu)
  end.

(** ** The tracker wired to the part *)

(** The singleton tracker's [_keyStatus] object and the part subscribed to
    it ([registerListeners] with the custom title bar). *)
Record Workbench := {
  keyStatus : IModifierKeyStatus;
  part : MenubarPart
}.

(** A DOM event reaches the tracker, which mutates its status and, when it
    fires, calls [onModifierKeyToggled] synchronously.  An exception thrown
    by the listener ends the event; the part keeps its mutations. *)
Definition deliver (ev : DomEvent) (w : Workbench) : Workbench :=
  let '(ks, fired) := handle ev (keyStatus w) in
  {| keyStatus := ks;
     part := match fired with
             | Some status => final_state (onModifierKeyToggled status (part w))
             | None => part w
             end |}.

(** The [CLICK] listener of button [menuIndex]; [_modifierKeyStatus] is read
    through the reference, so it sees the tracker's current [ks]. *)
Definition onButtonClick (ks : IModifierKeyStatus) (menuIndex : JSNumber) : M unit :=
  ref <- gets _modifierKeyStatus ;;
  let chord :=
    match ref with
    | Some TrackerKeyStatus => shiftKey ks || ctrlKey ks
    | None => false
    end in
  if chord then ret tt
  else
    o <- gets isOpen ;;
    if o then
      cur <- gets (isCurrentMenu menuIndex) ;;
      if cur then setUnfocusedState
      else cleanupCustomMenu ;; showCustomMenu menuIndex
    else
      modify (with_focusedMenu
                (Some {| index := menuIndex; holder := None; widget := None |})) ;;
      set_focusState OPEN.

(** Fields no method of the state machine assigns. *)
Definition same_surroundings (s s' : MenubarPart) : Prop :=
  customMenus s' = customMenus s
  /\ container s' = container s
  /\ configuration s' = configuration s
  /\ recentlyOpened s' = recentlyOpened s.

(** The effects of the [forEach] that closes [onModifierKeyToggled]. *)
Definition decorations (menus : list CustomMenu) (underline : bool) : list Effect :=
  map (fun customMenu => TitleDecoration (titleElement customMenu) underline) menus.

Definition titleDecorations (s : MenubarPart) (status : IModifierKeyStatus)
  : list Effect :=
  match customMenus s with
  | Some ms =>
      if currentEnableMenuBarMnemonics s then decorations ms (altKey status)
      else []
  | None => []
  end.

Definition is_visibility_effect (e : Effect) : bool :=
  match e with
  | VisibilityChangeFired _ | ContainerVisibility _ _ => true
  | _ => false
  end.

(** ** Sample values *)

Module Sample.

Definition noConfiguration : string -> JSValue := fun _ => JSUndefined.

Definition toggleConfiguration : string -> JSValue :=
  fun key =>
    if String.eqb key "window.menuBarVisibility" then JSString "toggle"
    else JSUndefined.

Definition button (name : string) (n : nat) : CustomMenu :=
  {| title := name; buttonElement := n; titleElement := (n + 100)%nat;
     actions := Some [] |}.

Definition threeButtons : list CustomMenu :=
  [button "File" 1; button "Edit" 2; button "Help" 3].

(** A built bar with three buttons, hidden, in toggle mode. *)
Definition hiddenBar : MenubarPart :=
  {| _focusState := HIDDEN; focusedMenu := None;
     customMenus := Some threeButtons; updatePending := false;
     focusToReturn := None; container := Some 0%nat;
     recentlyOpened := None; _modifierKeyStatus := None;
     configuration := toggleConfiguration; nextHandle := 1000%nat;
     trace := [] |}.

Definition fiveButtons : list CustomMenu :=
  [button "File" 1; button "Edit" 2; button "Selection" 3; button "View" 4;
   button "Go" 5].

(** A focused bar with five buttons, focus on button [i]. *)
Definition focusedFive (i : Z) : MenubarPart :=
  {| _focusState := FOCUSED;
     focusedMenu := Some {| index := Num i; holder := None; widget := None |};
     customMenus := Some fiveButtons; updatePending := false;
     focusToReturn := None; container := Some 0%nat;
     recentlyOpened := None; _modifierKeyStatus := Some TrackerKeyStatus;
     configuration := noConfiguration; nextHandle := 1000%nat;
     trace := [] |}.

(** The same bar focused on button [i]. *)
Definition focusedBar (i : Z) : MenubarPart :=
  with_focusedMenu (Some {| index := Num i; holder := None; widget := None |})
    (with_focusState FOCUSED hiddenBar).

(** The same bar with the dropdown of button [i] open. *)
Definition openBar (i : Z) : MenubarPart :=
  with_focusedMenu
    (Some {| index := Num i; holder := Some 500%nat; widget := Some 501%nat |})
    (with_focusState OPEN hiddenBar).

Definition plain (name : string) : RegistryAction :=
  MenuItemAction
    {| id := name; label := name; checked := None; enabled := true |}.

Definition openRecent : RegistryAction := plain "workbench.action.openRecent".

(** A registry: File has two groups and a submenu, the recent menu holds
    the open-recent slot, menu [OtherMenu 1] has an empty first group. *)
Definition registry (m : MenuId) : list Group :=
  match m with
  | MenubarFileMenu =>
      [("1_new", [plain "new"]);
       ("2_open",
        [plain "open";
         SubmenuItemAction
           {| id := ""; label := "Open &&Recent"; checked := None;
              enabled := true |} (OtherMenu 0)])]
  | OtherMenu 0 => [("y_more", [openRecent])]
  | OtherMenu 1 => [("a", []); ("b", [plain "x"])]
  | _ => []
  end.

Definition services : Services :=
  {| isMacintosh := false;
     localize := fun _ message => message;
     getPathLabel := fun p => p;
     getWorkspaceLabel := fun _ configPath => configPath;
     getActions := registry |}.

Definition rank (m : MenuId) : nat :=
  match m with
  | MenubarFileMenu => 1
  | _ => 0
  end.

Definition oneRecent : IRecentlyOpened :=
  {| workspaces := [SingleFolder "/w"]; files := [] |}.

Definition sevenRecent : IRecentlyOpened :=
  {| workspaces := map SingleFolder ["/1"; "/2"; "/3"; "/4"; "/5"; "/6"; "/7"];
     files := ["a"; "b"] |}.

Definition withRecent (ro : option IRecentlyOpened) : MenubarPart :=
  {| _focusState := HIDDEN; focusedMenu := None;
     customMenus := Some threeButtons; updatePending := false;
     focusToReturn := None; container := Some 0%nat;
     recentlyOpened := ro; _modifierKeyStatus := None;
     configuration := toggleConfiguration; nextHandle := 1000%nat;
     trace := [] |}.

Definition ctrlHeld : IModifierKeyStatus :=
  {| altKey := false; shiftKey := false; ctrlKey := true;
     lastKeyPressed := Some ctrl; lastKeyReleased := None |}.

Definition afterAltTap : IModifierKeyStatus :=
  {| altKey := false; shiftKey := false; ctrlKey := false;
     lastKeyPressed := Some alt; lastKeyReleased := Some alt |}.

End Sample.

(** ** Event listeners of the buttons, the container and the dropdown *)

(** What the [KEY_DOWN] listener of the container reads from its
    [StandardKeyboardEvent]. *)
Record ContainerKey := {
  (* [event.equals(KeyCode.LeftArrow)] *)
  equalsLeftArrow : bool;
  (* [event.shiftKey && event.keyCode === KeyCode.Tab] *)
  shiftAndTab : bool;
  (* [event.equals(KeyCode.RightArrow)] *)
  equalsRightArrow : bool;
  (* [event.equals(KeyCode.Tab)] *)
  equalsTab : bool;
  (* [event.equals(KeyCode.Escape)] *)
  equalsEscape : bool
}.

(** The [KEY_DOWN] listener of the container; the result is
    [eventHandled]. *)
Definition onContainerKeyDown (k : ContainerKey) : M bool :=
  if equalsLeftArrow k || shiftAndTab k then focusPrevious ;; ret true
  else if equalsRightArrow k || equalsTab k then focusNext ;; ret true
  else
    f <- gets isFocused ;;
    o <- gets isOpen ;;
    if equalsEscape k && f && negb o then setUnfocusedState ;; ret true
    else ret false.

(** The [KEY_UP] listener of button [menuIndex]; [downArrowOrEnter] is
    [event.equals(KeyCode.DownArrow) || event.equals(KeyCode.Enter)]; the
    result is [eventHandled]. *)
Definition onButtonKeyUp (downArrowOrEnter : bool) (menuIndex : JSNumber) : M bool :=
  o <- gets isOpen ;;
  if downArrowOrEnter && negb o then
    modify (with_focusedMenu
              (Some {| index := menuIndex; holder := None; widget := None |})) ;;
    set_focusState OPEN ;;
    ret true
  else ret false.

(** The [MOUSE_ENTER] listener of button [menuIndex]. *)
Definition onButtonMouseEnter (menuIndex : JSNumber) : M unit :=
  o <- gets isOpen ;;
  cur <- gets (isCurrentMenu menuIndex) ;;
  if o && negb cur then
    b <- customMenuAt menuIndex ;;
    emit (DomFocus (buttonElement b)) ;;
    cleanupCustomMenu ;;
    showCustomMenu menuIndex
  else
    f <- gets isFocused ;;
    o <- gets isOpen ;;
    when (f && negb o)
      (modify (with_focusedMenu
                 (Some {| index := menuIndex; holder := None; widget := None |})) ;;
       b <- customMenuAt menuIndex ;;
       emit (DomFocus (buttonElement b))).

(** The [CLICK] listener of the window: a click outside the bar. *)
Definition onWindowClick : M unit :=
  f <- gets isFocused ;;
  when f setUnfocusedState.

(** The [FOCUS_IN] listener of the container; [inside] is
    [container.contains(event.relatedTarget)]. *)
Definition onContainerFocusIn (relatedTarget : option Builder) (inside : bool)
  : M unit :=
  match relatedTarget with
  | Some target =>
      _ <- (o <- gets container ;; deref o) ;;
      when (negb inside) (modify (with_focusToReturn (Some target)))
  | None => ret tt
  end.

(** The [FOCUS_OUT] listener of the container. *)
Definition onContainerFocusOut (relatedTarget : option Builder) (inside : bool)
  : M unit :=
  match relatedTarget with
  | Some _ =>
      _ <- (o <- gets container ;; deref o) ;;
      when (negb inside)
        (modify (with_focusToReturn None) ;; setUnfocusedState)
  | None => ret tt
  end.

(** [menuWidget.onDidCancel] *)
Definition onMenuCancel : M unit := set_focusState FOCUSED.

(** The timeout started by [menuWidget.onDidBlur]. *)
Definition onMenuBlurTimeout : M unit := cleanupCustomMenu.

(** [actionRunner.onDidBeforeRun] *)
Definition onDidBeforeRun : M unit := setUnfocusedState.

(** Everything that drives the state machine once the bar is built.  A
    click carries the tracker's status at the time of the click. *)
Inductive MenubarEvent :=
| ModifierKeyToggled (status : IModifierKeyStatus)
| ButtonKeyUp (downArrowOrEnter : bool) (menuIndex : JSNumber)
| ButtonClick (ks : IModifierKeyStatus) (menuIndex : JSNumber)
| ButtonMouseEnter (menuIndex : JSNumber)
| ContainerKeyDown (k : ContainerKey)
| WindowClick
| ContainerFocusIn (relatedTarget : option Builder) (inside : bool)
| ContainerFocusOut (relatedTarget : option Builder) (inside : bool)
| MenuCancel
| MenuBlurTimeout
| WindowFocusChanged (hasFocus : bool)
| BeforeActionRun.

Definition dispatch (ev : MenubarEvent) : M unit :=
  match ev with
  | ModifierKeyToggled status => onModifierKeyToggled status
  | ButtonKeyUp k menuIndex => _ <- onButtonKeyUp k menuIndex ;; ret tt
  | ButtonClick ks menuIndex => onButtonClick ks menuIndex
  | ButtonMouseEnter menuIndex => onButtonMouseEnter menuIndex
  | ContainerKeyDown k => _ <- onContainerKeyDown k ;; ret tt
  | WindowClick => onWindowClick
  | ContainerFocusIn target inside => onContainerFocusIn target inside
  | ContainerFocusOut target inside => onContainerFocusOut target inside
  | MenuCancel => onMenuCancel
  | MenuBlurTimeout => onMenuBlurTimeout
  | WindowFocusChanged hasFocus => onDidChangeWindowFocus hasFocus
  | BeforeActionRun => onDidBeforeRun
  end.

(** The events of a list, one after the other; an exception ends the event
    that raised it and the next event sees the part as it was left. *)
Definition dispatchAll (evs : list MenubarEvent) (s : MenubarPart) : MenubarPart :=
  fold_left (fun s ev => final_state (dispatch ev s)) evs s.

(** The button index an event carries is a position of [n] buttons. *)
Definition index_in_range (n : Z) (i : JSNumber) : Prop :=
  match i with
  | Num z => 0 <= z < n
  | NaN => False
  end.

Definition event_in_range (n : Z) (ev : MenubarEvent) : Prop :=
  match ev with
  | ButtonKeyUp _ i | ButtonClick _ i | ButtonMouseEnter i => index_in_range n i
  | _ => True
  end.

(** The bar has been built: the container and at least one button exist. *)
Definition built (s : MenubarPart) : Prop :=
  (exists c, container s = Some c)
  /\ (exists m ms, customMenus s = Some (m :: ms)).

Definition button_count (s : MenubarPart) : Z :=
  match customMenus s with
  | Some menus => Z.of_nat (length menus)
  | None => 0
  end.

(** The focused menu, when there is one, points at an existing button. *)
Definition focus_in_range (s : MenubarPart) : Prop :=
  match focusedMenu s with
  | None => True
  | Some fm => index_in_range (button_count s) (index fm)
  end.

(** The focused menu, when there is one, belongs to a focused bar, points
    at an existing button, and holds a dropdown only while the bar is
    open. *)
Definition focus_consistent (s : MenubarPart) : Prop :=
  match focusedMenu s with
  | None => True
  | Some fm =>
      isFocused s = true
      /\ index_in_range (button_count s) (index fm)
      /\ (isOpen s = false -> holder fm = None /\ widget fm = None)
  end.

(** The resting state of [setUnfocusedState]. *)
Definition restingState (s : MenubarPart) : MenubarState :=
  if js_string_is (currentMenubarVisibility s) "toggle" then HIDDEN else VISIBLE.

(** [focusedMenu] without its dropdown. *)
Definition closed (fm : FocusedMenu) : FocusedMenu :=
  {| index := index fm; holder := None; widget := None |}.

(** [focusedMenu] after [focusState = value] returned normally. *)
Definition focusedMenu_after (value : MenubarState) (s : MenubarPart)
  : option FocusedMenu :=
  if state_eq value (_focusState s) then focusedMenu s
  else
    match value with
    | HIDDEN | VISIBLE => if isFocused s then None else focusedMenu s
    | FOCUSED =>
        if isOpen s then option_map closed (focusedMenu s) else focusedMenu s
    | OPEN =>
        option_map
          (fun fm => {| index := index fm;
                        holder := Some (nextHandle s);
                        widget := Some (S (nextHandle s)) |})
          (focusedMenu s)
    end.

(** Number of visibility notifications in a trace. *)
Definition visibility_notifications (t : list Effect) : nat :=
  length (filter (fun e => match e with
                           | VisibilityChangeFired _ => true
                           | _ => false
                           end) t).

Definition updater_schedules (t : list Effect) : nat :=
  length (filter (fun e => match e with
                           | MenuUpdaterScheduled => true
                           | _ => false
                           end) t).

(** A built bar in a consistent focus condition. *)
Definition well_formed (s : MenubarPart) : Prop :=
  built s /\ focus_consistent s.

(** All the events of a list return normally, each one run on the part the
    events before it left. *)
Fixpoint allReturn (evs : list MenubarEvent) (s : MenubarPart) : bool :=
  match evs with
  | [] => true
  | ev :: rest =>
      returned (dispatch ev s) && allReturn rest (final_state (dispatch ev s))
  end.

(** [m] run [k] times. *)
Fixpoint times (k : nat) (m : M unit) : M unit :=
  match k with
  | O => ret tt
  | S k' => m ;; times k' m
  end.

(** The status fired when Alt is released after being pressed alone. *)
Definition is_alt_tap (status : IModifierKeyStatus) : bool :=
  negb (altKey status) && negb (ctrlKey status) && negb (shiftKey status)
  && lastIs (lastKeyPressed status) alt
  && lastIs (lastKeyReleased status) alt.

(** Modifier [m] goes from pressed to not pressed in key-up [e]. *)
Definition newly_released (m : ModifierKey) (e : KeyboardEvent)
    (ks : IModifierKeyStatus) : bool :=
  match m with
  | alt => negb (e_altKey e) && altKey ks
  | ctrl => negb (e_ctrlKey e) && ctrlKey ks
  | shift => negb (e_shiftKey e) && shiftKey ks
  end.

(** No tracked modifier is down in the status. *)
Definition all_released (status : IModifierKeyStatus) : bool :=
  negb (altKey status) && negb (ctrlKey status) && negb (shiftKey status).



(** Entries of a built list that stand for a registry action. *)
Definition is_registry_entry (e : IAction) : bool :=
  match e with
  | RegistryItem _ | SubmenuAction _ _ => true
  | OpenWindowAction _ _ _ | Separator => false
  end.

(** Entry [e] is what [updateActions] pushes for registry action [r], the
    submenus being built by [submenuOf]. *)
Definition entry_matches (env : Services) (s : MenubarPart)
    (submenuOf : MenuId -> option (list IAction))
    (r : RegistryAction) (e : IAction) : Prop :=
  match r with
  | MenuItemAction a =>
      e = RegistryItem
            (setCheckedStatus s
               {| id := id a; label := calculateActionLabel env s a;
                  checked := checked a; enabled := enabled a |})
  | SubmenuItemAction a submenu =>
      exists submenuActions,
        submenuOf submenu = Some submenuActions
        /\ e = SubmenuAction (label a) submenuActions
  end.

(** ** Building the buttons ([setupCustomMenubar]) *)

Definition with_customMenus (v : option (list CustomMenu)) (s : MenubarPart) :=
  {| _focusState := _focusState s; focusedMenu := focusedMenu s;
     customMenus := v; updatePending := updatePending s;
     focusToReturn := focusToReturn s; container := container s;
     recentlyOpened := recentlyOpened s;
     _modifierKeyStatus := _modifierKeyStatus s;
     configuration := configuration s; nextHandle := nextHandle s;
     trace := trace s |}.

(** [this.topLevelTitles[menuTitle]]; the object has no ['Window'] key. *)
Definition topLevelTitles (env : Services) (menuTitle : string) : option string :=
  if String.eqb menuTitle "File" then Some (localize env "mFile" "&&File")
  else if String.eqb menuTitle "Edit" then Some (localize env "mEdit" "&&Edit")
  else if String.eqb menuTitle "Selection" then
    Some (localize env "mSelection" "&&Selection")
  else if String.eqb menuTitle "View" then Some (localize env "mView" "&&View")
  else if String.eqb menuTitle "Go" then Some (localize env "mGoto" "&&Go")
  else if String.eqb menuTitle "Terminal" then
    Some (localize env "mTerminal" "Ter&&minal")
  else if String.eqb menuTitle "Debug" then Some (localize env "mDebug" "&&Debug")
  else if String.eqb menuTitle "Tasks" then Some (localize env "mTasks" "&&Tasks")
  else if String.eqb menuTitle "Help" then Some (localize env "mHelp" "&&Help")
  else None.

(** [menus[menuIndex].actions = v] on an existing entry. *)
Fixpoint set_actions (menuIndex : nat) (v : option (list IAction))
    (menus : list CustomMenu) : list CustomMenu :=
  match menus, menuIndex with
  | [], _ => []
  | customMenu :: rest, O =>
      {| title := title customMenu;
         buttonElement := buttonElement customMenu;
         titleElement := titleElement customMenu;
         actions := v |} :: rest
  | customMenu :: rest, S n => customMenu :: set_actions n v rest
  end.

(** The part of one round of the loop of [setupCustomMenubar] that comes
    before [updateActions]: on the first setup the two elements of the
    button are created and the button is pushed; the title of the menu is
    read (a [TypeError] when [topLevelTitles] has no such key) and
    [customMenus[menuIndex]] is dereferenced.  Writes to the DOM of the title
    and the listeners added to the button are outside the fields of the
    part. *)
Definition prepareButton (env : Services) (firstTimeSetup : bool)
    (menuTitle : string) (menuIndex : nat) : M CustomMenu :=
  when firstTimeSetup
    (buttonElement <- fresh ;;
     _ <- deref (topLevelTitles env menuTitle) ;;
     titleElement <- fresh ;;
     menus <- (o <- gets customMenus ;; deref o) ;;
     modify (with_customMenus
               (Some (menus ++ [{| title := menuTitle;
                                   buttonElement := buttonElement;
                                   titleElement := titleElement;
                                   actions := None |}])))) ;;
  _ <- deref (topLevelTitles env menuTitle) ;;
  customMenuAt (Num (Z.of_nat menuIndex)).

(** One round of the loop; [None] when [updateActions] does not return. *)
Definition setupMenu (env : Services) (fuel : nat) (firstTimeSetup : bool)
    (menuTitle : string) (menu : MenuId) (menuIndex : nat) (s : MenubarPart)
  : option (result unit) :=
  match prepareButton env firstTimeSetup menuTitle menuIndex s with
  | Throw e s' => Some (Throw e s')
  | Ok _ s1 =>
      match updateActions env fuel s1 menu with
      | None => None
      | Some target =>
          Some (Ok tt
                  (with_customMenus
                     (option_map (set_actions menuIndex (Some target))
                        (customMenus s1)) s1))
      end
  end.

(** [for (let menuTitle of Object.keys(this.topLevelMenus))] with
    [menuIndex = idx++]. *)
Fixpoint setupMenus (env : Services) (fuel : nat) (firstTimeSetup : bool)
    (menus : list (string * MenuId)) (idx : nat) (s : MenubarPart)
  : option (result unit) :=
  match menus with
  | [] => Some (Ok tt s)
  | (menuTitle, menu) :: rest =>
      match setupMenu env fuel firstTimeSetup menuTitle menu idx s with
      | Some (Ok _ s') => setupMenus env fuel firstTimeSetup rest (S idx) s'
      | other => other
      end
  end.

(** [setupCustomMenubar]: postponed while the bar is focused; otherwise
    the container is dereferenced, the button array is created when it is
    undefined, and every top-level menu gets its round. *)
Definition setupCustomMenubar (env : Services) (fuel : nat) (s : MenubarPart)
  : option (result unit) :=
  if isFocused s then Some (Ok tt (with_updatePending true s))
  else
    match container s with
    | None => Some (Throw TypeError s)
    | Some _ =>
        match customMenus s with
        | None =>
            setupMenus env fuel true (topLevelMenus env) 0
              (with_customMenus (Some []) s)
        | Some _ => setupMenus env fuel false (topLevelMenus env) 0 s
        end
    end.

(** The buttons apart from their action lists. *)
Definition button_elements (menus : list CustomMenu)
  : list (string * Builder * Builder) :=
  map (fun customMenu =>
         (title customMenu, buttonElement customMenu, titleElement customMenu))
    menus.

(** The buttons after a rebuild: each one keeps its elements and gets the
    list built for its menu. *)
Fixpoint refreshed (env : Services) (fuel : nat) (s : MenubarPart)
    (menus : list (string * MenuId)) (buttons : list CustomMenu)
  : list CustomMenu :=
  match menus, buttons with
  | (_, menu) :: menus', customMenu :: buttons' =>
      {| title := title customMenu;
         buttonElement := buttonElement customMenu;
         titleElement := titleElement customMenu;
         actions := updateActions env fuel s menu |}
      :: refreshed env fuel s menus' buttons'
  | _, _ => buttons
  end.

(** The buttons made by the first setup, with handles from [handle] on. *)
Fixpoint created (env : Services) (fuel : nat) (s : MenubarPart)
    (menus : list (string * MenuId)) (handle : nat) : list CustomMenu :=
  match menus with
  | [] => []
  | (menuTitle, menu) :: rest =>
      {| title := menuTitle; buttonElement := handle;
         titleElement := S handle;
         actions := updateActions env fuel s menu |}
      :: created env fuel s rest (S (S handle))
  end.

(** Every menu of the list has a title and is built with [fuel]. *)
Definition buildable (env : Services) (fuel : nat) (s : MenubarPart)
    (menus : list (string * MenuId)) : bool :=
  forallb
    (fun p : string * MenuId =>
       match topLevelTitles env (fst p), updateActions env fuel s (snd p) with
       | Some _, Some _ => true
       | _, _ => false
       end)
    menus.

(** The fields [setupCustomMenubar] leaves alone. *)
Definition same_but_buttons (s s' : MenubarPart) : Prop :=
  _focusState s' = _focusState s
  /\ focusedMenu s' = focusedMenu s
  /\ updatePending s' = updatePending s
  /\ focusToReturn s' = focusToReturn s
  /\ container s' = container s
  /\ recentlyOpened s' = recentlyOpened s
  /\ _modifierKeyStatus s' = _modifierKeyStatus s
  /\ configuration s' = configuration s
  /\ trace s' = trace s.

(** The elements of the buttons, in creation order. *)
Definition handles (menus : list CustomMenu) : list Builder :=
  flat_map (fun customMenu =>
              [buttonElement customMenu; titleElement customMenu])
    menus.

(** The lists [updateActions] builds for the menus. *)
Definition builtActions (env : Services) (fuel : nat) (s : MenubarPart)
    (menus : list (string * MenuId)) : list (option (list IAction)) :=
  map (fun p : string * MenuId => updateActions env fuel s (snd p)) menus.

(** ** More sample values *)

Module Scenario.


(** A part that has its container but no buttons yet. *)
Definition unbuilt (cfg : string -> JSValue) : MenubarPart :=
  {| _focusState := HIDDEN; focusedMenu := None; customMenus := None;
     updatePending := false; focusToReturn := None; container := Some 0%nat;
     recentlyOpened := None; _modifierKeyStatus := None;
     configuration := cfg; nextHandle := 1%nat; trace := [] |}.

Definition saveAs : ActionData :=
  {| id := "workbench.action.files.saveAs"; label := "Save &&As...";
     checked := None; enabled := true |}.

(** A registry in which the File menu holds itself as a submenu. *)
Definition loopingRegistry (m : MenuId) : list Group :=
  match m with
  | MenubarFileMenu =>
      [("1", [MenuItemAction saveAs;
              SubmenuItemAction saveAs MenubarFileMenu])]
  | _ => []
  end.

Definition loopingServices : Services :=
  {| isMacintosh := false;
     localize := fun _ message => message;
     getPathLabel := fun p => p;
     getWorkspaceLabel := fun _ configPath => configPath;
     getActions := loopingRegistry |}.

(** Nine buttons with empty lists, as the first setup names them. *)
Definition nineButtons : list CustomMenu :=
  [Sample.button "File" 1; Sample.button "Edit" 2;
   Sample.button "Selection" 3; Sample.button "View" 4;
   Sample.button "Go" 5; Sample.button "Terminal" 6;
   Sample.button "Debug" 7; Sample.button "Tasks" 8;
   Sample.button "Help" 9].

(** A hidden bar with these buttons. *)
Definition nineBar : MenubarPart :=
  with_customMenus (Some nineButtons) (unbuilt Sample.noConfiguration).

(** A run of listeners on a bar of three buttons. *)
Definition session : list MenubarEvent :=
  [ModifierKeyToggled Sample.afterAltTap;
   ContainerKeyDown
     {| equalsLeftArrow := false; shiftAndTab := false;
        equalsRightArrow := true; equalsTab := false;
        equalsEscape := false |};
   ButtonKeyUp true (Num 2);
   ButtonMouseEnter (Num 0);
   MenuCancel;
   WindowFocusChanged false].


End Scenario.

(** * Properties *)

(** ** Modifier key tracker *)

Section TrackerFacts.

Variables (e : KeyboardEvent) (ks : IModifierKeyStatus).

(** What [blur] does to each field. *)
Lemma blur_fields :
  let ks' := fst (blur ks) in
  altKey ks' = false /\ shiftKey ks' = false /\ ctrlKey ks' = ctrlKey ks
  /\ lastKeyPressed ks' = None /\ lastKeyReleased ks' = None
  /\ snd (blur ks) = Some ks'.
Proof. cbn. repeat split. Qed.

(** [keydown] fires exactly when it left [lastKeyPressed] set. *)
Lemma keydown_fires_iff :
  snd (keydown e ks) = Some (fst (keydown e ks))
  /\ lastKeyPressed (fst (keydown e ks)) <> None
  \/ snd (keydown e ks) = None
     /\ lastKeyPressed (fst (keydown e ks)) = None.
Proof.
  unfold keydown; cbn.
  destruct (e_altKey e && negb (altKey ks));
    [left; split; [reflexivity | discriminate] |].
  destruct (e_ctrlKey e && negb (ctrlKey ks));
    [left; split; [reflexivity | discriminate] |].
  destruct (e_shiftKey e && negb (shiftKey ks));
    [left; split; [reflexivity | discriminate] |].
  right; split; reflexivity.
Qed.

(** The modifier recorded by [keydown] is one that was newly pressed, and
    none is recorded only when none was. *)
Lemma keydown_records :
  match lastKeyPressed (fst (keydown e ks)) with
  | Some m => newly_pressed m e ks = true
  | None => forall m, newly_pressed m e ks = false
  end.
Proof.
  unfold keydown; cbn.
  destruct (e_altKey e && negb (altKey ks)) eqn:Ha; cbn; [exact Ha |].
  destruct (e_ctrlKey e && negb (ctrlKey ks)) eqn:Hc; cbn; [exact Hc |].
  destruct (e_shiftKey e && negb (shiftKey ks)) eqn:Hs; cbn; [exact Hs |].
  intros [| |]; assumption.
Qed.

End TrackerFacts.

(** C7 (code evaluated at the failing input): after ctrl goes down on the
    fresh tracker, a window blur clears [altKey], [shiftKey] and both last
    fields and fires, but [ctrlKey] is still true. *)
Theorem blur_leaves_ctrlKey_set :
  let held := fst (keydown (mods false true false) initial) in
  ctrlKey held = true
  /\ ctrlKey (fst (blur held)) = true
  /\ altKey (fst (blur held)) = false
  /\ shiftKey (fst (blur held)) = false
  /\ lastKeyPressed (fst (blur held)) = None
  /\ lastKeyReleased (fst (blur held)) = None
  /\ snd (blur held) = Some (fst (blur held)).
Proof. cbn. repeat split. Qed.

(** C8 as stated fails: after an Alt tap, ctrl going down is a transition
    from not pressed to pressed, it is recorded as [lastKeyPressed] and
    fired, yet [lastKeyReleased] is still [alt], not cleared. *)
Lemma keydown_keeps_lastKeyReleased :
  let ks := run [KeyDown (mods true false false); KeyUp (mods false false false)]
                initial in
  let e := mods false true false in
  newly_pressed ctrl e ks = true
  /\ lastKeyPressed (fst (keydown e ks)) = Some ctrl
  /\ lastKeyReleased (fst (keydown e ks)) = Some alt
  /\ lastKeyReleased (fst (keydown e ks)) <> None.
Proof. cbn. repeat split. discriminate. Qed.

(** C8 (amended): on a key-down in which some tracked modifier goes from
    not pressed to pressed, the tracker records such a modifier as
    [lastKeyPressed] (alt before ctrl before shift) and leaves
    [lastKeyReleased] as it was; on every key-down a status event is emitted
    if and only if [lastKeyPressed] was set by that call, so a key-down in
    which no modifier newly goes down emits nothing. *)
Theorem keydown_records_pressed_modifier :
  forall (e : KeyboardEvent) (ks : IModifierKeyStatus),
    let ks' := fst (keydown e ks) in
    (forall m, newly_pressed m e ks = true ->
       exists m',
         lastKeyPressed ks' = Some m' /\ newly_pressed m' e ks = true
         /\ (newly_pressed alt e ks = true -> m' = alt)
         /\ (newly_pressed alt e ks = false ->
             newly_pressed ctrl e ks = true -> m' = ctrl))
    /\ lastKeyReleased ks' = lastKeyReleased ks
    /\ (snd (keydown e ks) <> None <-> lastKeyPressed ks' <> None)
    /\ ((forall m, newly_pressed m e ks = false) -> snd (keydown e ks) = None).
Proof.
  intros e ks ks'.
  pose proof (keydown_records e ks) as Hrec.
  pose proof (keydown_fires_iff e ks) as Hfire.
  fold ks' in Hrec, Hfire.
  split; [| split; [| split]].
  - intros m Hm.
    destruct (lastKeyPressed ks') as [m'|] eqn:Hlast;
      [| rewrite Hrec in Hm; discriminate].
    exists m'. repeat split; trivial.
    + intros Ha. subst ks'. unfold keydown in Hlast; cbn in Hlast, Ha.
      rewrite Ha in Hlast. cbn in Hlast. congruence.
    + intros Ha Hc. subst ks'. unfold keydown in Hlast; cbn in Hlast, Ha, Hc.
      rewrite Ha, Hc in Hlast. cbn in Hlast. congruence.
  - subst ks'. unfold keydown; cbn.
    repeat match goal with |- context [if ?b then _ else _] => destruct b end;
      reflexivity.
  - destruct Hfire as [[H1 H2] | [H1 H2]].
    + split; intros _; [exact H2 | rewrite H1; discriminate].
    + split; intros H; [rewrite H1 in H | rewrite H2 in H];
        exfalso; apply H; reflexivity.
  - intros Hnone. destruct Hfire as [[_ H2] | [H1 _]]; [| exact H1].
    destruct (lastKeyPressed ks') as [k|];
      [| exfalso; apply H2; reflexivity].
    rewrite Hnone in Hrec. discriminate.
Qed.

Lemma keydown_records_pressed_modifier_witness :
  newly_pressed ctrl (mods false true true) initial = true
  /\ exists m',
       lastKeyPressed (fst (keydown (mods false true true) initial)) = Some m'
       /\ m' = ctrl.
Proof.
  split; [reflexivity |].
  destruct (keydown_records_pressed_modifier (mods false true true) initial)
    as [Hrec _].
  destruct (Hrec ctrl eq_refl) as [m' [Hlast [_ [_ Hctrl]]]].
  exists m'. split; [exact Hlast | apply Hctrl; reflexivity].
Defined.

(** ** Configuration getters *)

(** C9: when the configuration store holds a value that is not a boolean
    under [window.enableMenuBarMnemonics], [workbench.statusBar.visible] or
    [workbench.activityBar.visible], the getter of that setting returns
    [true]; a stored boolean is returned as it is.  The getters are total:
    no value of the store makes them throw. *)
Theorem boolean_getters_default_true :
  forall s : MenubarPart,
    (is_boolean (configuration s "window.enableMenuBarMnemonics") = false ->
     currentEnableMenuBarMnemonics s = true)
    /\ (is_boolean (configuration s "workbench.statusBar.visible") = false ->
        currentStatusBarVisibility s = true)
    /\ (is_boolean (configuration s "workbench.activityBar.visible") = false ->
        currentActivityBarVisibility s = true)
    /\ (forall b, configuration s "window.enableMenuBarMnemonics" = JSBoolean b ->
                  currentEnableMenuBarMnemonics s = b)
    /\ (forall b, configuration s "workbench.statusBar.visible" = JSBoolean b ->
                  currentStatusBarVisibility s = b)
    /\ (forall b, configuration s "workbench.activityBar.visible" = JSBoolean b ->
                  currentActivityBarVisibility s = b).
Proof.
  intros s.
  unfold currentEnableMenuBarMnemonics, currentStatusBarVisibility,
    currentActivityBarVisibility.
  repeat split;
    try (intros b Hb; rewrite Hb; reflexivity);
    intros H;
    match goal with
    | |- boolean_or_true ?v = true => destruct v; try reflexivity; discriminate H
    end.
Qed.

Lemma boolean_getters_default_true_witness :
  currentEnableMenuBarMnemonics Sample.hiddenBar = true
  /\ currentStatusBarVisibility Sample.hiddenBar = true
  /\ currentActivityBarVisibility Sample.hiddenBar = true.
Proof.
  destruct (boolean_getters_default_true Sample.hiddenBar)
    as [Hm [Hs [Ha _]]].
  split; [apply Hm; reflexivity |].
  split; [apply Hs; reflexivity | apply Ha; reflexivity].
Defined.

(** ** Focus state machine *)

Lemma state_eq_refl : forall v, state_eq v v = true.
Proof. intros []; reflexivity. Qed.

Lemma losing_focus_irreflexive :
  forall v, state_ge v FOCUSED && state_lt v FOCUSED = false.
Proof. intros []; reflexivity. Qed.

(** Assigning the current state returns at the early [return]. *)
Lemma set_focusState_current :
  forall s, set_focusState (_focusState s) s = Ok tt s.
Proof.
  intros s. unfold set_focusState, bind, gets, when.
  rewrite losing_focus_irreflexive. cbn.
  rewrite state_eq_refl. reflexivity.
Qed.

(** C1: for every state S, assigning S to [focusState] while the current
    state is S returns with the part exactly as it was: same state, same
    [focusedMenu], same pending flag and the same effect trace, so the bar
    is neither shown nor hidden, no dropdown is opened or closed and no
    visibility notification fires. *)
Theorem set_focusState_same_is_noop :
  forall (S : MenubarState) (s : MenubarPart),
    _focusState s = S ->
    set_focusState S s = Ok tt s
    /\ trace (final_state (set_focusState S s)) = trace s
    /\ focusedMenu (final_state (set_focusState S s)) = focusedMenu s.
Proof.
  intros S s <-. rewrite set_focusState_current. repeat split.
Qed.

Lemma set_focusState_same_is_noop_witness :
  set_focusState OPEN (Sample.openBar 1) = Ok tt (Sample.openBar 1).
Proof.
  apply (set_focusState_same_is_noop OPEN (Sample.openBar 1)). reflexivity.
Defined.

Lemma cleanupCustomMenu_spec :
  forall s,
    exists s',
      cleanupCustomMenu s = Ok tt s'
      /\ focusedMenu s' =
         match focusedMenu s with
         | Some fm => Some {| index := index fm; holder := None; widget := None |}
         | None => None
         end
      /\ _focusState s' = _focusState s
      /\ updatePending s' = updatePending s
      /\ focusToReturn s' = focusToReturn s
      /\ nextHandle s' = nextHandle s
      /\ same_surroundings s s'.
Proof.
  intros s. unfold cleanupCustomMenu, bind, gets, same_surroundings.
  destruct (focusedMenu s) as [[i [h|] [w|]]|] eqn:Hfm; cbn;
    eexists; (split; [reflexivity |]); cbn; rewrite ?Hfm; repeat split.
Qed.

(** C10: [cleanupCustomMenu] with a focused menu returns normally, leaves
    [focusedMenu.index] and [_focusState] as they were and drops only the
    holder and the widget of the focused menu. *)
Theorem cleanupCustomMenu_keeps_index :
  forall (s : MenubarPart) (fm : FocusedMenu),
    focusedMenu s = Some fm ->
    exists s',
      cleanupCustomMenu s = Ok tt s'
      /\ focusedMenu s' =
         Some {| index := index fm; holder := None; widget := None |}
      /\ _focusState s' = _focusState s
      /\ updatePending s' = updatePending s
      /\ focusToReturn s' = focusToReturn s
      /\ customMenus s' = customMenus s.
Proof.
  intros s fm Hfm.
  destruct (cleanupCustomMenu_spec s)
    as [s' [Hrun [Hf [Hst [Hup [Hret [_ [Hcm _]]]]]]]].
  exists s'. rewrite Hfm in Hf. repeat split; assumption.
Qed.

Lemma cleanupCustomMenu_keeps_index_witness :
  exists s',
    cleanupCustomMenu (Sample.openBar 2) = Ok tt s'
    /\ focusedMenu s' = Some {| index := Num 2; holder := None; widget := None |}
    /\ _focusState s' = OPEN.
Proof.
  destruct (cleanupCustomMenu_keeps_index (Sample.openBar 2)
              {| index := Num 2; holder := Some 500%nat; widget := Some 501%nat |}
              eq_refl)
    as [s' [Hrun [Hf [Hst _]]]].
  exists s'. repeat split; assumption.
Defined.

Lemma with_trace_same :
  forall s, with_trace (trace s ++ []) s = s.
Proof. intros []; cbn. rewrite app_nil_r. reflexivity. Qed.

Lemma with_trace_twice :
  forall s l1 l2,
    with_trace (trace (with_trace (trace s ++ l1) s) ++ l2)
      (with_trace (trace s ++ l1) s)
    = with_trace (trace s ++ l1 ++ l2) s.
Proof. intros [] l1 l2; cbn. rewrite app_assoc. reflexivity. Qed.

Lemma decorateTitles_run :
  forall ms u s,
    decorateTitles ms u s = Ok tt (with_trace (trace s ++ decorations ms u) s).
Proof.
  induction ms as [|m ms IH]; intros u s.
  - cbn. rewrite with_trace_same. reflexivity.
  - cbn [decorateTitles]. unfold bind, emit, modify.
    rewrite IH. rewrite with_trace_twice. reflexivity.
Qed.

Lemma decorations_not_visibility :
  forall ms u, forallb (fun e => negb (is_visibility_effect e)) (decorations ms u) = true.
Proof. unfold decorations. induction ms; intros u; cbn; auto. Qed.

Lemma lastIs_alt :
  forall k, lastIs k alt = true <-> k = Some alt.
Proof. intros [[| |]|]; cbn; split; congruence. Qed.

(** An event whose last pressed key is not Alt leaves a hidden bar hidden:
    the only effects are title decorations. *)
Lemma hidden_stays_hidden :
  forall s status,
    _focusState s = HIDDEN ->
    lastKeyPressed status <> Some alt ->
    exists s',
      onModifierKeyToggled status s = Ok tt s'
      /\ _focusState s' = HIDDEN
      /\ focusedMenu s' = focusedMenu s
      /\ trace s' = trace s ++ titleDecorations s status
      /\ same_surroundings s s'.
Proof.
  intros s status Hs Hk.
  assert (Hl : lastIs (lastKeyPressed status) alt = false).
  { destruct (lastIs (lastKeyPressed status) alt) eqn:E; [| reflexivity].
    apply lastIs_alt in E. contradiction. }
  unfold onModifierKeyToggled. rewrite Hl.
  destruct s as [st fm cm up fr ct ro mk cfg nh tr]. cbn in Hs. subst st.
  unfold titleDecorations, currentEnableMenuBarMnemonics, same_surroundings.
  unfold bind, gets, modify, when, currentMenubarVisibility,
    currentEnableMenuBarMnemonics; cbn.
  destruct (js_string_is (cfg "window.menuBarVisibility") "toggle");
    destruct (altKey status), (ctrlKey status), (shiftKey status); cbn;
    destruct cm as [ms|];
    destruct (boolean_or_true (cfg "window.enableMenuBarMnemonics")); cbn;
    rewrite ?decorateTitles_run; cbn;
    eexists; (split; [reflexivity |]); cbn; rewrite ?app_nil_r;
    repeat split.
Qed.

(** C3: in toggle mode with the bar HIDDEN, the events for ctrl going down
    and then shift going down (Alt up in both) are handled without error
    and the state is HIDDEN after each; no visibility notification is fired
    and the container is not shown. *)
Theorem chord_keeps_bar_hidden :
  forall (s : MenubarPart) (ctrlDown shiftDown : IModifierKeyStatus),
    _focusState s = HIDDEN ->
    js_string_is (currentMenubarVisibility s) "toggle" = true ->
    lastKeyPressed ctrlDown = Some ctrl ->
    altKey ctrlDown = false -> ctrlKey ctrlDown = true ->
    lastKeyPressed shiftDown = Some shift ->
    altKey shiftDown = false -> ctrlKey shiftDown = true ->
    shiftKey shiftDown = true ->
    exists s1 s2,
      onModifierKeyToggled ctrlDown s = Ok tt s1
      /\ _focusState s1 = HIDDEN
      /\ onModifierKeyToggled shiftDown s1 = Ok tt s2
      /\ _focusState s2 = HIDDEN
      /\ (exists added,
            trace s2 = trace s ++ added
            /\ forallb (fun e => negb (is_visibility_effect e)) added = true).
Proof.
  intros s e1 e2 Hs _ Hk1 _ _ Hk2 _ _ _.
  destruct (hidden_stays_hidden s e1 Hs) as [s1 [R1 [S1 [_ [T1 _]]]]];
    [congruence |].
  destruct (hidden_stays_hidden s1 e2 S1) as [s2 [R2 [S2 [_ [T2 _]]]]];
    [congruence |].
  exists s1, s2. repeat split; trivial.
  exists (titleDecorations s e1 ++ titleDecorations s1 e2).
  split; [rewrite T2, T1, app_assoc; reflexivity |].
  rewrite forallb_app. unfold titleDecorations.
  destruct (customMenus s), (customMenus s1),
    (currentEnableMenuBarMnemonics s), (currentEnableMenuBarMnemonics s1);
    rewrite ?decorations_not_visibility; reflexivity.
Qed.

Lemma js_index_last :
  forall {A} (m : A) ms,
    exists l, js_index (m :: ms) (js_sub (js_length (m :: ms)) (Num 1)) = Some l.
Proof.
  intros A m ms. unfold js_index, js_sub, js_length.
  destruct (Z.of_nat (length (m :: ms)) - 1 <? 0) eqn:E.
  - apply Z.ltb_lt in E. cbn [length] in E. lia.
  - destruct (nth_error (m :: ms) (Z.to_nat (Z.of_nat (length (m :: ms)) - 1)))
      as [l|] eqn:N; [exists l; reflexivity |].
    apply nth_error_None in N. cbn [length] in N. lia.
Qed.

Lemma showMenubar_run :
  forall s m ms c,
    customMenus s = Some (m :: ms) -> container s = Some c ->
    exists d,
      showMenubar s =
      Ok tt (with_trace
               (trace s ++ [VisibilityChangeFired d; ContainerVisibility c false])
               s).
Proof.
  intros s m ms c Hm Hc.
  destruct (js_index_last m ms) as [l Hl].
  exists (ItemsDimension (buttonElement m) (buttonElement l) c).
  unfold showMenubar, getMenubarItemsDimensions, bind, gets, emit, modify.
  rewrite Hm. rewrite Hl. cbn. rewrite Hc. cbn. rewrite Hc. cbn.
  destruct s; cbn. rewrite <- app_assoc. reflexivity.
Qed.


Ltac unfold_part :=
  unfold onModifierKeyToggled, setUnfocusedState, set_focusState, returnFocus,
    cleanupCustomMenu, hideMenubar, customMenuAt, deref, throw,
    bind, gets, modify, when, ret, emit, currentMenubarVisibility,
    currentEnableMenuBarMnemonics, isVisible, isFocused, isOpen.

Lemma alt_down_reveals :
  forall s e c m ms,
    _focusState s = HIDDEN ->
    js_string_is (currentMenubarVisibility s) "toggle" = true ->
    container s = Some c ->
    customMenus s = Some (m :: ms) ->
    lastKeyPressed e = Some alt ->
    altKey e = true -> ctrlKey e = false -> shiftKey e = false ->
    exists s1,
      onModifierKeyToggled e s = Ok tt s1
      /\ _focusState s1 = VISIBLE
      /\ focusedMenu s1 = focusedMenu s
      /\ same_surroundings s s1.
Proof.
  intros s e c m ms Hs Ht Hc Hm P A C S.
  destruct s as [st fm cm up fr ct ro mk cfg nh tr].
  cbn in Hs, Ht, Hc, Hm. subst st ct cm.
  unfold currentMenubarVisibility in Ht. cbn in Ht.
  unfold_part. rewrite P, A, C, S. cbn -[showMenubar decorateTitles].
  rewrite Ht. cbn -[showMenubar decorateTitles].
  match goal with |- context [showMenubar ?s0] =>
    destruct (showMenubar_run s0 m ms c eq_refl eq_refl) as [d Hd]; rewrite Hd
  end.
  cbn -[decorateTitles].
  destruct (boolean_or_true (cfg "window.enableMenuBarMnemonics"));
    rewrite ?decorateTitles_run; cbn; eexists; (split; [reflexivity |]);
    cbn; unfold same_surroundings; repeat split.
Qed.

Lemma alt_up_focuses :
  forall s e m ms,
    _focusState s = VISIBLE ->
    customMenus s = Some (m :: ms) ->
    lastKeyPressed e = Some alt -> lastKeyReleased e = Some alt ->
    altKey e = false -> ctrlKey e = false -> shiftKey e = false ->
    exists s2,
      onModifierKeyToggled e s = Ok tt s2
      /\ _focusState s2 = FOCUSED
      /\ focusedMenu s2 = Some {| index := Num 0; holder := None; widget := None |}
      /\ same_surroundings s s2.
Proof.
  intros s e m ms Hs Hm P R A C S.
  destruct s as [st fm cm up fr ct ro mk cfg nh tr].
  cbn in Hs, Hm. subst st cm.
  unfold_part. rewrite P, R, A, C, S. cbn -[decorateTitles].
  destruct (js_string_is (cfg "window.menuBarVisibility") "toggle");
    cbn -[decorateTitles];
    destruct (boolean_or_true (cfg "window.enableMenuBarMnemonics"));
    rewrite ?decorateTitles_run; cbn; eexists; (split; [reflexivity |]);
    cbn; unfold same_surroundings; repeat split.
Qed.

(** C2: from HIDDEN in toggle mode, with the bar built (a container and at
    least one button), the event for Alt pressed alone is handled without
    error and leaves the state VISIBLE; the following event for Alt
    released with every modifier up, Alt being also the last key pressed,
    leaves the state FOCUSED with [focusedMenu.index] equal to 0. *)
Theorem alt_tap_focuses_first_button :
  forall (s : MenubarPart) (altDown altUp : IModifierKeyStatus)
         (c : Builder) (m : CustomMenu) (ms : list CustomMenu),
    _focusState s = HIDDEN ->
    js_string_is (currentMenubarVisibility s) "toggle" = true ->
    container s = Some c ->
    customMenus s = Some (m :: ms) ->
    lastKeyPressed altDown = Some alt ->
    altKey altDown = true -> ctrlKey altDown = false -> shiftKey altDown = false ->
    lastKeyPressed altUp = Some alt -> lastKeyReleased altUp = Some alt ->
    altKey altUp = false -> ctrlKey altUp = false -> shiftKey altUp = false ->
    exists s1 s2,
      onModifierKeyToggled altDown s = Ok tt s1
      /\ _focusState s1 = VISIBLE
      /\ onModifierKeyToggled altUp s1 = Ok tt s2
      /\ _focusState s2 = FOCUSED
      /\ focusedMenu s2 = Some {| index := Num 0; holder := None; widget := None |}.
Proof.
  intros s e1 e2 c m ms Hs Ht Hc Hm P1 A1 C1 S1 P2 R2 A2 C2 S2.
  destruct (alt_down_reveals s e1 c m ms Hs Ht Hc Hm P1 A1 C1 S1)
    as [s1 [R1 [St1 [_ [Hm1 _]]]]].
  rewrite Hm in Hm1.
  destruct (alt_up_focuses s1 e2 m ms St1 Hm1 P2 R2 A2 C2 S2)
    as [s2 [Run2 [St2 [F2 _]]]].
  exists s1, s2. repeat split; assumption.
Qed.

Lemma alt_tap_focuses_first_button_witness :
  exists s1 s2,
    onModifierKeyToggled
      {| altKey := true; shiftKey := false; ctrlKey := false;
         lastKeyPressed := Some alt; lastKeyReleased := None |}
      Sample.hiddenBar = Ok tt s1
    /\ _focusState s1 = VISIBLE
    /\ onModifierKeyToggled Sample.afterAltTap s1 = Ok tt s2
    /\ _focusState s2 = FOCUSED
    /\ focusedMenu s2 = Some {| index := Num 0; holder := None; widget := None |}.
Proof.
  apply (alt_tap_focuses_first_button Sample.hiddenBar _ Sample.afterAltTap
           0%nat (Sample.button "File" 1) (tl Sample.threeButtons));
    reflexivity.
Defined.

Lemma chord_keeps_bar_hidden_witness :
  exists s1 s2,
    onModifierKeyToggled Sample.ctrlHeld Sample.hiddenBar = Ok tt s1
    /\ _focusState s1 = HIDDEN
    /\ onModifierKeyToggled
         {| altKey := false; shiftKey := true; ctrlKey := true;
            lastKeyPressed := Some shift; lastKeyReleased := None |} s1
       = Ok tt s2
    /\ _focusState s2 = HIDDEN.
Proof.
  destruct (chord_keeps_bar_hidden Sample.hiddenBar Sample.ctrlHeld
              {| altKey := false; shiftKey := true; ctrlKey := true;
                 lastKeyPressed := Some shift; lastKeyReleased := None |}
              eq_refl eq_refl eq_refl eq_refl eq_refl eq_refl eq_refl eq_refl
              eq_refl)
    as [s1 [s2 [R1 [S1 [R2 [S2 _]]]]]].
  exists s1, s2. repeat split; assumption.
Defined.

Lemma js_index_in_range :
  forall {A} (xs : list A) j,
    0 <= j < Z.of_nat (length xs) -> exists b, js_index xs (Num j) = Some b.
Proof.
  intros A xs j Hj. unfold js_index.
  destruct (j <? 0) eqn:E; [apply Z.ltb_lt in E; lia |].
  destruct (nth_error xs (Z.to_nat j)) as [b|] eqn:N; [exists b; reflexivity |].
  apply nth_error_None in N. lia.
Qed.

Lemma showCustomMenu_run :
  forall s menus c j b,
    customMenus s = Some menus -> container s = Some c ->
    js_index menus j = Some b ->
    exists s',
      showCustomMenu j s = Ok tt s'
      /\ focusedMenu s' =
         Some {| index := j; holder := Some (nextHandle s);
                 widget := Some (S (nextHandle s)) |}
      /\ _focusState s' = _focusState s
      /\ same_surroundings s s'.
Proof.
  intros s menus c j b Hm Hc Hb.
  destruct s as [st fm cm up fr ct ro mk cfg nh tr]. cbn in Hm, Hc. subst cm ct.
  unfold showCustomMenu, customMenuAt, fresh, bind, gets, modify, emit, ret.
  cbn -[js_index]. rewrite Hb. cbn.
  eexists; (split; [reflexivity |]); cbn; unfold same_surroundings; repeat split.
Qed.

(** One move of the focus to an index in range. *)
Lemma moveFocus_run :
  forall newIndex s menus c fm i j,
    customMenus s = Some menus -> container s = Some c ->
    focusedMenu s = Some fm -> index fm = Num i ->
    newIndex (Num i) (js_length menus) = Num j ->
    0 <= j < Z.of_nat (length menus) ->
    exists s' fm',
      moveFocus newIndex s = Ok tt s'
      /\ focusedMenu s' = Some fm'
      /\ index fm' = (if isFocused s then Num j else Num i)
      /\ _focusState s' = _focusState s
      /\ same_surroundings s s'
      /\ (j = i -> s' = s).
Proof.
  intros newIndex s menus c fm i j Hm Hc Hf Hi Hn Hj.
  destruct (js_index_in_range menus j Hj) as [b Hb].
  unfold moveFocus, bind, gets, deref, ret.
  rewrite Hf, Hm, Hi, Hn. cbn [js_strict_eq].
  destruct (j =? i) eqn:E.
  - apply Z.eqb_eq in E. subst j. exists s, fm.
    repeat split; trivial. destruct (isFocused s); assumption.
  - assert (j <> i) by (apply Z.eqb_neq; exact E).
    destruct (isOpen s) eqn:Ho.
    + destruct (cleanupCustomMenu_spec s)
        as [s1 [R1 [F1 [St1 [_ [_ [_ Su1]]]]]]].
      rewrite R1.
      destruct Su1 as [Hm1 [Hc1 [Hg1 Hr1]]].
      destruct (showCustomMenu_run s1 menus c (Num j) b) as [s2 [R2 [F2 [St2 Su2]]]];
        try congruence.
      rewrite R2. eexists s2, _. split; [reflexivity |]. split; [exact F2 |].
      assert (isFocused s = true) as ->
          by (unfold isFocused, isOpen in *; destruct (_focusState s); auto).
      cbn. repeat split; try congruence.
      * destruct Su2 as [? _]; congruence.
      * destruct Su2 as [_ [? _]]; congruence.
      * destruct Su2 as [_ [_ [? _]]]; congruence.
      * destruct Su2 as [_ [_ [_ ?]]]; congruence.
    + destruct (isFocused s) eqn:Hfo; unfold when.
      * destruct s as [st fm0 cm up fr ct ro mk cfg nh tr].
        cbn in Hm, Hc, Hf. subst cm ct fm0.
        unfold customMenuAt, bind, gets, modify, emit, ret. cbn -[js_index].
        rewrite Hb. cbn.
        eexists; eexists; (split; [reflexivity |]); cbn;
          unfold same_surroundings; repeat split; congruence.
      * exists s, fm. unfold same_surroundings. repeat split; congruence.
Qed.

Lemma next_index :
  forall i n, 0 <= i < n ->
    js_rem (js_add (Num i) (Num 1)) (Num n) = Num ((i + 1) mod n)
    /\ 0 <= (i + 1) mod n < n.
Proof.
  intros i n H. unfold js_rem, js_add.
  destruct (n =? 0) eqn:E; [apply Z.eqb_eq in E; lia |].
  rewrite Z.rem_mod_nonneg by lia.
  split; [reflexivity | apply Z.mod_pos_bound; lia].
Qed.

Lemma previous_index :
  forall j n, 0 <= j < n ->
    js_rem (js_add (js_sub (Num j) (Num 1)) (Num n)) (Num n) = Num ((j - 1) mod n)
    /\ 0 <= (j - 1) mod n < n.
Proof.
  intros j n H. unfold js_rem, js_add, js_sub.
  destruct (n =? 0) eqn:E; [apply Z.eqb_eq in E; lia |].
  rewrite Z.rem_mod_nonneg by lia.
  replace (j - 1 + n) with (j - 1 + 1 * n) by lia.
  rewrite Z.mod_add by lia.
  split; [reflexivity | apply Z.mod_pos_bound; lia].
Qed.

Lemma next_then_previous :
  forall i n, 0 <= i < n -> ((i + 1) mod n - 1) mod n = i.
Proof.
  intros i n H.
  rewrite Zminus_mod_idemp_l. replace (i + 1 - 1) with i by lia.
  apply Z.mod_small; lia.
Qed.

Lemma previous_then_next :
  forall i n, 0 <= i < n -> ((i - 1) mod n + 1) mod n = i.
Proof.
  intros i n H.
  rewrite Zplus_mod_idemp_l. replace (i - 1 + 1) with i by lia.
  apply Z.mod_small; lia.
Qed.

(** C4: for a focused button index i among n >= 1 buttons (0 <= i < n),
    [focusNext] followed by [focusPrevious] returns normally with
    [focusedMenu.index] back at i and the state unchanged; while the bar is
    focused or open [focusNext] moves the index to (i + 1) mod n.  With
    exactly one button, and with no menu focused, [focusNext] and
    [focusPrevious] each leave the part unchanged. *)
Theorem focusNext_then_focusPrevious :
  forall (s : MenubarPart) (menus : list CustomMenu) (c : Builder)
         (fm : FocusedMenu) (i : Z),
    customMenus s = Some menus ->
    container s = Some c ->
    focusedMenu s = Some fm ->
    index fm = Num i ->
    0 <= i < Z.of_nat (length menus) ->
    (exists s1 s2 fm1 fm2,
        focusNext s = Ok tt s1
        /\ focusedMenu s1 = Some fm1
        /\ index fm1 = (if isFocused s
                        then Num ((i + 1) mod Z.of_nat (length menus))
                        else Num i)
        /\ focusPrevious s1 = Ok tt s2
        /\ focusedMenu s2 = Some fm2
        /\ index fm2 = Num i
        /\ _focusState s2 = _focusState s)
    /\ (length menus = 1%nat ->
        focusNext s = Ok tt s /\ focusPrevious s = Ok tt s)
    /\ (forall s0, focusedMenu s0 = None ->
                   focusNext s0 = Ok tt s0 /\ focusPrevious s0 = Ok tt s0).
Proof.
  intros s menus c fm i Hm Hc Hf Hi Hr.
  set (n := Z.of_nat (length menus)) in *.
  destruct (next_index i n Hr) as [Hn Hnr].
  destruct (previous_index i n Hr) as [Hp Hpr].
  split; [| split].
  - destruct (moveFocus_run (fun i len => js_rem (js_add i (Num 1)) len)
                s menus c fm i _ Hm Hc Hf Hi Hn Hnr)
      as [s1 [fm1 [R1 [F1 [I1 [St1 [[Hm1 [Hc1 _]] _]]]]]]].
    assert (Hfoc : isFocused s1 = isFocused s)
      by (unfold isFocused; rewrite St1; reflexivity).
    rewrite Hm in Hm1. rewrite Hc in Hc1.
    destruct (isFocused s) eqn:Hfs.
    + destruct (previous_index _ n Hnr) as [Hp1 Hpr1].
      destruct (moveFocus_run
                  (fun i len => js_rem (js_add (js_sub i (Num 1)) len) len)
                  s1 menus c fm1 _ _ Hm1 Hc1 F1 I1 Hp1 Hpr1)
        as [s2 [fm2 [R2 [F2 [I2 [St2 _]]]]]].
      rewrite Hfoc, next_then_previous in I2 by exact Hr.
      exists s1, s2, fm1, fm2. repeat split; trivial. congruence.
    + destruct (moveFocus_run
                  (fun i len => js_rem (js_add (js_sub i (Num 1)) len) len)
                  s1 menus c fm1 _ _ Hm1 Hc1 F1 I1 Hp Hpr)
        as [s2 [fm2 [R2 [F2 [I2 [St2 _]]]]]].
      rewrite Hfoc in I2.
      exists s1, s2, fm1, fm2. repeat split; trivial. congruence.
  - intros H1.
    assert (i = 0) by (subst n; rewrite H1 in Hr; cbn in Hr; lia). subst i.
    split.
    + destruct (moveFocus_run (fun i len => js_rem (js_add i (Num 1)) len)
                  s menus c fm 0 0 Hm Hc Hf Hi)
        as [s1 [fm1 [R1 [_ [_ [_ [_ E]]]]]]].
      * unfold js_length. rewrite H1. reflexivity.
      * exact Hr.
      * unfold focusNext. rewrite R1, E; reflexivity.
    + destruct (moveFocus_run
                  (fun i len => js_rem (js_add (js_sub i (Num 1)) len) len)
                  s menus c fm 0 0 Hm Hc Hf Hi)
        as [s1 [fm1 [R1 [_ [_ [_ [_ E]]]]]]].
      * unfold js_length. rewrite H1. reflexivity.
      * exact Hr.
      * unfold focusPrevious. rewrite R1, E; reflexivity.
  - intros s0 H0. unfold focusNext, focusPrevious, moveFocus, bind, gets.
    rewrite H0. split; reflexivity.
Qed.

Lemma focusNext_then_focusPrevious_witness :
  exists s1 s2 fm2,
    focusNext (Sample.focusedBar 2) = Ok tt s1
    /\ focusPrevious s1 = Ok tt s2
    /\ focusedMenu s2 = Some fm2
    /\ index fm2 = Num 2.
Proof.
  destruct (focusNext_then_focusPrevious (Sample.focusedBar 2)
              Sample.threeButtons 0%nat
              {| index := Num 2; holder := None; widget := None |} 2
              eq_refl eq_refl eq_refl eq_refl)
    as [[s1 [s2 [fm1 [fm2 [R1 [_ [_ [R2 [F2 [I2 _]]]]]]]]]] _].
  - cbn. lia.
  - exists s1, s2, fm2. repeat split; assumption.
Defined.

(** The scenario "focused on index 2 of 3 buttons, focus-next" wraps to 0,
    by evaluation. *)
Example focusNext_wraps :
  option_map index (focusedMenu (final_state (focusNext (Sample.focusedBar 2))))
  = Some (Num 0).
Proof. reflexivity. Qed.

(** Focused on index 2 of 5 buttons, three [focusNext] end on index 0. *)
Example focusNext_three_times :
  option_map index
    (focusedMenu
       (final_state
          ((focusNext ;; focusNext ;; focusNext) (Sample.focusedFive 2))))
  = Some (Num 0).
Proof. reflexivity. Qed.

(** Losing window focus while OPEN in toggle mode: the dropdown is
    disposed, the focus is dropped and the bar is hidden. *)
Example window_blur_closes_open_bar :
  let s' := final_state (onDidChangeWindowFocus false (Sample.openBar 1)) in
  _focusState s' = HIDDEN
  /\ focusedMenu s' = None
  /\ trace s' = [VisibilityChangeFired ZeroDimension;
                 ContainerVisibility 0%nat true;
                 HolderClosed 500%nat; MenuDisposed 501%nat].
Proof. cbn. repeat split. Qed.

(** A click is ignored while shift or ctrl is down on the tracker's status
    object, whatever the status was when it was last fired. *)
Lemma onButtonClick_chord_ignored :
  forall ks menuIndex s,
    _modifierKeyStatus s = Some TrackerKeyStatus ->
    shiftKey ks || ctrlKey ks = true ->
    onButtonClick ks menuIndex s = Ok tt s.
Proof.
  intros ks menuIndex s Href Hchord.
  unfold onButtonClick, bind, gets. rewrite Href, Hchord. reflexivity.
Qed.

(** ** Raw key events through the tracker *)

(** Alt down then Alt up, starting with no modifier held, takes a hidden
    toggle-mode bar to FOCUSED on button 0. *)
Lemma deliver_alt_tap :
  forall w c m ms,
    _focusState (part w) = HIDDEN ->
    js_string_is (currentMenubarVisibility (part w)) "toggle" = true ->
    container (part w) = Some c ->
    customMenus (part w) = Some (m :: ms) ->
    altKey (keyStatus w) = false ->
    let w1 := deliver (KeyDown (mods true false false)) w in
    let w2 := deliver (KeyUp (mods false false false)) w1 in
    _focusState (part w1) = VISIBLE
    /\ _focusState (part w2) = FOCUSED
    /\ focusedMenu (part w2)
       = Some {| index := Num 0; holder := None; widget := None |}.
Proof.
  intros [ks p] c m ms Hs Ht Hc Hm Ha. cbn in Hs, Ht, Hc, Hm, Ha.
  destruct ks as [a sh ct lp lr]. cbn in Ha. subst a.
  cbn -[onModifierKeyToggled].
  destruct (alt_down_reveals p
              {| altKey := true; shiftKey := false; ctrlKey := false;
                 lastKeyPressed := Some alt; lastKeyReleased := lr |}
              c m ms Hs Ht Hc Hm eq_refl eq_refl eq_refl eq_refl)
    as [s1 [R1 [S1 [_ [Hm1 _]]]]].
  rewrite Hm in Hm1.
  destruct (alt_up_focuses s1
              {| altKey := false; shiftKey := false; ctrlKey := false;
                 lastKeyPressed := Some alt; lastKeyReleased := Some alt |}
              m ms S1 Hm1 eq_refl eq_refl eq_refl eq_refl eq_refl)
    as [s2 [R2 [S2 [F2 _]]]].
  rewrite R1. cbn -[onModifierKeyToggled]. rewrite R2. cbn.
  repeat split; assumption.
Qed.

(** Ctrl down then shift down never shows a hidden bar, whatever the
    tracker held before. *)
Lemma deliver_chord :
  forall w,
    _focusState (part w) = HIDDEN ->
    let w1 := deliver (KeyDown (mods false true false)) w in
    let w2 := deliver (KeyDown (mods false true true)) w1 in
    _focusState (part w1) = HIDDEN /\ _focusState (part w2) = HIDDEN.
Proof.
  intros [ks p] Hs. cbn in Hs.
  assert (H1 : _focusState
                 (part (deliver (KeyDown (mods false true false))
                          {| keyStatus := ks; part := p |})) = HIDDEN).
  { unfold deliver, handle, keydown. cbn -[onModifierKeyToggled].
    destruct (negb (ctrlKey ks)); cbn -[onModifierKeyToggled]; [| exact Hs].
    match goal with |- context [onModifierKeyToggled ?st p] =>
      destruct (hidden_stays_hidden p st Hs) as [s1 [R1 [S1 _]]];
        [cbn; discriminate | rewrite R1; exact S1]
    end. }
  split; [exact H1 |].
  cbn zeta.
  set (w1 := deliver (KeyDown (mods false true false))
               {| keyStatus := ks; part := p |}) in *.
  unfold deliver at 1, handle, keydown. cbn -[onModifierKeyToggled deliver].
  destruct (negb (ctrlKey (keyStatus w1)));
    cbn -[onModifierKeyToggled deliver].
  - match goal with |- context [onModifierKeyToggled ?st (part w1)] =>
      destruct (hidden_stays_hidden (part w1) st H1) as [s2 [R2 [S2 _]]];
        [cbn; discriminate | rewrite R2; exact S2]
    end.
  - destruct (negb (shiftKey (keyStatus w1)));
      cbn -[onModifierKeyToggled deliver]; [| exact H1].
    match goal with |- context [onModifierKeyToggled ?st (part w1)] =>
      destruct (hidden_stays_hidden (part w1) st H1) as [s2 [R2 [S2 _]]];
        [cbn; discriminate | rewrite R2; exact S2]
    end.
Qed.

(** ** Menu snapshot builder *)

Open Scope nat_scope.

Section SeparatorFacts.

Context {A : Type} (sep : A -> bool).

Lemma count_separators_app :
  forall a b : list A,
    count_separators sep (a ++ b) = count_separators sep a + count_separators sep b.
Proof.
  intros a b. unfold count_separators. rewrite filter_app, length_app. reflexivity.
Qed.

Lemma leading_separator_app :
  forall a b : list A,
    leading_separator sep (a ++ b)
    = match a with [] => leading_separator sep b | _ => leading_separator sep a end.
Proof. intros [|x a] b; reflexivity. Qed.

Lemma trailing_separator_cons :
  forall (x y : A) (l : list A),
    trailing_separator sep (x :: y :: l) = trailing_separator sep (y :: l).
Proof. reflexivity. Qed.

Lemma trailing_separator_app :
  forall a b : list A,
    trailing_separator sep (a ++ b)
    = match b with [] => trailing_separator sep a | _ => trailing_separator sep b end.
Proof.
  induction a as [|x a IH]; intros b.
  - destruct b; reflexivity.
  - destruct b as [|y b]; [rewrite app_nil_r; reflexivity |].
    specialize (IH (y :: b)).
    destruct a as [|z a]; [reflexivity |].
    change ((x :: z :: a) ++ y :: b) with (x :: z :: (a ++ y :: b)).
    rewrite trailing_separator_cons. exact IH.
Qed.

Lemma adjacent_separators_app :
  forall a b : list A,
    adjacent_separators sep (a ++ b)
    = adjacent_separators sep a || adjacent_separators sep b
      || (trailing_separator sep a && leading_separator sep b).
Proof.
  induction a as [|x a IH]; intros b.
  - cbn. rewrite orb_false_r. reflexivity.
  - cbn [app adjacent_separators]. rewrite IH, leading_separator_app.
    destruct a as [|y a].
    + cbn. destruct (sep x), (leading_separator sep b),
        (adjacent_separators sep b); reflexivity.
    + cbn [leading_separator trailing_separator adjacent_separators].
      destruct (sep x), (sep y), (adjacent_separators sep (y :: a)),
        (adjacent_separators sep b),
        (trailing_separator sep (y :: a)), (leading_separator sep b);
        reflexivity.
Qed.

(** A list without separators. *)
Lemma no_separator_facts :
  forall l : list A,
    forallb (fun a => negb (sep a)) l = true ->
    count_separators sep l = 0
    /\ leading_separator sep l = false
    /\ trailing_separator sep l = false
    /\ adjacent_separators sep l = false.
Proof.
  induction l as [|a l IH]; intros H; [repeat split |].
  cbn in H. apply andb_prop in H. destruct H as [Ha Hl].
  apply negb_true_iff in Ha.
  destruct (IH Hl) as [C [L [T Ad]]].
  unfold count_separators in *. cbn. rewrite Ha. cbn.
  repeat split; trivial.
  - destruct l; auto.
Qed.

End SeparatorFacts.

(** *** Groups joined by separators *)

Section Joined.

Context {A : Type} (sep : A -> bool) (sp : A) (Hsp : sep sp = true).

Lemma removelast_joined :
  forall bodies body,
    removelast (joined sp (bodies ++ [body])) = joined sp bodies ++ body.
Proof.
  intros bodies body. unfold joined. rewrite flat_map_app. cbn.
  rewrite app_nil_r, app_assoc. apply removelast_last.
Qed.

Lemma count_joined :
  forall bodies,
    count_separators sep (joined sp bodies)
    = length bodies + separators_inside sep bodies.
Proof.
  induction bodies as [|b bs IH]; [reflexivity |].
  unfold joined, separators_inside in *. cbn [flat_map map list_sum length].
  rewrite !(count_separators_app sep), IH.
  unfold count_separators at 2. cbn [filter]. rewrite Hsp. cbn [length].
  unfold list_sum. cbn [fold_right]. lia.
Qed.

Lemma joined_tidy_bodies :
  forall bodies,
    forallb (tidy sep) bodies = true ->
    leading_separator sep (joined sp bodies) = false
    /\ adjacent_separators sep (joined sp bodies) = false
    /\ (bodies <> [] -> trailing_separator sep (joined sp bodies) = true).
Proof.
  induction bodies as [|b bs IH]; intros H; [repeat split; congruence |].
  cbn in H. apply andb_prop in H. destruct H as [Hb Hbs].
  destruct (IH Hbs) as [L [Ad T]].
  unfold tidy in Hb.
  repeat (apply andb_prop in Hb; destruct Hb as [Hb ?]).
  repeat match goal with H : negb _ = true |- _ => apply negb_true_iff in H end.
  destruct b as [|x b]; [discriminate |].
  unfold joined in *. cbn [flat_map].
  split; [| split].
  - rewrite !leading_separator_app. cbn [app]. assumption.
  - rewrite !adjacent_separators_app, L, Ad.
    rewrite trailing_separator_app.
    repeat match goal with H : _ = false |- _ => rewrite H end.
    cbn. rewrite Hsp. reflexivity.
  - intros _. rewrite trailing_separator_app.
    destruct bs as [|b' bs'].
    + cbn [flat_map]. rewrite trailing_separator_app. cbn. exact Hsp.
    + destruct (flat_map (fun body => body ++ [sp]) (b' :: bs')) eqn:E.
      * cbn in E. destruct b'; discriminate.
      * apply T. discriminate.
Qed.

(** The list left by the final [pop]. *)
Lemma popped_joined :
  forall bodies,
    bodies <> [] ->
    count_separators sep (removelast (joined sp bodies))
    = length bodies - 1 + separators_inside sep bodies
    /\ (forallb (tidy sep) bodies = true ->
        tidy sep (removelast (joined sp bodies)) = true).
Proof.
  intros bodies Hne.
  destruct (exists_last Hne) as [front [body ->]].
  rewrite removelast_joined. split.
  - rewrite count_separators_app, count_joined.
    unfold separators_inside. rewrite map_app, list_sum_app, length_app. cbn. lia.
  - intros H. rewrite forallb_app in H. apply andb_prop in H.
    destruct H as [Hf Hb]. cbn in Hb. rewrite andb_true_r in Hb.
    destruct (joined_tidy_bodies front Hf) as [L [Ad T]].
    unfold tidy in *.
    repeat (apply andb_prop in Hb; destruct Hb as [Hb ?]).
    repeat match goal with H : negb _ = true |- _ => apply negb_true_iff in H end.
    destruct body as [|x body]; [discriminate |].
    rewrite leading_separator_app, trailing_separator_app,
      adjacent_separators_app, length_app.
    destruct (joined sp front) as [|y rest];
      repeat match goal with H : _ = false |- _ => rewrite H; clear H end;
      cbn [length]; rewrite ?Nat.add_succ_r, ?andb_false_r; reflexivity.
Qed.

End Joined.

(** *** Recently opened entries *)

Lemma skipn_nth_error :
  forall {A} (xs : list A) i x,
    nth_error xs i = Some x -> skipn i xs = x :: skipn (S i) xs.
Proof.
  induction xs as [|y xs IH]; intros [|i] x H; try discriminate.
  - cbn in H. injection H as ->. reflexivity.
  - cbn in H. cbn [skipn]. rewrite (IH i x H). reflexivity.
Qed.

(** The loop pushes the entries at positions [i], [i+1], ... while the
    position is below both bounds. *)
Lemma pushRecent_firstn :
  forall {A} (make : A -> IAction) (xs : list A) budget i result,
    pushRecent make xs budget i result
    = result
      ++ map make (firstn (Nat.min budget (MAX_MENU_RECENT_ENTRIES - i))
                     (skipn i xs)).
Proof.
  intros A make xs. unfold MAX_MENU_RECENT_ENTRIES.
  induction budget as [|budget IH]; intros i result.
  - cbn. rewrite app_nil_r. reflexivity.
  - cbn [pushRecent]. unfold MAX_MENU_RECENT_ENTRIES.
    destruct (i <? 5) eqn:E5; cbn [andb].
    + apply Nat.ltb_lt in E5.
      destruct (i <? length xs) eqn:El.
      * apply Nat.ltb_lt in El.
        destruct (nth_error xs i) as [x|] eqn:N;
          [| apply nth_error_None in N; lia].
        rewrite IH, (skipn_nth_error xs i x N).
        replace (Nat.min (S budget) (5 - i))
          with (S (Nat.min budget (5 - S i))) by lia.
        cbn [firstn map]. rewrite <- app_assoc. reflexivity.
      * apply Nat.ltb_ge in El. rewrite skipn_all2 by exact El.
        rewrite firstn_nil, app_nil_r. reflexivity.
    + apply Nat.ltb_ge in E5.
      replace (5 - i) with 0 by lia. rewrite Nat.min_0_r.
      cbn. rewrite app_nil_r. reflexivity.
Qed.

Section RecentFacts.

Context (env : Services) (s : MenubarPart).

Lemma getOpenRecentActions_loaded :
  forall ro,
    recentlyOpened s = Some ro ->
    getOpenRecentActions env s
    = map (workspaceEntry env) (firstn 5 (workspaces ro))
      ++ separator_if (0 <? length (workspaces ro))
      ++ map (fileEntry env) (firstn 5 (files ro))
      ++ separator_if (0 <? length (files ro)).
Proof.
  intros ro H. unfold getOpenRecentActions. rewrite H.
  rewrite !pushRecent_firstn. unfold MAX_MENU_RECENT_ENTRIES. cbn [Nat.min Nat.sub skipn].
  unfold separator_if, workspaceEntry, fileEntry.
  destruct (0 <? length (workspaces ro)) eqn:W;
    destruct (0 <? length (files ro)) eqn:F;
    try (apply Nat.ltb_ge in W; destruct (workspaces ro); [| cbn in W; lia]);
    try (apply Nat.ltb_ge in F; destruct (files ro); [| cbn in F; lia]);
    rewrite ?firstn_nil; cbn [app map];
    rewrite <- ?app_assoc, ?app_nil_r; reflexivity.
Qed.

Lemma entries_not_separators :
  forall {A} (make : A -> IAction) xs,
    (forall x, is_separator (make x) = false) ->
    forallb (fun a => negb (is_separator a)) (map make xs) = true.
Proof.
  intros A make xs H. induction xs as [|x xs IH]; [reflexivity |].
  cbn. rewrite H, IH. reflexivity.
Qed.

Lemma workspaceEntry_not_separator :
  forall w, is_separator (workspaceEntry env w) = false.
Proof. intros [p | i c]; reflexivity. Qed.

Lemma fileEntry_not_separator :
  forall f, is_separator (fileEntry env f) = false.
Proof. intros f; reflexivity. Qed.

End RecentFacts.

Lemma tidy_iff :
  forall {A} (sep : A -> bool) (l : list A),
    tidy sep l = true
    <-> l <> []
        /\ leading_separator sep l = false
        /\ trailing_separator sep l = false
        /\ adjacent_separators sep l = false.
Proof.
  intros A sep l. unfold tidy. split.
  - intros H.
    repeat (apply andb_prop in H; destruct H as [H ?]).
    repeat match goal with H : negb _ = true |- _ => apply negb_true_iff in H end.
    repeat split; trivial. intros ->. discriminate.
  - intros [Hn [L [T Ad]]]. rewrite L, T, Ad.
    destruct l; [contradiction | reflexivity].
Qed.

Lemma tidy_cons_item :
  forall {A} (sep : A -> bool) (e : A) (body : list A),
    sep e = false ->
    body = [] \/ tidy sep body = true ->
    tidy sep (e :: body) = true.
Proof.
  intros A sep e body He [-> | Hb].
  - unfold tidy. cbn. rewrite He. reflexivity.
  - apply tidy_iff in Hb. destruct Hb as [Hn [L [T Ad]]].
    apply tidy_iff. destruct body as [|b body]; [contradiction |].
    split; [discriminate |].
    split; [exact He |].
    split; [rewrite trailing_separator_cons; exact T |].
    change (adjacent_separators sep (e :: b :: body))
      with (sep e && leading_separator sep (b :: body)
            || adjacent_separators sep (b :: body)).
    rewrite He, Ad. reflexivity.
Qed.

Lemma entries_block :
  forall (entries : list IAction) (nonempty : bool),
    forallb (fun a => negb (is_separator a)) entries = true ->
    (nonempty = true -> entries <> []) ->
    (nonempty = false -> entries = []) ->
    closed_block (entries ++ separator_if nonempty)
    /\ count_separators is_separator (entries ++ separator_if nonempty)
       = (if nonempty then 1 else 0).
Proof.
  intros entries nonempty Hn Ht Hf.
  destruct (no_separator_facts is_separator entries Hn) as [C [L [T Ad]]].
  rewrite count_separators_app, C.
  destruct nonempty; cbn [separator_if].
  - split; [| reflexivity]. right.
    rewrite leading_separator_app, adjacent_separators_app,
      trailing_separator_app, L, Ad, T.
    destruct entries; [exfalso; apply Ht; reflexivity | repeat split].
  - rewrite (Hf eq_refl). split; [left |]; reflexivity.
Qed.

Lemma closed_block_app :
  forall a b, closed_block a -> closed_block b -> closed_block (a ++ b).
Proof.
  intros a b [-> | [La [Aa Ta]]] [-> | [Lb [Ab Tb]]].
  - left; reflexivity.
  - right; repeat split; assumption.
  - rewrite app_nil_r. right; repeat split; assumption.
  - right.
    rewrite leading_separator_app, adjacent_separators_app,
      trailing_separator_app, La, Aa, Ab, Lb, Tb.
    destruct a; [discriminate |]. destruct b; [discriminate |].
    rewrite andb_false_r. repeat split.
Qed.

Lemma closed_block_then_tidy :
  forall inject body,
    closed_block inject -> tidy is_separator body = true ->
    tidy is_separator (inject ++ body) = true.
Proof.
  intros inject body [-> | [Li [Ai Ti]]] Hb; [exact Hb |].
  apply tidy_iff in Hb. destruct Hb as [Hn [L [T Ad]]].
  apply tidy_iff.
  rewrite leading_separator_app, trailing_separator_app,
    adjacent_separators_app, Ai, Ad, L, andb_false_r.
  destruct inject; [discriminate |]. destruct body; [contradiction |].
  repeat split; trivial. discriminate.
Qed.

Section GroupFacts.

Context (env : Services) (s : MenubarPart).

Lemma firstn_nonempty :
  forall {A} (xs : list A), (0 <? length xs) = true -> firstn 5 xs <> [].
Proof. intros A [|x xs] H; [discriminate H | discriminate]. Qed.

Lemma firstn_empty :
  forall {A} (xs : list A), (0 <? length xs) = false -> firstn 5 xs = [].
Proof. intros A [|x xs] H; [reflexivity | discriminate H]. Qed.

Lemma getOpenRecentActions_block :
  closed_block (getOpenRecentActions env s)
  /\ count_separators is_separator (getOpenRecentActions env s) = recentSeparators s.
Proof.
  unfold recentSeparators.
  destruct (recentlyOpened s) as [ro|] eqn:H.
  - rewrite (getOpenRecentActions_loaded env s ro H).
    destruct (entries_block (map (workspaceEntry env) (firstn 5 (workspaces ro)))
                (0 <? length (workspaces ro))) as [Bw Cw].
    { apply entries_not_separators, workspaceEntry_not_separator. }
    { intros E N. apply map_eq_nil in N. revert N. apply firstn_nonempty, E. }
    { intros E. rewrite firstn_empty by exact E. reflexivity. }
    destruct (entries_block (map (fileEntry env) (firstn 5 (files ro)))
                (0 <? length (files ro))) as [Bf Cf].
    { apply entries_not_separators, fileEntry_not_separator. }
    { intros E N. apply map_eq_nil in N. revert N. apply firstn_nonempty, E. }
    { intros E. rewrite firstn_empty by exact E. reflexivity. }
    rewrite !app_assoc. rewrite <- (app_assoc _ (map _ _)).
    split; [apply closed_block_app; assumption |].
    rewrite count_separators_app, Cw, Cf. reflexivity.
  - unfold getOpenRecentActions. rewrite H. split; [left |]; reflexivity.
Qed.

(** What one action contributes: the expansion of the slot, then the
    entry of the action. *)
Lemma pushActions_body :
  forall submenuOf group target result,
    pushActions env s submenuOf group target = Some result ->
    exists body,
      result = target ++ body
      /\ count_separators is_separator body
         = length (filter is_slot group) * recentSeparators s
      /\ (group = [] -> body = [])
      /\ (group <> [] -> tidy is_separator body = true).
Proof.
  intros submenuOf.
  destruct getOpenRecentActions_block as [Hblock Hcount].
  induction group as [|action rest IH]; intros target result H.
  - cbn in H. injection H as <-. exists []. rewrite app_nil_r.
    repeat split; congruence.
  - cbn [pushActions] in H.
    set (entry :=
           match action with
           | SubmenuItemAction a submenu =>
               match submenuOf submenu with
               | Some l => Some (SubmenuAction (label a) l)
               | None => None
               end
           | MenuItemAction a =>
               Some (RegistryItem
                       (setCheckedStatus s
                          {| id := id a; label := calculateActionLabel env s a;
                             checked := checked a; enabled := enabled a |}))
           end).
    assert (Hstep : exists e, entry = Some e /\ is_separator e = false
                 /\ pushActions env s submenuOf rest
                      (insertActionsBefore env s action target ++ [e])
                    = Some result).
    { subst entry. destruct action as [a | a sub].
      - eexists; split; [reflexivity | split; [reflexivity | exact H]].
      - destruct (submenuOf sub) as [l|]; [| discriminate].
        eexists; split; [reflexivity | split; [reflexivity | exact H]]. }
    destruct Hstep as [e [_ [He Hrest]]].
    destruct (IH _ _ Hrest) as [body [Hres [Hc [Hnil Htidy]]]].
    set (inject := if is_slot action then getOpenRecentActions env s else []).
    assert (Hins : insertActionsBefore env s action target = target ++ inject).
    { unfold insertActionsBefore, inject, is_slot.
      destruct (String.eqb _ _); [reflexivity | rewrite app_nil_r; reflexivity]. }
    assert (Hinj : closed_block inject
                   /\ count_separators is_separator inject
                      = if is_slot action then recentSeparators s else 0).
    { unfold inject. destruct (is_slot action); [split; assumption |].
      split; [left |]; reflexivity. }
    destruct Hinj as [Bi Ci].
    exists (inject ++ [e] ++ body).
    split; [rewrite Hres, Hins, <- !app_assoc; reflexivity |].
    split; [| split; [discriminate |]].
    + rewrite !count_separators_app, Ci, Hc. cbn [filter].
      unfold count_separators at 1. cbn [filter]. rewrite He.
      destruct (is_slot action); cbn [length]; lia.
    + intros _. apply closed_block_then_tidy; [exact Bi |].
      apply tidy_cons_item; [exact He |].
      destruct rest; [left; apply Hnil; reflexivity
                     | right; apply Htidy; discriminate].
Qed.

End GroupFacts.

Section SnapshotFacts.

Context (env : Services) (s : MenubarPart).

Lemma pushGroups_bodies :
  forall submenuOf groups target result,
    pushGroups env s submenuOf groups target = Some result ->
    exists bodies,
      result = target ++ joined Separator bodies
      /\ length bodies = length groups
      /\ separators_inside is_separator bodies
         = openRecentSlots groups * recentSeparators s
      /\ (all_groups_nonempty groups = true ->
          forallb (tidy is_separator) bodies = true).
Proof.
  intros submenuOf.
  induction groups as [|[gid group] rest IH]; intros target result H.
  - cbn in H. injection H as <-. exists []. cbn. rewrite app_nil_r.
    repeat split.
  - cbn [pushGroups] in H.
    destruct (pushActions env s submenuOf group target) as [t1|] eqn:Ha;
      [| discriminate].
    destruct (pushActions_body env s submenuOf group target t1 Ha)
      as [body [-> [Hc [_ Ht]]]].
    destruct (IH _ _ H) as [bodies [-> [Hl [Hs Hall]]]].
    exists (body :: bodies).
    split; [unfold joined; cbn [flat_map]; rewrite <- !app_assoc; reflexivity |].
    split; [cbn; rewrite Hl; reflexivity |].
    split.
    + unfold separators_inside, openRecentSlots in *.
      cbn [map list_sum flat_map snd]. rewrite filter_app, length_app.
      unfold list_sum in *. cbn [fold_right]. rewrite Hs, Hc.
      unfold is_slot. lia.
    + cbn [all_groups_nonempty forallb snd]. intros Hne.
      apply andb_prop in Hne. destruct Hne as [Hg Hr].
      rewrite (Hall Hr), andb_true_r. apply Ht.
      intros ->. discriminate Hg.
Qed.

(** What [updateActions] returns, whenever it returns. *)
Lemma updateActions_separators :
  forall fuel menu target,
    updateActions env fuel s menu = Some target ->
    getActions env menu <> [] ->
    count_separators is_separator target
    = length (getActions env menu) - 1
      + openRecentSlots (getActions env menu) * recentSeparators s
    /\ (all_groups_nonempty (getActions env menu) = true ->
        tidy is_separator target = true).
Proof.
  intros [|fuel] menu target H Hne; [discriminate |].
  cbn [updateActions] in H.
  destruct (pushGroups env s (updateActions env fuel s) (getActions env menu) [])
    as [t|] eqn:Hg; [| discriminate].
  injection H as <-.
  destruct (pushGroups_bodies _ _ _ _ Hg) as [bodies [-> [Hl [Hs Hall]]]].
  cbn [app].
  assert (Hb : bodies <> []).
  { intros ->. destruct (getActions env menu); [contradiction | discriminate]. }
  destruct (popped_joined is_separator Separator eq_refl bodies Hb) as [C T].
  rewrite C, Hl, Hs. split; [reflexivity |].
  intros Hn. apply T, Hall, Hn.
Qed.

(** More fuel does not change a returned list. *)
Lemma pushActions_extends :
  forall (f g : MenuId -> option (list IAction)),
    (forall m l, f m = Some l -> g m = Some l) ->
    forall group target result,
      pushActions env s f group target = Some result ->
      pushActions env s g group target = Some result.
Proof.
  intros f g Hfg. induction group as [|[a | a sub] rest IH];
    intros target result H; cbn [pushActions] in *.
  - exact H.
  - apply IH, H.
  - destruct (f sub) as [l|] eqn:E; [| discriminate].
    rewrite (Hfg _ _ E). apply IH, H.
Qed.

Lemma pushGroups_extends :
  forall (f g : MenuId -> option (list IAction)),
    (forall m l, f m = Some l -> g m = Some l) ->
    forall groups target result,
      pushGroups env s f groups target = Some result ->
      pushGroups env s g groups target = Some result.
Proof.
  intros f g Hfg. induction groups as [|[gid group] rest IH];
    intros target result H; cbn [pushGroups] in *; [exact H |].
  destruct (pushActions env s f group target) as [t|] eqn:E; [| discriminate].
  rewrite (pushActions_extends f g Hfg _ _ _ E). apply IH, H.
Qed.

Lemma updateActions_more_fuel :
  forall fuel menu target,
    updateActions env fuel s menu = Some target ->
    updateActions env (S fuel) s menu = Some target.
Proof.
  induction fuel as [|fuel IH]; intros menu target H; [discriminate |].
  cbn [updateActions] in H.
  destruct (pushGroups env s (updateActions env fuel s) (getActions env menu) [])
    as [t|] eqn:E; [| discriminate].
  change (updateActions env (S (S fuel)) s menu)
    with (match pushGroups env s (updateActions env (S fuel) s)
                  (getActions env menu) [] with
          | Some target => Some (removelast target)
          | None => None
          end).
  rewrite (pushGroups_extends _ _ IH _ _ _ E). exact H.
Qed.

Lemma updateActions_fuel_le :
  forall fuel fuel' menu target,
    fuel <= fuel' ->
    updateActions env fuel s menu = Some target ->
    updateActions env fuel' s menu = Some target.
Proof.
  intros fuel fuel' menu target Hle H.
  induction Hle; [exact H | apply updateActions_more_fuel; assumption].
Qed.

Lemma updateActions_deterministic :
  forall fuel fuel' menu t t',
    updateActions env fuel s menu = Some t ->
    updateActions env fuel' s menu = Some t' ->
    t = t'.
Proof.
  intros fuel fuel' menu t t' H H'.
  destruct (Nat.le_ge_cases fuel fuel') as [L | L].
  - apply (updateActions_fuel_le _ _ _ _ L) in H. congruence.
  - apply (updateActions_fuel_le _ _ _ _ L) in H'. congruence.
Qed.

(** A menu whose submenus nest less than [depth] deep is built with fuel
    [depth]. *)
Lemma pushActions_returns :
  forall (f : MenuId -> option (list IAction)) (ok : MenuId -> bool),
    (forall m, ok m = true -> exists l, f m = Some l) ->
    forall group target,
      forallb (fun r => match r with
                        | SubmenuItemAction _ submenu => ok submenu
                        | MenuItemAction _ => true
                        end) group = true ->
      exists result, pushActions env s f group target = Some result.
Proof.
  intros f ok Hok. induction group as [|[a | a sub] rest IH];
    intros target H; cbn [pushActions forallb] in *.
  - eexists; reflexivity.
  - apply IH, H.
  - apply andb_prop in H. destruct H as [Hs Hr].
    destruct (Hok sub Hs) as [l ->]. apply IH, Hr.
Qed.

Lemma pushGroups_returns :
  forall (f : MenuId -> option (list IAction)) (ok : MenuId -> bool),
    (forall m, ok m = true -> exists l, f m = Some l) ->
    forall groups target,
      forallb (fun g : Group =>
                 forallb (fun r => match r with
                                   | SubmenuItemAction _ submenu => ok submenu
                                   | MenuItemAction _ => true
                                   end) (snd g)) groups = true ->
      exists result, pushGroups env s f groups target = Some result.
Proof.
  intros f ok Hok. induction groups as [|[gid group] rest IH];
    intros target H; cbn [pushGroups forallb snd] in *.
  - eexists; reflexivity.
  - apply andb_prop in H. destruct H as [Hg Hr].
    destruct (pushActions_returns f ok Hok group target Hg) as [t ->].
    apply IH, Hr.
Qed.

Lemma updateActions_returns :
  forall depth menu,
    nested_within env depth menu = true ->
    exists target, updateActions env depth s menu = Some target.
Proof.
  induction depth as [|depth IH]; intros menu H; [discriminate |].
  cbn [nested_within] in H. cbn [updateActions].
  destruct (pushGroups_returns (updateActions env depth s)
              (nested_within env depth) IH (getActions env menu) [] H)
    as [t ->].
  eexists; reflexivity.
Qed.

(** The native path: the items of a menu are its groups joined by the
    separator item. *)
Lemma pushMenubarGroups_joined :
  forall groups items,
    pushMenubarGroups env s groups items
    = items ++ joined MenubarItemSeparator
                 (map (fun g : Group => map (menubarMenuItem env s) (snd g)) groups).
Proof.
  induction groups as [|[gid group] rest IH]; intros items.
  - cbn. rewrite app_nil_r. reflexivity.
  - cbn [pushMenubarGroups map snd]. rewrite IH.
    unfold joined. cbn [flat_map]. rewrite <- !app_assoc. reflexivity.
Qed.

Lemma menubar_body_facts :
  forall group : list RegistryAction,
    count_separators is_menubar_separator (map (menubarMenuItem env s) group) = 0
    /\ (group <> [] ->
        tidy is_menubar_separator (map (menubarMenuItem env s) group) = true).
Proof.
  intros group.
  assert (H : forallb (fun a => negb (is_menubar_separator a))
                (map (menubarMenuItem env s) group) = true).
  { induction group as [|r group IH]; [reflexivity | exact IH]. }
  destruct (no_separator_facts is_menubar_separator _ H) as [C [L [T Ad]]].
  split; [exact C |]. intros Hn. apply tidy_iff.
  repeat split; trivial. intros E. apply map_eq_nil in E. contradiction.
Qed.

Lemma menubar_bodies_inside :
  forall groups : list Group,
    separators_inside is_menubar_separator
      (map (fun g : Group => map (menubarMenuItem env s) (snd g)) groups) = 0.
Proof.
  unfold separators_inside, list_sum.
  induction groups as [|g gs IH]; [reflexivity |].
  cbn [map fold_right].
  rewrite (proj1 (menubar_body_facts (snd g))). exact IH.
Qed.

Lemma menubar_bodies_tidy :
  forall groups : list Group,
    all_groups_nonempty groups = true ->
    forallb (tidy is_menubar_separator)
      (map (fun g : Group => map (menubarMenuItem env s) (snd g)) groups) = true.
Proof.
  induction groups as [|g gs IH]; intros Hall; [reflexivity |].
  cbn [all_groups_nonempty forallb map] in *.
  apply andb_prop in Hall. destruct Hall as [Hg Hr].
  rewrite (IH Hr), andb_true_r.
  apply menubar_body_facts. intros E. rewrite E in Hg. discriminate.
Qed.

Lemma menubarMenuItems_separators :
  forall menu,
    getActions env menu <> [] ->
    count_separators is_menubar_separator (menubarMenuItems env s menu)
    = length (getActions env menu) - 1
    /\ (all_groups_nonempty (getActions env menu) = true ->
        tidy is_menubar_separator (menubarMenuItems env s menu) = true).
Proof.
  intros menu Hne. unfold menubarMenuItems.
  rewrite pushMenubarGroups_joined. cbn [app].
  set (bodies := map (fun g : Group => map (menubarMenuItem env s) (snd g))
                   (getActions env menu)).
  assert (Hb : bodies <> []).
  { subst bodies. intros E. apply map_eq_nil in E. contradiction. }
  assert (Hpos : (0 <? length (joined MenubarItemSeparator bodies)) = true).
  { destruct bodies as [|b bs]; [contradiction |].
    unfold joined. cbn [flat_map]. apply Nat.ltb_lt.
    rewrite !length_app. cbn [length]. lia. }
  rewrite Hpos.
  destruct (popped_joined is_menubar_separator MenubarItemSeparator eq_refl
              bodies Hb) as [C T].
  rewrite C. subst bodies.
  rewrite length_map, menubar_bodies_inside. split; [lia |].
  intros Hall. apply T, menubar_bodies_tidy, Hall.
Qed.

End SnapshotFacts.

(** C5 as stated fails twice.  A menu with the single non-empty group
    holding the open-recent slot, with one recent workspace, is built with
    one separator although n - 1 = 0; and a menu whose first group is empty
    is built with a leading separator. *)
Lemma separator_claim_fails :
  (exists target,
      updateActions Sample.services 1
        (Sample.withRecent (Some Sample.oneRecent)) (OtherMenu 0) = Some target
      /\ all_groups_nonempty (Sample.registry (OtherMenu 0)) = true
      /\ length (Sample.registry (OtherMenu 0)) = 1
      /\ count_separators is_separator target = 1
      /\ count_separators is_separator target
         <> length (Sample.registry (OtherMenu 0)) - 1)
  /\ (exists target,
         updateActions Sample.services 1 (Sample.withRecent None) (OtherMenu 1)
         = Some target
         /\ leading_separator is_separator target = true
         /\ leading_separator is_menubar_separator
              (menubarMenuItems Sample.services (Sample.withRecent None)
                 (OtherMenu 1)) = true).
Proof.
  split; eexists; (split; [vm_compute; reflexivity |]).
  - repeat split. discriminate.
  - split; reflexivity.
Qed.

(** C5 (amended): for every menu whose registry yields n >= 1 groups and
    whose submenus nest finitely, [updateActions] returns a list, the same
    for any fuel that suffices; it holds n - 1 separators plus, for each
    action whose id is [workbench.action.openRecent], the separators of the
    open-recent expansion (one per non-empty recent list); when every group
    is non-empty the list is not empty and has no leading separator, no
    trailing separator and no two adjacent separators.  The items built for
    the native menu bar hold exactly n - 1 separator items, and when every
    group is non-empty they too have no leading, trailing or adjacent
    separator. *)
Theorem built_list_separators :
  forall (env : Services) (s : MenubarPart) (depth : nat) (menu : MenuId),
    nested_within env depth menu = true ->
    getActions env menu <> [] ->
    exists target,
      updateActions env depth s menu = Some target
      /\ (forall fuel t, updateActions env fuel s menu = Some t -> t = target)
      /\ count_separators is_separator target
         = length (getActions env menu) - 1
           + openRecentSlots (getActions env menu) * recentSeparators s
      /\ (all_groups_nonempty (getActions env menu) = true ->
          leading_separator is_separator target = false
          /\ trailing_separator is_separator target = false
          /\ adjacent_separators is_separator target = false)
      /\ count_separators is_menubar_separator (menubarMenuItems env s menu)
         = length (getActions env menu) - 1
      /\ (all_groups_nonempty (getActions env menu) = true ->
          leading_separator is_menubar_separator (menubarMenuItems env s menu)
          = false
          /\ trailing_separator is_menubar_separator
               (menubarMenuItems env s menu) = false
          /\ adjacent_separators is_menubar_separator
               (menubarMenuItems env s menu) = false).
Proof.
  intros env s depth menu Hd Hne.
  destruct (updateActions_returns env s depth menu Hd) as [target Ht].
  destruct (updateActions_separators env s depth menu target Ht Hne) as [C T].
  destruct (menubarMenuItems_separators env s menu Hne) as [Cn Tn].
  exists target.
  split; [exact Ht |].
  split; [intros fuel t H; apply (updateActions_deterministic env s _ _ _ _ _ H Ht) |].
  split; [exact C |].
  split; [intros Hall; apply T, tidy_iff in Hall; tauto |].
  split; [exact Cn |].
  intros Hall. apply Tn, tidy_iff in Hall. tauto.
Qed.

Lemma built_list_separators_witness :
  exists target,
    updateActions Sample.services 2 (Sample.withRecent (Some Sample.oneRecent))
      MenubarFileMenu = Some target
    /\ count_separators is_separator target = 1
    /\ leading_separator is_separator target = false
    /\ trailing_separator is_separator target = false
    /\ adjacent_separators is_separator target = false.
Proof.
  destruct (built_list_separators Sample.services
              (Sample.withRecent (Some Sample.oneRecent)) 2 MenubarFileMenu
              eq_refl)
    as [target [Ht [_ [C [T _]]]]].
  - discriminate.
  - exists target. split; [exact Ht |]. split; [exact C |].
    apply T. reflexivity.
Defined.

(** C6: at an action whose id is [workbench.action.openRecent],
    [insertActionsBefore] appends to the target, when the recently opened
    list holds W workspaces and F files, min(W,5) workspace entries, a
    separator iff W > 0, min(F,5) file entries and a separator iff F > 0,
    the entries being the first ones of each list in order and none of them
    a separator; it appends nothing when W = 0 and F = 0, and nothing when
    the list has not been loaded. *)
Theorem open_recent_expansion :
  forall (env : Services) (s : MenubarPart) (action : RegistryAction)
         (target : list IAction),
    id (registry_data action) = "workbench.action.openRecent" ->
    (recentlyOpened s = None ->
     insertActionsBefore env s action target = target)
    /\ (forall ro,
          recentlyOpened s = Some ro ->
          let W := length (workspaces ro) in
          let F := length (files ro) in
          let workspaceEntries :=
            map (workspaceEntry env) (firstn 5 (workspaces ro)) in
          let fileEntries := map (fileEntry env) (firstn 5 (files ro)) in
          insertActionsBefore env s action target
          = target ++ workspaceEntries ++ separator_if (0 <? W)
                   ++ fileEntries ++ separator_if (0 <? F)
          /\ length workspaceEntries = Nat.min W 5
          /\ length fileEntries = Nat.min F 5
          /\ forallb (fun a => negb (is_separator a)) workspaceEntries = true
          /\ forallb (fun a => negb (is_separator a)) fileEntries = true
          /\ (W = 0 -> F = 0 ->
              insertActionsBefore env s action target = target)).
Proof.
  intros env s action target Hid.
  assert (Hins : insertActionsBefore env s action target
                 = target ++ getOpenRecentActions env s).
  { unfold insertActionsBefore. rewrite Hid. reflexivity. }
  split.
  - intros Hnone. rewrite Hins. unfold getOpenRecentActions. rewrite Hnone.
    apply app_nil_r.
  - intros ro Hro W F workspaceEntries fileEntries.
    rewrite Hins, (getOpenRecentActions_loaded env s ro Hro).
    split; [reflexivity |].
    split; [subst workspaceEntries W;
            rewrite length_map, length_firstn; apply Nat.min_comm |].
    split; [subst fileEntries F;
            rewrite length_map, length_firstn; apply Nat.min_comm |].
    split; [apply entries_not_separators, workspaceEntry_not_separator |].
    split; [apply entries_not_separators, fileEntry_not_separator |].
    intros HW HF. subst W F.
    destruct (workspaces ro); [| discriminate HW].
    destruct (files ro); [| discriminate HF].
    cbn. apply app_nil_r.
Qed.

Lemma open_recent_expansion_witness :
  length
    (insertActionsBefore Sample.services
       (Sample.withRecent (Some Sample.sevenRecent)) Sample.openRecent [])
  = 5 + 1 + 2 + 1.
Proof.
  destruct (open_recent_expansion Sample.services
              (Sample.withRecent (Some Sample.sevenRecent)) Sample.openRecent []
              eq_refl) as [_ H].
  destruct (H Sample.sevenRecent eq_refl) as [E _].
  rewrite E. reflexivity.
Defined.

(** * Further properties *)

Open Scope Z_scope.

(** ** Entry actions of the focus state *)

Lemma visibility_notifications_app :
  forall a b,
    visibility_notifications (a ++ b)
    = (visibility_notifications a + visibility_notifications b)%nat.
Proof.
  intros a b. unfold visibility_notifications.
  rewrite filter_app, length_app. reflexivity.
Qed.

Lemma updater_schedules_app :
  forall a b,
    updater_schedules (a ++ b) = (updater_schedules a + updater_schedules b)%nat.
Proof.
  intros a b. unfold updater_schedules.
  rewrite filter_app, length_app. reflexivity.
Qed.

Lemma js_index_first :
  forall {A} (m : A) ms, js_index (m :: ms) (Num 0) = Some m.
Proof. reflexivity. Qed.

Ltac unfold_machine :=
  unfold onModifierKeyToggled, setUnfocusedState, set_focusState, returnFocus,
    cleanupCustomMenu, hideMenubar, showMenubar, getMenubarItemsDimensions,
    showCustomMenu, customMenuAt, fresh, deref, throw,
    bind, gets, modify, when, ret, emit, currentMenubarVisibility,
    currentEnableMenuBarMnemonics, isVisible, isFocused, isOpen.

(** Runs the unfolded machine, looking buttons up with the facts at hand. *)
Ltac run_machine :=
  repeat first
    [ rewrite js_index_first
    | match goal with
      | H : js_index _ _ = Some _ |- _ => rewrite H
      end
    | progress cbn -[js_index js_length js_sub] ].

(** The whole effect of a transition on a built part whose focused
    index, if any, is a button position. *)
Lemma set_focusState_built :
  forall value s,
    built s -> focus_in_range s ->
    exists s',
      set_focusState value s = Ok tt s'
      /\ _focusState s' = value
      /\ focusedMenu s' = focusedMenu_after value s
      /\ same_surroundings s s'
      /\ _modifierKeyStatus s' = _modifierKeyStatus s
      /\ updatePending s'
         = (if isFocused s && state_lt value FOCUSED then false
            else updatePending s)
      /\ updater_schedules (trace s')
         = (updater_schedules (trace s)
            + if isFocused s && state_lt value FOCUSED && updatePending s
              then 1 else 0)%nat
      /\ visibility_notifications (trace s')
         = (visibility_notifications (trace s)
            + if xorb (isVisible s) (state_ge value VISIBLE) then 1 else 0)%nat
      /\ focusToReturn s'
         = (if isFocused s && state_lt value FOCUSED then None
            else focusToReturn s).
Proof.
  intros value s [[c Hc] [m [ms Hm]]] Hf.
  destruct (js_index_last m ms) as [l Hl].
  destruct s as [st fm cm up fr ct ro mk cfg nh tr].
  cbn in Hc, Hm. subst ct cm.
  unfold focus_in_range, button_count in Hf. cbn in Hf.
  destruct fm as [[i h w]|].
  - cbn in Hf. destruct i as [i|]; [| contradiction].
    destruct (js_index_in_range (m :: ms) i Hf) as [b Hb].
    destruct value, st;
      unfold focusedMenu_after, same_surroundings;
      unfold_machine; destruct up, fr, h, w;
      run_machine;
      (eexists; split; [reflexivity |]);
      cbn -[visibility_notifications updater_schedules];
      rewrite ?visibility_notifications_app, ?updater_schedules_app;
      unfold visibility_notifications, updater_schedules;
      cbn; repeat split; lia.
  - destruct value, st;
      unfold focusedMenu_after, same_surroundings;
      unfold_machine; destruct up, fr;
      run_machine;
      (eexists; split; [reflexivity |]);
      cbn -[visibility_notifications updater_schedules];
      rewrite ?visibility_notifications_app, ?updater_schedules_app;
      unfold visibility_notifications, updater_schedules;
      cbn; repeat split; lia.
Qed.

(** Breaks the remaining lookups of an unfolded run into their cases. *)
Ltac split_lookups :=
  repeat match goal with
         | |- context [match js_index ?l ?i with _ => _ end] =>
             destruct (js_index l i) eqn:?
         | |- context [match ?o with Some _ => _ | None => _ end] =>
             is_var o; destruct o
         end.

(** X1: when the setter of [focusState] returns, the state field holds the
    new value; when one of its entry actions throws, the state field is
    left as it was, whatever else was changed on the way. *)
Theorem focusState_committed_iff_returned :
  forall (value : MenubarState) (s : MenubarPart),
    match set_focusState value s with
    | Ok _ s' => _focusState s' = value
    | Throw _ s' => _focusState s' = _focusState s
    end.
Proof.
  intros value s.
  destruct s as [st fm cm up fr ct ro mk cfg nh tr].
  destruct fm as [[i [h|] [w|]]|], cm as [menus|], ct as [c|], fr as [r|], up;
    destruct value, st; unfold_machine;
    cbn -[js_index js_length js_sub];
    repeat (split_lookups; cbn -[js_index js_length js_sub]);
    reflexivity.
Qed.

Lemma same_surroundings_refl : forall s, same_surroundings s s.
Proof. intros s. repeat split. Qed.

Lemma same_surroundings_trans :
  forall s1 s2 s3,
    same_surroundings s1 s2 -> same_surroundings s2 s3 -> same_surroundings s1 s3.
Proof.
  unfold same_surroundings. intros s1 s2 s3 [A [B [C D]]] [A' [B' [C' D']]].
  repeat split; congruence.
Qed.

Lemma built_same_surroundings :
  forall s s', same_surroundings s s' -> built s -> built s'.
Proof.
  unfold same_surroundings, built.
  intros s s' [Hm [Hc _]] [[c C] [m [ms M]]].
  split; [exists c | exists m, ms]; congruence.
Qed.

Lemma button_count_same :
  forall s s', same_surroundings s s' -> button_count s' = button_count s.
Proof.
  unfold same_surroundings, button_count. intros s s' [Hm _]. rewrite Hm.
  reflexivity.
Qed.

Lemma restingState_same :
  forall s s', same_surroundings s s' -> restingState s' = restingState s.
Proof.
  unfold same_surroundings, restingState, currentMenubarVisibility.
  intros s s' [_ [_ [Hc _]]]. rewrite Hc. reflexivity.
Qed.

Lemma consistent_in_range :
  forall s, focus_consistent s -> focus_in_range s.
Proof.
  unfold focus_consistent, focus_in_range. intros s H.
  destruct (focusedMenu s); [tauto | exact I].
Qed.

Lemma consistent_unfocused :
  forall s, focus_consistent s -> isFocused s = false -> focusedMenu s = None.
Proof.
  unfold focus_consistent. intros s H Hf.
  destruct (focusedMenu s); [| reflexivity].
  destruct H as [H _]. congruence.
Qed.

(** A transition keeps the part well formed when the focused menu that
    enters it, if the bar was not focused, has no dropdown and the target is
    a focused state. *)
Lemma set_focusState_well_formed :
  forall value s,
    built s ->
    (focus_consistent s
     \/ (focus_in_range s /\ state_ge value FOCUSED = true
         /\ forall fm, focusedMenu s = Some fm ->
                       holder fm = None /\ widget fm = None)) ->
    exists s',
      set_focusState value s = Ok tt s'
      /\ _focusState s' = value
      /\ focusedMenu s' = focusedMenu_after value s
      /\ same_surroundings s s'
      /\ well_formed s'.
Proof.
  intros value s Hb Hpre.
  assert (Hr : focus_in_range s)
    by (destruct Hpre as [H | [H _]]; [apply consistent_in_range, H | exact H]).
  destruct (set_focusState_built value s Hb Hr) as [s' [R [St [F [Su _]]]]].
  exists s'.
  split; [exact R |]. split; [exact St |]. split; [exact F |].
  split; [exact Su |].
  split; [apply (built_same_surroundings s s' Su Hb) |].
  unfold focus_consistent. rewrite F, (button_count_same s s' Su).
  unfold isFocused, isOpen. rewrite St.
  unfold focusedMenu_after, focus_in_range, focus_consistent, isFocused, isOpen
    in *.
  destruct (focusedMenu s) as [fm|] eqn:Hfm;
    [| destruct value, (_focusState s); cbn; exact I].
  destruct Hpre as [[Hfoc [Hi Hh]] | [_ [Hv Hnone]]].
  - destruct value, (_focusState s); try discriminate Hfoc; cbn;
      try exact I; repeat split; trivial; try discriminate;
      try (apply Hh; reflexivity).
  - destruct (Hnone fm eq_refl) as [Hh Hw].
    destruct value, (_focusState s); try discriminate Hv; cbn;
      repeat split; trivial; try discriminate.
Qed.

Lemma setUnfocusedState_run :
  forall s,
    well_formed s ->
    exists s',
      setUnfocusedState s = Ok tt s'
      /\ _focusState s' = restingState s
      /\ focusedMenu s' = None
      /\ same_surroundings s s'
      /\ well_formed s'.
Proof.
  intros s [Hb Hc].
  destruct (set_focusState_well_formed (restingState s) s Hb (or_introl Hc))
    as [s' [R [St [F [Su W]]]]].
  exists s'.
  split; [exact R |]. split; [exact St |].
  split; [| split; [exact Su | exact W]].
  rewrite F. unfold focusedMenu_after, restingState.
  pose proof (consistent_unfocused s Hc) as Hn.
  unfold focus_consistent, isFocused in *.
  destruct (js_string_is (currentMenubarVisibility s) "toggle");
    destruct (_focusState s); cbn in *; auto.
Qed.

(** ** Listeners keep the part well formed *)

Lemma bind_run :
  forall {A B} (m : M A) (k : A -> M B) s a s1,
    m s = Ok a s1 -> bind m k s = k a s1.
Proof. intros A B m k s a s1 H. unfold bind. rewrite H. reflexivity. Qed.

(** [well_formed] reads the state, the focused menu, the buttons and the
    container only. *)
Lemma well_formed_same_fields :
  forall s s',
    _focusState s' = _focusState s ->
    focusedMenu s' = focusedMenu s ->
    same_surroundings s s' ->
    well_formed s -> well_formed s'.
Proof.
  intros s s' Hst Hfm Su [Hb Hc].
  split; [apply (built_same_surroundings s s' Su Hb) |].
  unfold focus_consistent, isFocused, isOpen in *.
  rewrite Hfm, Hst, (button_count_same s s' Su). exact Hc.
Qed.

Lemma cleanupCustomMenu_well_formed :
  forall s,
    well_formed s ->
    exists s',
      cleanupCustomMenu s = Ok tt s'
      /\ _focusState s' = _focusState s
      /\ focusedMenu s' = option_map closed (focusedMenu s)
      /\ nextHandle s' = nextHandle s
      /\ same_surroundings s s'
      /\ well_formed s'.
Proof.
  intros s [Hb Hc].
  destruct (cleanupCustomMenu_spec s) as [s' [R [F [St [_ [_ [Hn Su]]]]]]].
  exists s'. split; [exact R |]. split; [exact St |].
  split; [rewrite F; destruct (focusedMenu s); reflexivity |].
  split; [exact Hn |]. split; [exact Su |].
  split; [apply (built_same_surroundings s s' Su Hb) |].
  unfold focus_consistent, isFocused, isOpen in *.
  rewrite F, St, (button_count_same s s' Su).
  destruct (focusedMenu s) as [fm|]; [| exact I].
  destruct Hc as [Hf [Hi _]]. cbn. repeat split; trivial.
Qed.

Lemma customMenuAt_in_range :
  forall s i,
    built s -> 0 <= i < button_count s ->
    exists b, customMenuAt (Num i) s = Ok b s.
Proof.
  intros s i [_ [m [ms Hm]]] Hi. unfold button_count in Hi. rewrite Hm in Hi.
  destruct (js_index_in_range (m :: ms) i Hi) as [b Hb].
  exists b. unfold customMenuAt, bind, gets, deref, ret. rewrite Hm. cbn -[js_index].
  rewrite Hb. reflexivity.
Qed.

Lemma showCustomMenu_well_formed :
  forall s i,
    built s -> isOpen s = true -> 0 <= i < button_count s ->
    exists s',
      showCustomMenu (Num i) s = Ok tt s'
      /\ _focusState s' = _focusState s
      /\ focusedMenu s'
         = Some {| index := Num i; holder := Some (nextHandle s);
                   widget := Some (S (nextHandle s)) |}
      /\ same_surroundings s s'
      /\ well_formed s'.
Proof.
  intros s i Hb Ho Hi.
  pose proof Hb as [[c Hc] [m [ms Hm]]].
  unfold button_count in Hi. rewrite Hm in Hi.
  destruct (js_index_in_range (m :: ms) i Hi) as [b Hidx].
  destruct (showCustomMenu_run s (m :: ms) c (Num i) b Hm Hc Hidx)
    as [s' [R [F [St Su]]]].
  exists s'. split; [exact R |]. split; [exact St |]. split; [exact F |].
  split; [exact Su |].
  split; [apply (built_same_surroundings s s' Su Hb) |].
  unfold focus_consistent, isFocused, isOpen in *.
  rewrite F, St, (button_count_same s s' Su). unfold button_count. rewrite Hm.
  cbn [index holder widget index_in_range].
  split; [destruct (_focusState s); try discriminate Ho; reflexivity |].
  split; [exact Hi |]. intros E. congruence.
Qed.

(** Moving the focus on a well-formed part. *)
Lemma moveFocus_well_formed :
  forall newIndex s,
    well_formed s ->
    (forall i, 0 <= i < button_count s ->
       exists j, newIndex (Num i) (Num (button_count s)) = Num j
                 /\ 0 <= j < button_count s) ->
    exists s',
      moveFocus newIndex s = Ok tt s'
      /\ _focusState s' = _focusState s
      /\ same_surroundings s s'
      /\ well_formed s'
      /\ match focusedMenu s with
         | None => s' = s
         | Some fm =>
             exists fm',
               focusedMenu s' = Some fm'
               /\ index fm' = newIndex (index fm) (Num (button_count s))
         end.
Proof.
  intros newIndex s [Hb Hc] Hnew.
  pose proof Hb as [[c Hct] [m [ms Hm]]].
  unfold moveFocus, bind, gets.
  destruct (focusedMenu s) as [fm|] eqn:Hfm.
  - pose proof Hc as Hc'. unfold focus_consistent in Hc'. rewrite Hfm in Hc'.
    destruct Hc' as [Hfoc [Hi Hh]].
    destruct (index fm) as [i|] eqn:Hidx; [| contradiction]. cbn in Hi.
    destruct (Hnew i Hi) as [j [Hj Hjr]].
    assert (Hlen : js_length (m :: ms) = Num (button_count s))
      by (unfold js_length, button_count; rewrite Hm; reflexivity).
    rewrite Hm. cbn [deref ret]. rewrite Hlen, Hj. cbn [js_strict_eq].
    destruct (j =? i) eqn:E.
    + apply Z.eqb_eq in E. subst j. exists s.
      split; [reflexivity |]. split; [reflexivity |].
      split; [apply same_surroundings_refl |].
      split; [split; assumption |].
      exists fm. split; [exact Hfm | congruence].
    + destruct (isOpen s) eqn:Ho.
      * destruct (cleanupCustomMenu_well_formed s (conj Hb Hc))
          as [s1 [R1 [St1 [F1 [N1 [Su1 [Hb1 _]]]]]]].
        rewrite R1.
        assert (Ho1 : isOpen s1 = true)
          by (unfold isOpen in *; rewrite St1; exact Ho).
        assert (Hjr1 : 0 <= j < button_count s1)
          by (rewrite (button_count_same s s1 Su1); exact Hjr).
        destruct (showCustomMenu_well_formed s1 j Hb1 Ho1 Hjr1)
          as [s2 [R2 [St2 [F2 [Su2 W2]]]]].
        rewrite R2. exists s2.
        split; [reflexivity |]. split; [congruence |].
        split; [apply (same_surroundings_trans s s1 s2); assumption |].
        split; [exact W2 |].
        eexists. split; [exact F2 | cbn; congruence].
      * rewrite Hfoc. unfold when.
        destruct (customMenuAt_in_range
                    (with_focusedMenu
                       (Some {| index := Num j; holder := holder fm;
                                widget := widget fm |}) s) j)
          as [b Hb2].
        { apply (built_same_surroundings s); [repeat split | exact Hb]. }
        { exact Hjr. }
        unfold emit, modify. cbv beta iota. rewrite Hb2.
        eexists. split; [reflexivity |]. cbn.
        split; [reflexivity |]. split; [repeat split |].
        split.
        -- split; [apply (built_same_surroundings s); [repeat split | exact Hb] |].
           destruct (Hh eq_refl) as [Hh1 Hh2].
           unfold focus_consistent, isFocused, isOpen, button_count in *. cbn.
           rewrite Hm in *. repeat split; trivial; lia.
        -- eexists. split; [reflexivity | cbn; congruence].
  - exists s. split; [reflexivity |]. split; [reflexivity |].
    split; [apply same_surroundings_refl |]. split; [split; assumption |].
    reflexivity.
Qed.

Lemma focusNext_well_formed :
  forall s,
    well_formed s ->
    exists s',
      focusNext s = Ok tt s'
      /\ _focusState s' = _focusState s
      /\ same_surroundings s s'
      /\ well_formed s'
      /\ match focusedMenu s with
         | None => s' = s
         | Some fm =>
             exists fm',
               focusedMenu s' = Some fm'
               /\ index fm'
                  = js_rem (js_add (index fm) (Num 1)) (Num (button_count s))
         end.
Proof.
  intros s W.
  apply (moveFocus_well_formed (fun i len => js_rem (js_add i (Num 1)) len) s W).
  intros i Hi. destruct (next_index i _ Hi) as [E R]. eexists; split; eassumption.
Qed.

Lemma focusPrevious_well_formed :
  forall s,
    well_formed s ->
    exists s',
      focusPrevious s = Ok tt s'
      /\ _focusState s' = _focusState s
      /\ same_surroundings s s'
      /\ well_formed s'
      /\ match focusedMenu s with
         | None => s' = s
         | Some fm =>
             exists fm',
               focusedMenu s' = Some fm'
               /\ index fm'
                  = js_rem (js_add (js_sub (index fm) (Num 1))
                              (Num (button_count s)))
                      (Num (button_count s))
         end.
Proof.
  intros s W.
  apply (moveFocus_well_formed
           (fun i len => js_rem (js_add (js_sub i (Num 1)) len) len) s W).
  intros i Hi. destruct (previous_index i _ Hi) as [E R].
  eexists; split; eassumption.
Qed.

Lemma onContainerKeyDown_well_formed :
  forall k s,
    well_formed s ->
    exists handled s',
      onContainerKeyDown k s = Ok handled s'
      /\ same_surroundings s s'
      /\ well_formed s'.
Proof.
  intros k s W. unfold onContainerKeyDown.
  destruct (equalsLeftArrow k || shiftAndTab k).
  - destruct (focusPrevious_well_formed s W) as [s' [R [_ [Su [W' _]]]]].
    exists true, s'. rewrite (bind_run _ _ _ _ _ R).
    split; [reflexivity | split; assumption].
  - destruct (equalsRightArrow k || equalsTab k).
    + destruct (focusNext_well_formed s W) as [s' [R [_ [Su [W' _]]]]].
      exists true, s'. rewrite (bind_run _ _ _ _ _ R).
    split; [reflexivity | split; assumption].
    + unfold bind at 1, gets. unfold bind at 1.
      destruct (equalsEscape k && isFocused s && negb (isOpen s)).
      * destruct (setUnfocusedState_run s W) as [s' [R [_ [_ [Su W']]]]].
        exists true, s'. rewrite (bind_run _ _ _ _ _ R).
        split; [reflexivity | split; assumption].
      * exists false, s. split; [reflexivity |].
        split; [apply same_surroundings_refl | exact W].
Qed.

Lemma focused_menu_set :
  forall s i,
    built s -> 0 <= i < button_count s ->
    let s1 := with_focusedMenu
                (Some {| index := Num i; holder := None; widget := None |}) s in
    built s1
    /\ focus_in_range s1
    /\ (forall fm, focusedMenu s1 = Some fm ->
                   holder fm = None /\ widget fm = None)
    /\ same_surroundings s s1.
Proof.
  intros s i Hb Hi s1.
  assert (Su : same_surroundings s s1) by (subst s1; repeat split).
  split; [apply (built_same_surroundings s s1 Su Hb) |].
  split; [unfold focus_in_range; rewrite (button_count_same s s1 Su); exact Hi |].
  split; [| exact Su].
  intros fm E. subst s1. cbn in E. injection E as <-. split; reflexivity.
Qed.

(** Focusing button [i] and entering a focused state. *)
Lemma focus_button_then_set :
  forall value s i,
    built s -> 0 <= i < button_count s ->
    state_ge value FOCUSED = true ->
    exists s',
      set_focusState value
        (with_focusedMenu
           (Some {| index := Num i; holder := None; widget := None |}) s)
      = Ok tt s'
      /\ _focusState s' = value
      /\ focusedMenu s'
         = focusedMenu_after value
             (with_focusedMenu
                (Some {| index := Num i; holder := None; widget := None |}) s)
      /\ same_surroundings s s'
      /\ well_formed s'.
Proof.
  intros value s i Hb Hi Hv.
  destruct (focused_menu_set s i Hb Hi) as [Hb1 [Hr1 [Hn1 Su1]]].
  destruct (set_focusState_well_formed value _ Hb1
              (or_intror (conj Hr1 (conj Hv Hn1))))
    as [s' [R [St [F [Su W]]]]].
  exists s'. repeat split; trivial; try apply W;
    apply (same_surroundings_trans _ _ _ Su1 Su).
Qed.

Lemma onButtonKeyUp_well_formed :
  forall k i s,
    well_formed s -> 0 <= i < button_count s ->
    exists handled s',
      onButtonKeyUp k (Num i) s = Ok handled s'
      /\ same_surroundings s s'
      /\ well_formed s'
      /\ handled = (k && negb (isOpen s))
      /\ (handled = true ->
          _focusState s' = OPEN
          /\ focusedMenu s'
             = Some {| index := Num i; holder := Some (nextHandle s);
                       widget := Some (S (nextHandle s)) |})
      /\ (handled = false -> s' = s).
Proof.
  intros k i s W Hi. unfold onButtonKeyUp. unfold bind at 1, gets.
  destruct (k && negb (isOpen s)) eqn:E.
  - destruct W as [Hb Hc].
    destruct (focus_button_then_set OPEN s i Hb Hi eq_refl)
      as [s' [R [St [F [Su W']]]]].
    exists true, s'. unfold modify. unfold bind at 1.
    rewrite (bind_run _ _ _ _ _ R).
    split; [reflexivity |]. split; [exact Su |]. split; [exact W' |].
    split; [reflexivity |]. split; [| discriminate].
    intros _. split; [exact St |]. rewrite F.
    apply andb_prop in E. destruct E as [_ E]. apply negb_true_iff in E.
    unfold focusedMenu_after, isOpen in *. cbn.
    destruct (_focusState s); try discriminate E; reflexivity.
  - exists false, s. split; [reflexivity |].
    split; [apply same_surroundings_refl |]. split; [exact W |].
    split; [reflexivity |]. split; [discriminate | reflexivity].
Qed.

Lemma onButtonClick_well_formed :
  forall ks i s,
    well_formed s -> 0 <= i < button_count s ->
    exists s',
      onButtonClick ks (Num i) s = Ok tt s'
      /\ same_surroundings s s'
      /\ well_formed s'
      /\ ((match _modifierKeyStatus s with
           | Some TrackerKeyStatus => shiftKey ks || ctrlKey ks
           | None => false
           end) = false ->
          if isOpen s then
            if isCurrentMenu (Num i) s then
              _focusState s' = restingState s /\ focusedMenu s' = None
            else
              _focusState s' = OPEN
              /\ focusedMenu s'
                 = Some {| index := Num i; holder := Some (nextHandle s);
                           widget := Some (S (nextHandle s)) |}
          else
            _focusState s' = OPEN
            /\ focusedMenu s'
               = Some {| index := Num i; holder := Some (nextHandle s);
                         widget := Some (S (nextHandle s)) |}).
Proof.
  intros ks i s W Hi. unfold onButtonClick. unfold bind at 1, gets.
  destruct (match _modifierKeyStatus s with
            | Some TrackerKeyStatus => shiftKey ks || ctrlKey ks
            | None => false
            end) eqn:Echord.
  - exists s. split; [reflexivity |]. split; [apply same_surroundings_refl |].
    split; [exact W | discriminate].
  - unfold bind at 1. destruct (isOpen s) eqn:Ho.
    + unfold bind at 1. destruct (isCurrentMenu (Num i) s) eqn:Ecur.
      * destruct (setUnfocusedState_run s W) as [s' [R [St [F [Su W']]]]].
        exists s'. split; [exact R |]. split; [exact Su |].
        split; [exact W' |]. intros _. split; assumption.
      * destruct (cleanupCustomMenu_well_formed s W)
          as [s1 [R1 [St1 [F1 [N1 [Su1 [Hb1 _]]]]]]].
        rewrite (bind_run _ _ _ _ _ R1).
        assert (Ho1 : isOpen s1 = true)
          by (unfold isOpen in *; rewrite St1; exact Ho).
        assert (Hi1 : 0 <= i < button_count s1)
          by (rewrite (button_count_same s s1 Su1); exact Hi).
        destruct (showCustomMenu_well_formed s1 i Hb1 Ho1 Hi1)
          as [s2 [R2 [St2 [F2 [Su2 W2]]]]].
        exists s2. split; [exact R2 |].
        split; [apply (same_surroundings_trans s s1 s2); assumption |].
        split; [exact W2 |]. intros _.
        split; [| rewrite F2, N1; reflexivity].
        rewrite St2, St1. unfold isOpen in Ho.
        destruct (_focusState s); try discriminate Ho; reflexivity.
    + destruct W as [Hb Hc].
      destruct (focus_button_then_set OPEN s i Hb Hi eq_refl)
        as [s' [R [St [F [Su W']]]]].
      exists s'. unfold modify. unfold bind at 1.
      split; [exact R |]. split; [exact Su |]. split; [exact W' |].
      intros _. split; [exact St |]. rewrite F.
      unfold focusedMenu_after, isOpen in *. cbn.
      destruct (_focusState s); try discriminate Ho; reflexivity.
Qed.

Lemma onButtonMouseEnter_well_formed :
  forall i s,
    well_formed s -> 0 <= i < button_count s ->
    exists s',
      onButtonMouseEnter (Num i) s = Ok tt s'
      /\ same_surroundings s s'
      /\ well_formed s'
      /\ _focusState s' = _focusState s
      /\ (isFocused s = false -> s' = s)
      /\ (isFocused s = true -> isOpen s = false ->
          focusedMenu s'
          = Some {| index := Num i; holder := None; widget := None |})
      /\ (isOpen s = true -> isCurrentMenu (Num i) s = false ->
          focusedMenu s'
          = Some {| index := Num i; holder := Some (nextHandle s);
                    widget := Some (S (nextHandle s)) |})
      /\ (isOpen s = true -> isCurrentMenu (Num i) s = true -> s' = s).
Proof.
  intros i s W Hi. pose proof W as [Hb Hc].
  unfold onButtonMouseEnter. unfold bind at 1, gets. unfold bind at 1.
  destruct (isOpen s) eqn:Ho; destruct (isCurrentMenu (Num i) s) eqn:Ecur;
    cbn [andb negb].
  - (* open on this button: nothing *)
    assert (Hf : isFocused s = true)
      by (unfold isFocused, isOpen in *; destruct (_focusState s);
          try discriminate Ho; reflexivity).
    unfold bind at 1. unfold bind at 1. rewrite Hf, Ho. cbn [andb negb when].
    exists s. split; [reflexivity |]. split; [apply same_surroundings_refl |].
    split; [exact W |]. split; [reflexivity |].
    repeat split; try congruence; intros; try discriminate.
  - (* open on another button: the dropdown moves *)
    destruct (customMenuAt_in_range s i Hb Hi) as [b Hbtn].
    rewrite (bind_run _ _ _ _ _ Hbtn). unfold emit, modify. unfold bind at 1.
    set (s0 := with_trace (trace s ++ [DomFocus (buttonElement b)]) s).
    assert (Su0 : same_surroundings s s0) by (subst s0; repeat split).
    assert (W0 : well_formed s0)
      by (apply (well_formed_same_fields s s0); trivial; reflexivity).
    destruct (cleanupCustomMenu_well_formed s0 W0)
      as [s1 [R1 [St1 [F1 [N1 [Su1 [Hb1 _]]]]]]].
    rewrite (bind_run _ _ _ _ _ R1).
    assert (Ho1 : isOpen s1 = true)
      by (unfold isOpen in *; rewrite St1; exact Ho).
    assert (Hi1 : 0 <= i < button_count s1).
    { rewrite (button_count_same s0 s1 Su1), (button_count_same s s0 Su0).
      exact Hi. }
    destruct (showCustomMenu_well_formed s1 i Hb1 Ho1 Hi1)
      as [s2 [R2 [St2 [F2 [Su2 W2]]]]].
    exists s2. split; [exact R2 |].
    split; [apply (same_surroundings_trans s s0 s2); trivial;
            apply (same_surroundings_trans s0 s1 s2); assumption |].
    split; [exact W2 |]. split; [rewrite St2, St1; reflexivity |].
    assert (Hf : isFocused s = true)
      by (unfold isFocused, isOpen in *; destruct (_focusState s);
          try discriminate Ho; reflexivity).
    split; [intros E; congruence |]. split; [intros _ E; discriminate E |].
    split; [intros _ _; rewrite F2, N1; reflexivity | intros _ E; discriminate E].
  - (* not open, same index *)
    unfold bind at 1. unfold bind at 1. rewrite Ho. cbn [negb].
    rewrite andb_true_r. destruct (isFocused s) eqn:Hf; unfold when.
    + destruct (focused_menu_set s i Hb Hi) as [Hb1 [_ [_ Su1]]].
      unfold modify. unfold bind at 1.
      destruct (customMenuAt_in_range _ i Hb1) as [b Hbtn];
        [rewrite (button_count_same _ _ Su1); exact Hi |].
      rewrite (bind_run _ _ _ _ _ Hbtn). unfold emit, modify.
      eexists. split; [reflexivity |]. split; [repeat split |].
      split.
      { split; [apply (built_same_surroundings s); [repeat split | exact Hb] |].
        unfold focus_consistent, isFocused, isOpen, button_count in *. cbn.
        repeat split; trivial; lia. }
      split; [reflexivity |]. split; [discriminate |].
      split; [reflexivity |]. split; intros E; discriminate E.
    + exists s. split; [reflexivity |]. split; [apply same_surroundings_refl |].
      split; [exact W |]. split; [reflexivity |].
      split; [reflexivity |]. split; [discriminate |].
      split; intros E; discriminate E.
  - (* not open, another index *)
    unfold bind at 1. unfold bind at 1. rewrite Ho. cbn [negb].
    rewrite andb_true_r. destruct (isFocused s) eqn:Hf; unfold when.
    + destruct (focused_menu_set s i Hb Hi) as [Hb1 [_ [_ Su1]]].
      unfold modify. unfold bind at 1.
      destruct (customMenuAt_in_range _ i Hb1) as [b Hbtn];
        [rewrite (button_count_same _ _ Su1); exact Hi |].
      rewrite (bind_run _ _ _ _ _ Hbtn). unfold emit, modify.
      eexists. split; [reflexivity |]. split; [repeat split |].
      split.
      { split; [apply (built_same_surroundings s); [repeat split | exact Hb] |].
        unfold focus_consistent, isFocused, isOpen, button_count in *. cbn.
        repeat split; trivial; lia. }
      split; [reflexivity |]. split; [discriminate |].
      split; [reflexivity |]. split; intros E; discriminate E.
    + exists s. split; [reflexivity |]. split; [apply same_surroundings_refl |].
      split; [exact W |]. split; [reflexivity |].
      split; [reflexivity |]. split; [discriminate |].
      split; intros E; discriminate E.
Qed.

Lemma onWindowClick_well_formed :
  forall s,
    well_formed s ->
    exists s',
      onWindowClick s = Ok tt s'
      /\ same_surroundings s s'
      /\ well_formed s'
      /\ (isFocused s = true ->
          _focusState s' = restingState s /\ focusedMenu s' = None)
      /\ (isFocused s = false -> s' = s).
Proof.
  intros s W. unfold onWindowClick. unfold bind, gets, when.
  destruct (isFocused s) eqn:Hf.
  - destruct (setUnfocusedState_run s W) as [s' [R [St [F [Su W']]]]].
    exists s'. split; [exact R |]. split; [exact Su |]. split; [exact W' |].
    split; [intros _; split; assumption | discriminate].
  - exists s. split; [reflexivity |]. split; [apply same_surroundings_refl |].
    split; [exact W |]. split; [discriminate | reflexivity].
Qed.

Lemma with_focusToReturn_well_formed :
  forall v s, well_formed s -> well_formed (with_focusToReturn v s).
Proof.
  intros v s W.
  apply (well_formed_same_fields s); trivial; try reflexivity. repeat split.
Qed.

Lemma onContainerFocusIn_well_formed :
  forall target inside s,
    well_formed s ->
    exists s',
      onContainerFocusIn target inside s = Ok tt s'
      /\ same_surroundings s s'
      /\ well_formed s'.
Proof.
  intros target inside s W. pose proof W as [[[c Hc] _] _].
  unfold onContainerFocusIn. destruct target as [t|].
  - unfold bind, gets, deref, ret, when, modify. rewrite Hc.
    destruct inside; cbn [negb].
    + exists s. split; [reflexivity |].
      split; [apply same_surroundings_refl | exact W].
    + eexists. split; [reflexivity |]. split; [repeat split |].
      apply with_focusToReturn_well_formed, W.
  - exists s. split; [reflexivity |].
    split; [apply same_surroundings_refl | exact W].
Qed.

Lemma onContainerFocusOut_well_formed :
  forall target inside s,
    well_formed s ->
    exists s',
      onContainerFocusOut target inside s = Ok tt s'
      /\ same_surroundings s s'
      /\ well_formed s'.
Proof.
  intros target inside s W. pose proof W as [[[c Hc] _] _].
  unfold onContainerFocusOut. destruct target as [t|].
  - unfold bind at 1. unfold bind at 1. unfold gets, deref, ret. rewrite Hc.
    destruct inside; cbn [negb when].
    + exists s. split; [reflexivity |].
      split; [apply same_surroundings_refl | exact W].
    + unfold modify. unfold bind at 1.
      destruct (setUnfocusedState_run (with_focusToReturn None s)
                  (with_focusToReturn_well_formed None s W))
        as [s' [R [_ [_ [Su W']]]]].
      exists s'. split; [exact R |]. split; [| exact W'].
      apply (same_surroundings_trans s (with_focusToReturn None s) s');
        [repeat split | exact Su].
  - exists s. split; [reflexivity |].
    split; [apply same_surroundings_refl | exact W].
Qed.

Lemma onDidChangeWindowFocus_well_formed :
  forall hasFocus s,
    well_formed s ->
    exists s',
      onDidChangeWindowFocus hasFocus s = Ok tt s'
      /\ same_surroundings s s'
      /\ well_formed s'
      /\ (hasFocus = false ->
          _focusState s' = restingState s /\ focusedMenu s' = None)
      /\ (hasFocus = true -> s' = s).
Proof.
  intros hasFocus s W. pose proof W as [[[c Hc] _] _].
  unfold onDidChangeWindowFocus. unfold bind, gets. rewrite Hc.
  destruct hasFocus.
  - exists s. split; [reflexivity |]. split; [apply same_surroundings_refl |].
    split; [exact W |]. split; [discriminate | reflexivity].
  - destruct (setUnfocusedState_run s W) as [s' [R [St [F [Su W']]]]].
    exists s'. split; [exact R |]. split; [exact Su |]. split; [exact W' |].
    split; [intros _; split; assumption | discriminate].
Qed.

Lemma decorateTitles_well_formed :
  forall ms u s,
    well_formed s ->
    well_formed (with_trace (trace s ++ decorations ms u) s).
Proof.
  intros ms u s W.
  apply (well_formed_same_fields s); trivial; try reflexivity. repeat split.
Qed.

(** The three parts of [onModifierKeyToggled], one after the other. *)
Lemma onModifierKeyToggled_well_formed :
  forall status s,
    well_formed s ->
    exists s',
      onModifierKeyToggled status s = Ok tt s'
      /\ same_surroundings s s'
      /\ well_formed s'.
Proof.
  intros status s W.
  unfold onModifierKeyToggled.
  set (altKeyAlone := lastIs (lastKeyPressed status) alt
                      && negb (ctrlKey status) && negb (shiftKey status)).
  set (allModifiersReleased := negb (altKey status) && negb (ctrlKey status)
                               && negb (shiftKey status)).
  set (tap := allModifiersReleased && lastIs (lastKeyPressed status) alt
              && lastIs (lastKeyReleased status) alt).
  unfold modify at 1. unfold bind at 1.
  set (s0 := with_modifierKeyStatus (Some TrackerKeyStatus) s).
  assert (Su0 : same_surroundings s s0) by (subst s0; repeat split).
  assert (W0 : well_formed s0)
    by (apply (well_formed_same_fields s s0); trivial; reflexivity).
  (* first part: toggle visibility *)
  assert (H1 : exists s1,
             (vis <- gets currentMenubarVisibility ;;
              when (js_string_is vis "toggle")
                (if altKeyAlone then
                   v <- gets isVisible ;; when (negb v) (set_focusState VISIBLE)
                 else
                   f <- gets isFocused ;;
                   when (negb allModifiersReleased && negb f)
                     (set_focusState HIDDEN))) s0 = Ok tt s1
             /\ same_surroundings s0 s1 /\ well_formed s1).
  { unfold bind at 1. unfold gets at 1. unfold when at 1.
    destruct (js_string_is (currentMenubarVisibility s0) "toggle");
      [| exists s0; split; [reflexivity |];
         split; [apply same_surroundings_refl | exact W0]].
    destruct altKeyAlone.
    - unfold bind, gets, when. destruct (negb (isVisible s0)).
      + destruct W0 as [Hb0 Hc0].
        destruct (set_focusState_well_formed VISIBLE s0 Hb0 (or_introl Hc0))
          as [s1 [R [_ [_ [Su W1]]]]].
        exists s1. split; [exact R | split; assumption].
      + exists s0. split; [reflexivity |].
        split; [apply same_surroundings_refl | exact W0].
    - unfold bind, gets, when.
      destruct (negb allModifiersReleased && negb (isFocused s0)).
      + destruct W0 as [Hb0 Hc0].
        destruct (set_focusState_well_formed HIDDEN s0 Hb0 (or_introl Hc0))
          as [s1 [R [_ [_ [Su W1]]]]].
        exists s1. split; [exact R | split; assumption].
      + exists s0. split; [reflexivity |].
        split; [apply same_surroundings_refl | exact W0]. }
  destruct H1 as [s1 [R1 [Su1 W1]]].
  rewrite (bind_run _ _ _ _ _ R1).
  (* second part: the bare Alt tap *)
  assert (H2 : exists s2,
             when tap
               (f <- gets isFocused ;;
                if negb f then
                  modify (with_focusedMenu
                            (Some {| index := Num 0; holder := None;
                                     widget := None |})) ;;
                  set_focusState FOCUSED
                else
                  o <- gets isOpen ;; when (negb o) setUnfocusedState) s1
             = Ok tt s2
             /\ same_surroundings s1 s2 /\ well_formed s2).
  { unfold when at 1. destruct tap;
      [| exists s1; split; [reflexivity |];
         split; [apply same_surroundings_refl | exact W1]].
    unfold bind at 1, gets at 1. destruct (negb (isFocused s1)).
    - pose proof W1 as [Hb1 _].
      assert (H0 : 0 <= 0 < button_count s1).
      { destruct Hb1 as [_ [m [ms Hm]]]. unfold button_count. rewrite Hm.
        cbn [length]. lia. }
      destruct (focus_button_then_set FOCUSED s1 0 Hb1 H0 eq_refl)
        as [s2 [R [_ [_ [Su W2]]]]].
      exists s2. unfold modify. unfold bind at 1.
      split; [exact R | split; assumption].
    - unfold bind, gets, when. destruct (negb (isOpen s1)).
      + destruct (setUnfocusedState_run s1 W1) as [s2 [R [_ [_ [Su W2]]]]].
        exists s2. split; [exact R | split; assumption].
      + exists s1. split; [reflexivity |].
        split; [apply same_surroundings_refl | exact W1]. }
  destruct H2 as [s2 [R2 [Su2 W2]]].
  rewrite (bind_run _ _ _ _ _ R2).
  (* third part: decorations *)
  unfold bind, gets.
  assert (Su : same_surroundings s s2).
  { apply (same_surroundings_trans s s0 s2); trivial.
    apply (same_surroundings_trans s0 s1 s2); assumption. }
  destruct (customMenus s2) as [ms|];
    [| exists s2; split; [reflexivity | split; assumption]].
  unfold when. destruct (currentEnableMenuBarMnemonics s2).
  - rewrite decorateTitles_run. eexists. split; [reflexivity |].
    split; [| apply decorateTitles_well_formed, W2].
    apply (same_surroundings_trans s s2); [exact Su | repeat split].
  - exists s2. split; [reflexivity | split; assumption].
Qed.

(** Every listener returns on a well-formed part and leaves it well
    formed, with the same buttons, container and configuration. *)
Lemma dispatch_well_formed :
  forall ev s,
    well_formed s ->
    event_in_range (button_count s) ev ->
    exists s',
      dispatch ev s = Ok tt s'
      /\ same_surroundings s s'
      /\ well_formed s'.
Proof.
  intros ev s W Hr. destruct ev; cbn [dispatch event_in_range] in *.
  - apply onModifierKeyToggled_well_formed, W.
  - destruct menuIndex as [i|]; [| contradiction].
    destruct (onButtonKeyUp_well_formed downArrowOrEnter i s W Hr)
      as [h [s' [R [Su [W' _]]]]].
    exists s'. rewrite (bind_run _ _ _ _ _ R).
    split; [reflexivity | split; assumption].
  - destruct menuIndex as [i|]; [| contradiction].
    destruct (onButtonClick_well_formed ks i s W Hr) as [s' [R [Su [W' _]]]].
    exists s'. split; [exact R | split; assumption].
  - destruct menuIndex as [i|]; [| contradiction].
    destruct (onButtonMouseEnter_well_formed i s W Hr)
      as [s' [R [Su [W' _]]]].
    exists s'. split; [exact R | split; assumption].
  - destruct (onContainerKeyDown_well_formed k s W) as [h [s' [R [Su W']]]].
    exists s'. rewrite (bind_run _ _ _ _ _ R).
    split; [reflexivity | split; assumption].
  - destruct (onWindowClick_well_formed s W) as [s' [R [Su [W' _]]]].
    exists s'. split; [exact R | split; assumption].
  - apply onContainerFocusIn_well_formed, W.
  - apply onContainerFocusOut_well_formed, W.
  - destruct W as [Hb Hc].
    destruct (set_focusState_well_formed FOCUSED s Hb (or_introl Hc))
      as [s' [R [_ [_ [Su W']]]]].
    exists s'. split; [exact R | split; assumption].
  - destruct (cleanupCustomMenu_well_formed s W)
      as [s' [R [_ [_ [_ [Su W']]]]]].
    exists s'. split; [exact R | split; assumption].
  - destruct (onDidChangeWindowFocus_well_formed hasFocus s W)
      as [s' [R [Su [W' _]]]].
    exists s'. split; [exact R | split; assumption].
  - destruct (setUnfocusedState_run s W) as [s' [R [_ [_ [Su W']]]]].
    exists s'. split; [exact R | split; assumption].
Qed.

(** ** What the listeners guarantee *)

Ltac solve_well_formed :=
  split;
  [ split; [eexists; reflexivity | eexists; eexists; reflexivity]
  | unfold focus_consistent; cbn; repeat split; try lia; try discriminate ].

(** X2: on a built bar in a consistent focus condition, whatever listeners
    run one after the other with button indices that exist, none of them
    throws, and afterwards the bar is still built with the same buttons and
    container and the focused menu, if any, still belongs to a focused bar,
    points at an existing button and holds a dropdown only while open. *)
Theorem listeners_never_throw :
  forall (evs : list MenubarEvent) (s : MenubarPart),
    well_formed s ->
    Forall (event_in_range (button_count s)) evs ->
    allReturn evs s = true
    /\ well_formed (dispatchAll evs s)
    /\ same_surroundings s (dispatchAll evs s).
Proof.
  induction evs as [|ev evs IH]; intros s W Hr.
  - split; [reflexivity |]. split; [exact W | apply same_surroundings_refl].
  - inversion Hr as [|? ? Hev Hrest]; subst.
    destruct (dispatch_well_formed ev s W Hev) as [s' [R [Su W']]].
    cbn [allReturn dispatchAll fold_left]. rewrite R. cbn [returned final_state andb].
    rewrite <- (button_count_same s s' Su) in Hrest.
    destruct (IH s' W' Hrest) as [A [Wf Sf]].
    split; [exact A |]. split; [exact Wf |].
    apply (same_surroundings_trans s s' _ Su Sf).
Qed.

Lemma listeners_never_throw_witness :
  allReturn Scenario.session Sample.hiddenBar = true
  /\ well_formed (dispatchAll Scenario.session Sample.hiddenBar).
Proof.
  destruct (listeners_never_throw Scenario.session Sample.hiddenBar)
    as [A [W _]].
  - solve_well_formed.
  - unfold Scenario.session. repeat constructor; cbn; lia.
  - split; assumption.
Defined.

(** X3: on a built bar, a transition notifies the visibility listeners
    exactly once when it crosses between HIDDEN and the shown states, and
    not at all otherwise. *)
Theorem visibility_notified_on_crossing :
  forall (value : MenubarState) (s : MenubarPart),
    built s -> focus_in_range s ->
    exists s',
      set_focusState value s = Ok tt s'
      /\ visibility_notifications (trace s')
         = (visibility_notifications (trace s)
            + if xorb (isVisible s) (state_ge value VISIBLE) then 1 else 0)%nat.
Proof.
  intros value s Hb Hr.
  destruct (set_focusState_built value s Hb Hr)
    as [s' [R [_ [_ [_ [_ [_ [_ [V _]]]]]]]]].
  exists s'. split; assumption.
Qed.

Lemma visibility_notified_on_crossing_witness :
  exists s',
    set_focusState FOCUSED Sample.hiddenBar = Ok tt s'
    /\ visibility_notifications (trace s') = 1%nat.
Proof.
  destruct (visibility_notified_on_crossing FOCUSED Sample.hiddenBar)
    as [s' [R V]].
  - split; [eexists; reflexivity | eexists; eexists; reflexivity].
  - exact I.
  - exists s'. split; [exact R | exact V].
Defined.

(** X4: on a built bar, a transition schedules the menu updater exactly
    when it leaves the focused states for HIDDEN or VISIBLE while an update
    is pending, once, and lowers the pending flag; any other transition
    schedules nothing and keeps the flag. *)
Theorem pending_update_scheduled_on_focus_loss :
  forall (value : MenubarState) (s : MenubarPart),
    built s -> focus_in_range s ->
    exists s',
      set_focusState value s = Ok tt s'
      /\ updatePending s'
         = (if isFocused s && state_lt value FOCUSED then false
            else updatePending s)
      /\ updater_schedules (trace s')
         = (updater_schedules (trace s)
            + if isFocused s && state_lt value FOCUSED && updatePending s
              then 1 else 0)%nat.
Proof.
  intros value s Hb Hr.
  destruct (set_focusState_built value s Hb Hr)
    as [s' [R [_ [_ [_ [_ [P [U _]]]]]]]].
  exists s'. repeat split; assumption.
Qed.

Lemma pending_update_scheduled_on_focus_loss_witness :
  exists s',
    set_focusState VISIBLE (with_updatePending true (Sample.openBar 1))
    = Ok tt s'
    /\ updatePending s' = false
    /\ updater_schedules (trace s') = 1%nat.
Proof.
  destruct (pending_update_scheduled_on_focus_loss VISIBLE
              (with_updatePending true (Sample.openBar 1)))
    as [s' [R [P U]]].
  - split; [eexists; reflexivity | eexists; eexists; reflexivity].
  - unfold focus_in_range. cbn. lia.
  - exists s'. repeat split; assumption.
Defined.

(** X5: [setUnfocusedState] on a well-formed part reaches the resting
    state (HIDDEN in toggle mode, VISIBLE otherwise) with no focused menu,
    and running it again changes nothing, so a listener registered twice
    does no harm. *)
Theorem setUnfocusedState_idempotent :
  forall s : MenubarPart,
    well_formed s ->
    exists s',
      setUnfocusedState s = Ok tt s'
      /\ _focusState s' = restingState s
      /\ focusedMenu s' = None
      /\ setUnfocusedState s' = Ok tt s'.
Proof.
  intros s W.
  destruct (setUnfocusedState_run s W) as [s' [R [St [F [Su _]]]]].
  exists s'. repeat split; trivial.
  unfold setUnfocusedState, bind, gets.
  fold (restingState s'). rewrite (restingState_same s s' Su), <- St.
  apply set_focusState_current.
Qed.

Lemma setUnfocusedState_idempotent_witness :
  exists s',
    setUnfocusedState (Sample.openBar 1) = Ok tt s'
    /\ _focusState s' = HIDDEN
    /\ focusedMenu s' = None
    /\ setUnfocusedState s' = Ok tt s'.
Proof.
  apply (setUnfocusedState_idempotent (Sample.openBar 1)).
  solve_well_formed.
Defined.

(** X6: cancelling the dropdown of a well-formed open bar leaves the bar
    FOCUSED on the same button with the dropdown gone. *)
Theorem menu_cancel_keeps_focus :
  forall (s : MenubarPart) (fm : FocusedMenu),
    well_formed s ->
    _focusState s = OPEN ->
    focusedMenu s = Some fm ->
    exists s',
      onMenuCancel s = Ok tt s'
      /\ _focusState s' = FOCUSED
      /\ focusedMenu s'
         = Some {| index := index fm; holder := None; widget := None |}.
Proof.
  intros s fm [Hb Hc] Hst Hfm.
  destruct (set_focusState_well_formed FOCUSED s Hb (or_introl Hc))
    as [s' [R [St [F _]]]].
  exists s'. split; [exact R |]. split; [exact St |].
  rewrite F. unfold focusedMenu_after, isOpen. rewrite Hst, Hfm. reflexivity.
Qed.

Lemma menu_cancel_keeps_focus_witness :
  exists s',
    onMenuCancel (Sample.openBar 2) = Ok tt s'
    /\ _focusState s' = FOCUSED
    /\ focusedMenu s' = Some {| index := Num 2; holder := None; widget := None |}.
Proof.
  apply (menu_cancel_keeps_focus (Sample.openBar 2)
           {| index := Num 2; holder := Some 500%nat; widget := Some 501%nat |});
    [solve_well_formed | reflexivity | reflexivity].
Defined.

(** X7: a click on button i of a well-formed bar, with neither shift nor
    ctrl down on the tracker, closes the bar to its resting state when the
    dropdown of i is open, moves the dropdown to i when another one is
    open, and otherwise opens the dropdown of i. *)
Theorem click_on_button :
  forall (ks : IModifierKeyStatus) (i : Z) (s : MenubarPart),
    well_formed s ->
    0 <= i < button_count s ->
    shiftKey ks || ctrlKey ks = false ->
    exists s',
      onButtonClick ks (Num i) s = Ok tt s'
      /\ if isOpen s && isCurrentMenu (Num i) s then
           _focusState s' = restingState s /\ focusedMenu s' = None
         else
           _focusState s' = OPEN
           /\ focusedMenu s'
              = Some {| index := Num i; holder := Some (nextHandle s);
                        widget := Some (S (nextHandle s)) |}.
Proof.
  intros ks i s W Hi Hk.
  destruct (onButtonClick_well_formed ks i s W Hi) as [s' [R [_ [_ H]]]].
  exists s'. split; [exact R |].
  assert (Hc : match _modifierKeyStatus s with
               | Some TrackerKeyStatus => shiftKey ks || ctrlKey ks
               | None => false
               end = false)
    by (destruct (_modifierKeyStatus s) as [[]|]; [exact Hk | reflexivity]).
  specialize (H Hc).
  destruct (isOpen s), (isCurrentMenu (Num i) s); exact H.
Qed.

Lemma click_on_button_witness :
  exists s',
    onButtonClick ModifierKeyEmitter.initial (Num 0) (Sample.openBar 2)
    = Ok tt s'
    /\ _focusState s' = OPEN
    /\ focusedMenu s'
       = Some {| index := Num 0; holder := Some 1000%nat;
                 widget := Some 1001%nat |}.
Proof.
  destruct (click_on_button ModifierKeyEmitter.initial 0 (Sample.openBar 2))
    as [s' [R H]].
  - solve_well_formed.
  - cbn. lia.
  - reflexivity.
  - exists s'. split; [exact R | exact H].
Defined.

(** X8: the pointer entering button i of a well-formed bar never changes
    the state: while another dropdown is open the dropdown moves to i,
    while the bar is focused without dropdown the focus moves to i, and a
    bar that is not focused is left exactly as it was. *)
Theorem mouse_enter_moves_focus :
  forall (i : Z) (s : MenubarPart),
    well_formed s ->
    0 <= i < button_count s ->
    exists s',
      onButtonMouseEnter (Num i) s = Ok tt s'
      /\ _focusState s' = _focusState s
      /\ (isFocused s = false -> s' = s)
      /\ (isFocused s = true -> isOpen s = false ->
          focusedMenu s'
          = Some {| index := Num i; holder := None; widget := None |})
      /\ (isOpen s = true -> isCurrentMenu (Num i) s = false ->
          focusedMenu s'
          = Some {| index := Num i; holder := Some (nextHandle s);
                    widget := Some (S (nextHandle s)) |})
      /\ (isOpen s = true -> isCurrentMenu (Num i) s = true -> s' = s).
Proof.
  intros i s W Hi.
  destruct (onButtonMouseEnter_well_formed i s W Hi)
    as [s' [R [_ [_ H]]]].
  exists s'. split; assumption.
Qed.

Lemma mouse_enter_moves_focus_witness :
  exists s',
    onButtonMouseEnter (Num 2) (Sample.focusedBar 0) = Ok tt s'
    /\ _focusState s' = FOCUSED
    /\ focusedMenu s' = Some {| index := Num 2; holder := None; widget := None |}.
Proof.
  destruct (mouse_enter_moves_focus 2 (Sample.focusedBar 0))
    as [s' [R [St [_ [F _]]]]].
  - solve_well_formed.
  - cbn. lia.
  - exists s'. split; [exact R |]. split; [exact St |].
    apply F; reflexivity.
Defined.

(** X9: Down-Arrow or Enter released on button i of a well-formed bar
    that is not open opens the dropdown of i and is reported handled; any
    other key, and any key while a dropdown is open, is not handled and
    leaves the part as it was. *)
Theorem key_up_opens_button :
  forall (downArrowOrEnter : bool) (i : Z) (s : MenubarPart),
    well_formed s ->
    0 <= i < button_count s ->
    exists handled s',
      onButtonKeyUp downArrowOrEnter (Num i) s = Ok handled s'
      /\ handled = (downArrowOrEnter && negb (isOpen s))
      /\ (handled = true ->
          _focusState s' = OPEN
          /\ focusedMenu s'
             = Some {| index := Num i; holder := Some (nextHandle s);
                       widget := Some (S (nextHandle s)) |})
      /\ (handled = false -> s' = s).
Proof.
  intros k i s W Hi.
  destruct (onButtonKeyUp_well_formed k i s W Hi)
    as [h [s' [R [_ [_ H]]]]].
  exists h, s'. split; assumption.
Qed.

Lemma key_up_opens_button_witness :
  exists s',
    onButtonKeyUp true (Num 1) Sample.hiddenBar = Ok true s'
    /\ _focusState s' = OPEN
    /\ focusedMenu s'
       = Some {| index := Num 1; holder := Some 1000%nat;
                 widget := Some 1001%nat |}.
Proof.
  destruct (key_up_opens_button true 1 Sample.hiddenBar)
    as [h [s' [R [Hh [Ht _]]]]].
  - solve_well_formed.
  - cbn. lia.
  - cbn in Hh. subst h. exists s'. split; [exact R |]. apply Ht. reflexivity.
Defined.

(** X10: when the window loses focus a well-formed bar goes to its resting
    state and drops its focused menu, whatever state it was in; when the
    window gains focus the part is left as it was. *)
Theorem window_focus_lost_unfocuses :
  forall (hasFocus : bool) (s : MenubarPart),
    well_formed s ->
    exists s',
      onDidChangeWindowFocus hasFocus s = Ok tt s'
      /\ (hasFocus = false ->
          _focusState s' = restingState s /\ focusedMenu s' = None)
      /\ (hasFocus = true -> s' = s).
Proof.
  intros hasFocus s W.
  destruct (onDidChangeWindowFocus_well_formed hasFocus s W)
    as [s' [R [_ [_ H]]]].
  exists s'. split; assumption.
Qed.

Lemma window_focus_lost_unfocuses_witness :
  exists s',
    onDidChangeWindowFocus false (Sample.focusedFive 3) = Ok tt s'
    /\ _focusState s' = VISIBLE
    /\ focusedMenu s' = None.
Proof.
  destruct (window_focus_lost_unfocuses false (Sample.focusedFive 3))
    as [s' [R [H _]]].
  - solve_well_formed.
  - exists s'. split; [exact R | apply H; reflexivity].
Defined.

(** X11: a key on the container that is neither an arrow nor Tab is
    handled only when it is Escape on a focused bar without dropdown; it
    then sends a well-formed bar to its resting state with no focused menu;
    in every other case the part is left as it was. *)
Theorem escape_on_container :
  forall (k : ContainerKey) (s : MenubarPart),
    well_formed s ->
    equalsLeftArrow k || shiftAndTab k = false ->
    equalsRightArrow k || equalsTab k = false ->
    exists handled s',
      onContainerKeyDown k s = Ok handled s'
      /\ handled = (equalsEscape k && isFocused s && negb (isOpen s))
      /\ (handled = true ->
          _focusState s' = restingState s /\ focusedMenu s' = None)
      /\ (handled = false -> s' = s).
Proof.
  intros k s W Hl Hr. unfold onContainerKeyDown. rewrite Hl, Hr.
  unfold bind at 1, gets. unfold bind at 1.
  destruct (equalsEscape k && isFocused s && negb (isOpen s)).
  - destruct (setUnfocusedState_run s W) as [s' [R [St [F _]]]].
    exists true, s'. rewrite (bind_run _ _ _ _ _ R).
    split; [reflexivity |]. split; [reflexivity |].
    split; [intros _; split; assumption | discriminate].
  - exists false, s. split; [reflexivity |]. split; [reflexivity |].
    split; [discriminate | reflexivity].
Qed.

Lemma escape_on_container_witness :
  exists s',
    onContainerKeyDown
      {| equalsLeftArrow := false; shiftAndTab := false;
         equalsRightArrow := false; equalsTab := false; equalsEscape := true |}
      (Sample.focusedBar 1) = Ok true s'
    /\ _focusState s' = HIDDEN
    /\ focusedMenu s' = None.
Proof.
  destruct (escape_on_container
              {| equalsLeftArrow := false; shiftAndTab := false;
                 equalsRightArrow := false; equalsTab := false;
                 equalsEscape := true |} (Sample.focusedBar 1))
    as [h [s' [R [Hh [Ht _]]]]].
  - solve_well_formed.
  - reflexivity.
  - reflexivity.
  - cbn in Hh. subst h. exists s'. split; [exact R | apply Ht; reflexivity].
Defined.

Lemma times_focusNext :
  forall k s fm i,
    well_formed s ->
    focusedMenu s = Some fm ->
    index fm = Num i ->
    exists s' fm',
      times k focusNext s = Ok tt s'
      /\ _focusState s' = _focusState s
      /\ same_surroundings s s'
      /\ well_formed s'
      /\ focusedMenu s' = Some fm'
      /\ index fm' = Num ((i + Z.of_nat k) mod button_count s).
Proof.
  induction k as [|k IH]; intros s fm i W Hfm Hi.
  - exists s, fm. split; [reflexivity |]. split; [reflexivity |].
    split; [apply same_surroundings_refl |]. split; [exact W |].
    split; [exact Hfm |]. rewrite Hi, Z.add_0_r.
    destruct W as [_ Hc]. unfold focus_consistent in Hc. rewrite Hfm, Hi in Hc.
    destruct Hc as [_ [Hr _]]. cbn in Hr. rewrite Z.mod_small by exact Hr.
    reflexivity.
  - cbn [times].
    destruct (focusNext_well_formed s W) as [s1 [R1 [St1 [Su1 [W1 F1]]]]].
    rewrite Hfm in F1. destruct F1 as [fm1 [Hfm1 Hi1]].
    rewrite (bind_run _ _ _ _ _ R1).
    assert (Hpos : 0 < button_count s).
    { destruct W as [_ Hc]. unfold focus_consistent in Hc.
      rewrite Hfm, Hi in Hc. destruct Hc as [_ [Hr _]]. cbn in Hr. lia. }
    assert (Hi1' : index fm1 = Num ((i + 1) mod button_count s)).
    { rewrite Hi1, Hi.
      destruct W as [_ Hc]. unfold focus_consistent in Hc.
      rewrite Hfm, Hi in Hc. destruct Hc as [_ [Hr _]]. cbn in Hr.
      destruct (next_index i _ Hr) as [E _]. exact E. }
    destruct (IH s1 fm1 _ W1 Hfm1 Hi1') as [s' [fm' [R [St [Su [W' [F I']]]]]]].
    exists s', fm'. split; [exact R |]. split; [congruence |].
    split; [apply (same_surroundings_trans s s1 s' Su1 Su) |].
    split; [exact W' |]. split; [exact F |].
    rewrite I', (button_count_same s s1 Su1).
    rewrite Zplus_mod_idemp_l. f_equal. f_equal. lia.
Qed.

(** X12: on a well-formed bar focused on button i of n, k times
    [focusNext] return normally, keep the state and leave the focus on
    button (i + k) mod n; after n of them the focus is back on i. *)
Theorem focusNext_cycles :
  forall (k : nat) (s : MenubarPart) (fm : FocusedMenu) (i : Z),
    well_formed s ->
    focusedMenu s = Some fm ->
    index fm = Num i ->
    (exists s' fm',
        times k focusNext s = Ok tt s'
        /\ _focusState s' = _focusState s
        /\ focusedMenu s' = Some fm'
        /\ index fm' = Num ((i + Z.of_nat k) mod button_count s))
    /\ (exists s' fm',
           times (Z.to_nat (button_count s)) focusNext s = Ok tt s'
           /\ focusedMenu s' = Some fm'
           /\ index fm' = Num i).
Proof.
  intros k s fm i W Hfm Hi.
  assert (Hr : 0 <= i < button_count s).
  { destruct W as [_ Hc]. unfold focus_consistent in Hc.
    rewrite Hfm, Hi in Hc. destruct Hc as [_ [Hr _]]. exact Hr. }
  split.
  - destruct (times_focusNext k s fm i W Hfm Hi)
      as [s' [fm' [R [St [_ [_ [F I']]]]]]].
    exists s', fm'. repeat split; assumption.
  - destruct (times_focusNext (Z.to_nat (button_count s)) s fm i W Hfm Hi)
      as [s' [fm' [R [_ [_ [_ [F I']]]]]]].
    exists s', fm'. split; [exact R |]. split; [exact F |].
    rewrite I', Z2Nat.id by lia.
    replace (i + button_count s) with (i + 1 * button_count s) by lia.
    rewrite Z.mod_add by lia. rewrite Z.mod_small by exact Hr. reflexivity.
Qed.

Lemma focusNext_cycles_witness :
  exists s' fm',
    times 7 focusNext (Sample.focusedFive 2) = Ok tt s'
    /\ focusedMenu s' = Some fm'
    /\ index fm' = Num 4.
Proof.
  destruct (focusNext_cycles 7 (Sample.focusedFive 2)
              {| index := Num 2; holder := None; widget := None |} 2)
    as [[s' [fm' [R [_ [F I']]]]] _].
  - solve_well_formed.
  - reflexivity.
  - reflexivity.
  - exists s', fm'. split; [exact R |]. split; [exact F | exact I'].
Defined.

Lemma is_alt_tap_fields :
  forall status,
    is_alt_tap status = true ->
    altKey status = false /\ ctrlKey status = false /\ shiftKey status = false
    /\ lastKeyPressed status = Some alt /\ lastKeyReleased status = Some alt.
Proof.
  intros [a sh c lp lr]. unfold is_alt_tap. cbn.
  destruct a, sh, c; cbn; try discriminate.
  destruct lp as [[| |]|]; cbn; try discriminate.
  destruct lr as [[| |]|]; cbn; try discriminate.
  repeat split.
Qed.

(** X13: the status fired when Alt is released after being pressed alone
    toggles the keyboard focus of a well-formed bar: a bar that is not
    focused becomes FOCUSED on button 0, a focused bar without dropdown
    goes to its resting state and drops the focus, and an open bar is left
    OPEN on the same menu. *)
Theorem alt_tap_toggles_focus :
  forall (status : IModifierKeyStatus) (s : MenubarPart),
    well_formed s ->
    is_alt_tap status = true ->
    exists s',
      onModifierKeyToggled status s = Ok tt s'
      /\ (isFocused s = false ->
          _focusState s' = FOCUSED
          /\ focusedMenu s'
             = Some {| index := Num 0; holder := None; widget := None |})
      /\ (isFocused s = true -> isOpen s = false ->
          _focusState s' = restingState s /\ focusedMenu s' = None)
      /\ (isOpen s = true ->
          _focusState s' = OPEN /\ focusedMenu s' = focusedMenu s).
Proof.
  intros status s W Htap.
  destruct (is_alt_tap_fields status Htap) as [A [C [S [P R]]]].
  unfold onModifierKeyToggled. rewrite A, C, S, P, R.
  cbn [lastIs ModifierKey_eqb negb andb].
  unfold modify at 1. unfold bind at 1.
  set (s0 := with_modifierKeyStatus (Some TrackerKeyStatus) s).
  assert (Su0 : same_surroundings s s0) by (subst s0; repeat split).
  assert (W0 : well_formed s0)
    by (apply (well_formed_same_fields s s0); trivial; reflexivity).
  (* first part: a hidden bar in toggle mode is shown *)
  assert (H1 : exists s1,
             (vis <- gets currentMenubarVisibility ;;
              when (js_string_is vis "toggle")
                (v <- gets isVisible ;; when (negb v) (set_focusState VISIBLE)))
               s0 = Ok tt s1
             /\ same_surroundings s0 s1 /\ well_formed s1
             /\ isFocused s1 = isFocused s /\ isOpen s1 = isOpen s
             /\ focusedMenu s1 = focusedMenu s).
  { unfold bind, gets, when.
    destruct (js_string_is (currentMenubarVisibility s0) "toggle");
      [destruct (isVisible s0) eqn:Hv; cbn [negb] |].
    - exists s0. split; [reflexivity |].
      split; [apply same_surroundings_refl |]. split; [exact W0 |].
      repeat split.
    - destruct W0 as [Hb0 Hc0].
      destruct (set_focusState_well_formed VISIBLE s0 Hb0 (or_introl Hc0))
        as [s1 [Run [St [F [Su W1]]]]].
      exists s1. split; [exact Run |]. split; [exact Su |]. split; [exact W1 |].
      assert (Hst : _focusState s = HIDDEN).
      { unfold isVisible in Hv. subst s0. cbn in Hv.
        destruct (_focusState s); try discriminate Hv; reflexivity. }
      unfold isFocused, isOpen, isVisible. rewrite St, Hst.
      split; [reflexivity |]. split; [reflexivity |].
      rewrite F. unfold focusedMenu_after, isFocused. subst s0. cbn.
      rewrite Hst. reflexivity.
    - exists s0. split; [reflexivity |].
      split; [apply same_surroundings_refl |]. split; [exact W0 |].
      repeat split. }
  destruct H1 as [s1 [R1 [Su1 [W1 [Hf1 [Ho1 Hfm1]]]]]].
  rewrite (bind_run _ _ _ _ _ R1). unfold when at 1.
  assert (Su01 : same_surroundings s s1)
    by (apply (same_surroundings_trans s s0 s1); assumption).
  (* second part: the tap *)
  assert (H2 : exists s2,
             (f <- gets isFocused ;;
              if negb f then
                modify (with_focusedMenu
                          (Some {| index := Num 0; holder := None;
                                   widget := None |})) ;;
                set_focusState FOCUSED
              else
                o <- gets isOpen ;; when (negb o) setUnfocusedState) s1
             = Ok tt s2
             /\ same_surroundings s1 s2
             /\ (isFocused s = false ->
                 _focusState s2 = FOCUSED
                 /\ focusedMenu s2
                    = Some {| index := Num 0; holder := None; widget := None |})
             /\ (isFocused s = true -> isOpen s = false ->
                 _focusState s2 = restingState s /\ focusedMenu s2 = None)
             /\ (isOpen s = true ->
                 _focusState s2 = OPEN /\ focusedMenu s2 = focusedMenu s)).
  { unfold bind at 1, gets at 1. rewrite Hf1.
    destruct (isFocused s) eqn:Hf; cbn [negb].
    - unfold bind, gets, when. rewrite Ho1.
      destruct (isOpen s) eqn:Ho; cbn [negb].
      + exists s1. split; [reflexivity |].
        split; [apply same_surroundings_refl |].
        split; [discriminate |]. split; [discriminate |].
        intros _. split; [| exact Hfm1].
        unfold isOpen in Ho1.
        destruct (_focusState s1); try discriminate Ho1; reflexivity.
      + destruct (setUnfocusedState_run s1 W1) as [s2 [Run [St [F [Su _]]]]].
        exists s2. split; [exact Run |]. split; [exact Su |].
        split; [discriminate |].
        split; [| discriminate].
        intros _ _. rewrite St, (restingState_same s s1 Su01).
        split; [reflexivity | exact F].
    - pose proof W1 as [Hb1 _].
      assert (H0 : 0 <= 0 < button_count s1).
      { destruct Hb1 as [_ [m [ms Hm]]]. unfold button_count. rewrite Hm.
        cbn [length]. lia. }
      destruct (focus_button_then_set FOCUSED s1 0 Hb1 H0 eq_refl)
        as [s2 [Run [St [F [Su _]]]]].
      exists s2. unfold modify. unfold bind at 1.
      split; [exact Run |]. split; [exact Su |].
      split; [| split; [discriminate |]].
      + intros _. split; [exact St |]. rewrite F.
        unfold focusedMenu_after, isFocused, isOpen in *. cbn.
        destruct (_focusState s1); try discriminate Hf1; reflexivity.
      + intros Ho. unfold isFocused, isOpen in *.
        destruct (_focusState s); discriminate. }
  destruct H2 as [s2 [R2 [Su2 [Ha [Hb Hc]]]]].
  rewrite (bind_run _ _ _ _ _ R2).
  (* third part: decorations *)
  unfold bind, gets.
  destruct (customMenus s2) as [ms|];
    [| exists s2; split; [reflexivity |]; repeat split;
       try (apply Ha; assumption); try (apply Hb; assumption);
       apply Hc; assumption].
  unfold when. destruct (currentEnableMenuBarMnemonics s2).
  - rewrite decorateTitles_run. eexists. split; [reflexivity |].
    cbn [_focusState focusedMenu with_trace].
    repeat split;
      try (apply Ha; assumption); try (apply Hb; assumption);
      apply Hc; assumption.
  - exists s2. split; [reflexivity |]. repeat split;
      try (apply Ha; assumption); try (apply Hb; assumption);
      apply Hc; assumption.
Qed.

Lemma alt_tap_toggles_focus_witness :
  exists s',
    onModifierKeyToggled Sample.afterAltTap (Sample.focusedBar 1) = Ok tt s'
    /\ _focusState s' = HIDDEN
    /\ focusedMenu s' = None.
Proof.
  destruct (alt_tap_toggles_focus Sample.afterAltTap (Sample.focusedBar 1))
    as [s' [R [_ [H _]]]].
  - solve_well_formed.
  - reflexivity.
  - exists s'. split; [exact R | apply H; reflexivity].
Defined.

(** A status that is neither a tap nor able to toggle the visibility runs
    the decorations only. *)
Lemma modifier_event_without_effect :
  forall status s,
    (js_string_is (currentMenubarVisibility s) "toggle" = false
     /\ is_alt_tap status = false)
    \/ (lastKeyPressed status <> Some alt /\ all_released status = true) ->
    onModifierKeyToggled status s
    = Ok tt (with_trace (trace s ++ titleDecorations s status)
               (with_modifierKeyStatus (Some TrackerKeyStatus) s)).
Proof.
  intros status s H.
  assert (Hfinish :
            forall s0 : MenubarPart,
              s0 = with_modifierKeyStatus (Some TrackerKeyStatus) s ->
              (mn <- gets currentEnableMenuBarMnemonics ;;
               menus <- gets customMenus ;;
               match menus with
               | Some ms => when mn (decorateTitles ms (altKey status))
               | None => ret tt
               end) s0
              = Ok tt (with_trace (trace s ++ titleDecorations s status) s0)).
  { intros s0 ->. unfold bind, gets, when, ret, titleDecorations.
    change (customMenus (with_modifierKeyStatus (Some TrackerKeyStatus) s))
      with (customMenus s).
    change (currentEnableMenuBarMnemonics
              (with_modifierKeyStatus (Some TrackerKeyStatus) s))
      with (currentEnableMenuBarMnemonics s).
    destruct (customMenus s) as [ms|].
    - destruct (currentEnableMenuBarMnemonics s).
      + rewrite decorateTitles_run. reflexivity.
      + exact (eq_sym (f_equal (Ok tt) (with_trace_same _))).
    - exact (eq_sym (f_equal (Ok tt) (with_trace_same _))). }
  unfold onModifierKeyToggled.
  unfold modify at 1. unfold bind at 1.
  set (s0 := with_modifierKeyStatus (Some TrackerKeyStatus) s) in *.
  assert (Hvis : currentMenubarVisibility s0 = currentMenubarVisibility s)
    by reflexivity.
  destruct H as [[Ht Htap] | [Hk Hrel]].
  - unfold bind at 1. unfold bind at 1, gets at 1. rewrite Hvis, Ht.
    unfold when at 1. unfold ret at 1. unfold bind at 1.
    change (negb (altKey status) && negb (ctrlKey status)
            && negb (shiftKey status)
            && lastIs (lastKeyPressed status) alt
            && lastIs (lastKeyReleased status) alt)
      with (is_alt_tap status).
    rewrite Htap. unfold when at 1. unfold ret at 1.
    apply Hfinish. reflexivity.
  - assert (Hl : lastIs (lastKeyPressed status) alt = false).
    { destruct (lastIs (lastKeyPressed status) alt) eqn:E; [| reflexivity].
      apply lastIs_alt in E. contradiction. }
    unfold all_released in Hrel. rewrite Hl, Hrel.
    cbn [andb negb].
    assert (H1 : (vis <- gets currentMenubarVisibility ;;
                  when (js_string_is vis "toggle")
                    (gets isFocused ;; when false (set_focusState HIDDEN))) s0
                 = Ok tt s0).
    { unfold bind, gets, when. destruct (js_string_is _ _); reflexivity. }
    rewrite (bind_run _ _ _ _ _ H1).
    unfold when at 1. unfold ret at 1. unfold bind at 1.
    apply Hfinish. reflexivity.
Qed.

(** X14: a modifier status leaves the state and the focused menu alone,
    and only decorates the titles, when the bar is not in toggle mode and
    the status is not an Alt tap, and also, in any mode, when every
    modifier is up and the last key pressed was not Alt. *)
Theorem modifier_event_ignored :
  forall (status : IModifierKeyStatus) (s : MenubarPart),
    (js_string_is (currentMenubarVisibility s) "toggle" = false
     /\ is_alt_tap status = false)
    \/ (lastKeyPressed status <> Some alt /\ all_released status = true) ->
    exists s',
      onModifierKeyToggled status s = Ok tt s'
      /\ _focusState s' = _focusState s
      /\ focusedMenu s' = focusedMenu s
      /\ trace s' = trace s ++ titleDecorations s status.
Proof.
  intros status s H. rewrite (modifier_event_without_effect status s H).
  eexists. split; [reflexivity |]. repeat split.
Qed.

Lemma modifier_event_ignored_witness :
  exists s',
    onModifierKeyToggled Sample.ctrlHeld (Sample.focusedFive 1) = Ok tt s'
    /\ _focusState s' = FOCUSED.
Proof.
  destruct (modifier_event_ignored Sample.ctrlHeld (Sample.focusedFive 1))
    as [s' [R [St _]]].
  - left. split; reflexivity.
  - exists s'. split; [exact R | exact St].
Defined.



(** X16: leaving the focused states of a built bar for HIDDEN or VISIBLE
    gives the DOM focus back to the element remembered in [focusToReturn],
    as the last effect of the transition, forgets that element and drops
    the focused menu. *)
Theorem focus_returned_when_unfocused :
  forall (value : MenubarState) (s : MenubarPart) (r : Builder),
    built s -> focus_in_range s ->
    isFocused s = true ->
    state_lt value FOCUSED = true ->
    focusToReturn s = Some r ->
    exists s' before,
      set_focusState value s = Ok tt s'
      /\ trace s' = before ++ [DomFocus r]
      /\ focusToReturn s' = None
      /\ focusedMenu s' = None.
Proof.
  intros value s r [[c Hc] [m [ms Hm]]] Hf Hfoc Hv Hr.
  destruct (js_index_last m ms) as [l Hl].
  destruct s as [st fm cm up fr ct ro mk cfg nh tr].
  cbn in Hc, Hm, Hr. subst ct cm fr.
  unfold focus_in_range, button_count in Hf. cbn in Hf.
  unfold isFocused in Hfoc. cbn in Hfoc.
  destruct fm as [[i h w]|].
  - cbn in Hf. destruct i as [i|]; [| contradiction].
    destruct (js_index_in_range (m :: ms) i Hf) as [b Hb].
    destruct value; try discriminate Hv;
      destruct st; try discriminate Hfoc;
      unfold_machine; destruct up, h, w; run_machine;
      (eexists; eexists; split; [reflexivity |]);
      cbn; repeat split.
  - destruct value; try discriminate Hv;
      destruct st; try discriminate Hfoc;
      unfold_machine; destruct up; run_machine;
      (eexists; eexists; split; [reflexivity |]);
      cbn; repeat split.
Qed.

Lemma focus_returned_when_unfocused_witness :
  exists s' before,
    set_focusState VISIBLE
      (with_focusToReturn (Some 77%nat) (Sample.focusedBar 1)) = Ok tt s'
    /\ trace s' = before ++ [DomFocus 77%nat]
    /\ focusToReturn s' = None.
Proof.
  destruct (focus_returned_when_unfocused VISIBLE
              (with_focusToReturn (Some 77%nat) (Sample.focusedBar 1)) 77%nat)
    as [s' [before [R [T [F _]]]]].
  - split; [eexists; reflexivity | eexists; eexists; reflexivity].
  - unfold focus_in_range. cbn. lia.
  - reflexivity.
  - reflexivity.
  - reflexivity.
  - exists s', before. repeat split; assumption.
Defined.

(** X17: before the buttons exist ([customMenus] undefined) an Alt tap on
    a part that is not focused throws a [TypeError] after it has set the
    focused menu to button 0, so the part is left with a focused menu
    although its state is below FOCUSED. *)
Theorem alt_tap_before_build_throws :
  forall (status : IModifierKeyStatus) (s : MenubarPart) (c : Builder),
    customMenus s = None ->
    container s = Some c ->
    isFocused s = false ->
    is_alt_tap status = true ->
    exists s',
      onModifierKeyToggled status s = Throw TypeError s'
      /\ focusedMenu s'
         = Some {| index := Num 0; holder := None; widget := None |}
      /\ isFocused s' = false.
Proof.
  intros status s c Hm Hc Hf Htap.
  destruct (is_alt_tap_fields status Htap) as [A [C [S [P R]]]].
  destruct s as [st fm cm up fr ct ro mk cfg nh tr].
  cbn in Hm, Hc. subst cm ct. unfold isFocused in Hf. cbn in Hf.
  unfold_machine. rewrite A, C, S, P, R.
  destruct (js_string_is (cfg "window.menuBarVisibility") "toggle") eqn:Ht;
    destruct st; try discriminate Hf; destruct up;
    cbn; rewrite ?Ht; cbn;
    (eexists; split; [reflexivity |]); split; reflexivity.
Qed.

Lemma alt_tap_before_build_throws_witness :
  exists s',
    onModifierKeyToggled Sample.afterAltTap
      {| _focusState := HIDDEN; focusedMenu := None; customMenus := None;
         updatePending := false; focusToReturn := None;
         container := Some 0%nat; recentlyOpened := None;
         _modifierKeyStatus := None;
         configuration := Sample.toggleConfiguration;
         nextHandle := 0%nat; trace := [] |}
    = Throw TypeError s'
    /\ focusedMenu s' = Some {| index := Num 0; holder := None; widget := None |}.
Proof.
  destruct (alt_tap_before_build_throws Sample.afterAltTap
              {| _focusState := HIDDEN; focusedMenu := None; customMenus := None;
                 updatePending := false; focusToReturn := None;
                 container := Some 0%nat; recentlyOpened := None;
                 _modifierKeyStatus := None;
                 configuration := Sample.toggleConfiguration;
                 nextHandle := 0%nat; trace := [] |} 0%nat
              eq_refl eq_refl eq_refl eq_refl)
    as [s' [R [F _]]].
  exists s'. split; [exact R | exact F].
Defined.

(** ** Modifier key tracker, key-up side *)

(** X18: on a key-up in which some tracked modifier goes from pressed to
    not pressed, the tracker records such a modifier as [lastKeyReleased]
    and leaves [lastKeyPressed] as it was; it fires if and only if
    [lastKeyReleased] was set by that call; a key-up in which no modifier
    is released clears [lastKeyReleased] and fires nothing. *)
Theorem keyup_records_released_modifier :
  forall (e : KeyboardEvent) (ks : IModifierKeyStatus),
    let ks' := fst (keyup e ks) in
    (forall m, newly_released m e ks = true ->
       exists m',
         lastKeyReleased ks' = Some m' /\ newly_released m' e ks = true)
    /\ lastKeyPressed ks' = lastKeyPressed ks
    /\ (snd (keyup e ks) <> None <-> lastKeyReleased ks' <> None)
    /\ ((forall m, newly_released m e ks = false) ->
        snd (keyup e ks) = None /\ lastKeyReleased ks' = None).
Proof.
  intros [ea ec es] [a sh c lp lr]. unfold keyup, newly_released. cbn.
  split; [| split; [| split]].
  - intros m Hm.
    destruct ea, ec, es, a, sh, c; cbn in *;
      try (exists alt; split; reflexivity);
      try (exists ctrl; split; reflexivity);
      try (exists shift; split; reflexivity);
      destruct m; discriminate Hm.
  - destruct ea, ec, es, a, sh, c; reflexivity.
  - destruct ea, ec, es, a, sh, c; cbn; split; intros H; try discriminate;
      try (exfalso; apply H; reflexivity).
  - intros H.
    pose proof (H alt) as Ha. pose proof (H ctrl) as Hc.
    pose proof (H shift) as Hs. cbn in Ha, Hc, Hs.
    rewrite Ha, Hc, Hs. cbn. split; reflexivity.
Qed.

Lemma keyup_records_released_modifier_witness :
  exists m',
    lastKeyReleased (fst (keyup (mods false false false) Sample.ctrlHeld))
    = Some m'
    /\ newly_released m' (mods false false false) Sample.ctrlHeld = true.
Proof.
  destruct (keyup_records_released_modifier (mods false false false)
              Sample.ctrlHeld) as [H _].
  apply (H ctrl). reflexivity.
Defined.

(** X19: whatever the tracker held before, as long as Alt was up, Alt
    going down alone and coming up again fires twice, and the second
    status is the Alt tap the menubar reacts to. *)
Theorem alt_down_up_fires_tap :
  forall ks : IModifierKeyStatus,
    altKey ks = false ->
    let down := keydown (mods true false false) ks in
    let up := keyup (mods false false false) (fst down) in
    snd down = Some (fst down)
    /\ lastKeyPressed (fst down) = Some alt
    /\ snd up = Some (fst up)
    /\ is_alt_tap (fst up) = true.
Proof.
  intros [a sh c lp lr] Ha. cbn in Ha. subst a. cbn. repeat split.
Qed.

Lemma alt_down_up_fires_tap_witness :
  is_alt_tap
    (fst (keyup (mods false false false)
            (fst (keydown (mods true false false) Sample.ctrlHeld)))) = true.
Proof.
  apply (alt_down_up_fires_tap Sample.ctrlHeld). reflexivity.
Defined.

(** ** Labels and snapshots *)

Open Scope nat_scope.






(** X21: a menu for which the registry has no group is built as the empty
    list, on the custom and on the native path: the final [pop] on an empty
    array removes nothing and nothing throws. *)
Theorem empty_menu_builds_empty_list :
  forall (env : Services) (s : MenubarPart) (menu : MenuId) (fuel : nat),
    getActions env menu = [] ->
    updateActions env (S fuel) s menu = Some []
    /\ menubarMenuItems env s menu = [].
Proof.
  intros env s menu fuel H. unfold menubarMenuItems. cbn [updateActions].
  rewrite H. split; reflexivity.
Qed.

Lemma empty_menu_builds_empty_list_witness :
  updateActions Sample.services 1 (Sample.withRecent None) MenubarHelpMenu
  = Some [].
Proof.
  apply (empty_menu_builds_empty_list Sample.services (Sample.withRecent None)
           MenubarHelpMenu 0).
  reflexivity.
Defined.

Section Nesting.

Context (env : Services) (s : MenubarPart).

Lemma pushActions_stuck :
  forall (submenuOf : MenuId -> option (list IAction)) a submenu group target,
    submenuOf submenu = None ->
    In (SubmenuItemAction a submenu) group ->
    pushActions env s submenuOf group target = None.
Proof.
  intros submenuOf a submenu group. induction group as [|r rest IH];
    intros target Hnone Hin; [contradiction |].
  cbn [pushActions]. destruct Hin as [-> | Hin].
  - rewrite Hnone. reflexivity.
  - destruct r as [b | b sub'].
    + apply IH; assumption.
    + destruct (submenuOf sub'); [apply IH; assumption | reflexivity].
Qed.

Lemma pushGroups_stuck :
  forall (submenuOf : MenuId -> option (list IAction)) a submenu gid group
         groups target,
    submenuOf submenu = None ->
    In (gid, group) groups ->
    In (SubmenuItemAction a submenu) group ->
    pushGroups env s submenuOf groups target = None.
Proof.
  intros submenuOf a submenu gid group groups.
  induction groups as [|[gid' group'] rest IH]; intros target Hnone Hg Hin;
    [contradiction |].
  cbn [pushGroups]. destruct Hg as [E | Hg].
  - injection E as -> ->.
    rewrite (pushActions_stuck submenuOf a submenu group target Hnone Hin).
    reflexivity.
  - destruct (pushActions env s submenuOf group' target);
      [apply IH; assumption | reflexivity].
Qed.

End Nesting.

(** X22: a menu that holds itself as a submenu is never built: whatever
    the fuel, [updateActions] does not return (the source recurses without
    end). *)
Theorem self_nested_menu_never_built :
  forall (env : Services) (s : MenubarPart) (menu : MenuId)
         (gid : string) (group : list RegistryAction) (a : ActionData),
    In (gid, group) (getActions env menu) ->
    In (SubmenuItemAction a menu) group ->
    forall fuel, updateActions env fuel s menu = None.
Proof.
  intros env s menu gid group a Hg Hin.
  induction fuel as [|fuel IH]; [reflexivity |].
  cbn [updateActions].
  rewrite (pushGroups_stuck env s _ a menu gid group _ [] IH Hg Hin).
  reflexivity.
Qed.

Lemma self_nested_menu_never_built_witness :
  updateActions Scenario.loopingServices 50 (Sample.withRecent None)
    MenubarFileMenu = None.
Proof.
  apply (self_nested_menu_never_built Scenario.loopingServices
           (Sample.withRecent None) MenubarFileMenu "1"
           [MenuItemAction Scenario.saveAs;
            SubmenuItemAction Scenario.saveAs MenubarFileMenu]
           Scenario.saveAs).
  - left. reflexivity.
  - right. left. reflexivity.
Defined.

Section Entries.

Context (env : Services) (s : MenubarPart).

Lemma recent_entries_not_registry :
  filter is_registry_entry (getOpenRecentActions env s) = [].
Proof.
  destruct (recentlyOpened s) as [ro|] eqn:H.
  - rewrite (getOpenRecentActions_loaded env s ro H).
    rewrite !filter_app.
    assert (Hw : forall l, filter is_registry_entry (map (workspaceEntry env) l) = []).
    { induction l as [|[p | i c] l IH]; [reflexivity | exact IH | exact IH]. }
    assert (Hf : forall l, filter is_registry_entry (map (fileEntry env) l) = []).
    { induction l as [|f l IH]; [reflexivity | exact IH]. }
    rewrite Hw, Hf.
    destruct (0 <? length (workspaces ro)), (0 <? length (files ro)); reflexivity.
  - unfold getOpenRecentActions. rewrite H. reflexivity.
Qed.

Lemma pushActions_entries :
  forall submenuOf group target result,
    pushActions env s submenuOf group target = Some result ->
    exists body,
      result = target ++ body
      /\ Forall2 (entry_matches env s submenuOf) group
           (filter is_registry_entry body).
Proof.
  intros submenuOf. induction group as [|r rest IH]; intros target result H.
  - cbn in H. injection H as <-. exists []. rewrite app_nil_r.
    split; [reflexivity | constructor].
  - cbn [pushActions] in H.
    assert (Hins : exists inject,
               insertActionsBefore env s r target = target ++ inject
               /\ filter is_registry_entry inject = []).
    { unfold insertActionsBefore. destruct (String.eqb _ _).
      - exists (getOpenRecentActions env s).
        split; [reflexivity | apply recent_entries_not_registry].
      - exists []. rewrite app_nil_r. split; reflexivity. }
    destruct Hins as [inject [Hi Hf]]. rewrite Hi in H.
    destruct r as [a | a sub].
    + destruct (IH _ _ H) as [body [-> HF]].
      eexists (inject ++ [_] ++ body).
      split; [rewrite <- !app_assoc; reflexivity |].
      rewrite !filter_app, Hf. cbn. constructor; [reflexivity | exact HF].
    + destruct (submenuOf sub) as [l|] eqn:E; [| discriminate].
      destruct (IH _ _ H) as [body [-> HF]].
      eexists (inject ++ [_] ++ body).
      split; [rewrite <- !app_assoc; reflexivity |].
      rewrite !filter_app, Hf. cbn. constructor; [| exact HF].
      exists l. split; [exact E | reflexivity].
Qed.

Lemma pushGroups_entries :
  forall submenuOf groups target result,
    pushGroups env s submenuOf groups target = Some result ->
    exists body,
      result = target ++ body
      /\ (groups <> [] -> exists front, body = front ++ [Separator])
      /\ (groups = [] -> body = [])
      /\ Forall2 (entry_matches env s submenuOf) (flat_map snd groups)
           (filter is_registry_entry body).
Proof.
  intros submenuOf. induction groups as [|[gid group] rest IH];
    intros target result H.
  - cbn in H. injection H as <-. exists []. rewrite app_nil_r.
    split; [reflexivity |]. split; [congruence |].
    split; [reflexivity | constructor].
  - cbn [pushGroups] in H.
    destruct (pushActions env s submenuOf group target) as [t|] eqn:E;
      [| discriminate].
    destruct (pushActions_entries _ _ _ _ E) as [b1 [-> F1]].
    destruct (IH _ _ H) as [b2 [-> [Hlast [Hnil F2]]]].
    exists (b1 ++ [Separator] ++ b2).
    split; [rewrite <- !app_assoc; reflexivity |].
    split; [| split; [discriminate |]].
    + intros _. destruct rest as [|g rest'].
      * rewrite (Hnil eq_refl). exists b1. rewrite app_nil_r. reflexivity.
      * destruct (Hlast ltac:(discriminate)) as [front ->].
        exists (b1 ++ [Separator] ++ front).
        rewrite <- !app_assoc. reflexivity.
    + cbn [flat_map snd]. rewrite !filter_app. cbn [filter is_registry_entry app].
      apply Forall2_app; assumption.
Qed.

End Entries.

(** X23: whenever [updateActions] returns, the entries of the list that
    are neither separators nor recent entries stand one to one, in registry
    order, for the actions of the groups: an item action gives its action
    with the computed label and checked flag, a submenu action gives a
    submenu entry with the built list of its submenu, even an empty one. *)
Theorem built_entries_follow_registry :
  forall (env : Services) (s : MenubarPart) (fuel : nat) (menu : MenuId)
         (target : list IAction),
    updateActions env (S fuel) s menu = Some target ->
    Forall2 (entry_matches env s (updateActions env fuel s))
      (flat_map snd (getActions env menu))
      (filter is_registry_entry target).
Proof.
  intros env s fuel menu target H. cbn [updateActions] in H.
  destruct (pushGroups env s (updateActions env fuel s) (getActions env menu) [])
    as [t|] eqn:E; [| discriminate].
  injection H as <-.
  destruct (pushGroups_entries env s _ _ _ _ E) as [body [-> [Hlast [Hnil F]]]].
  cbn [app] in *.
  destruct (getActions env menu) as [|g gs] eqn:Hg.
  - rewrite (Hnil eq_refl) in *. exact F.
  - destruct (Hlast ltac:(discriminate)) as [front ->].
    rewrite removelast_last. rewrite filter_app in F. cbn in F.
    rewrite app_nil_r in F. exact F.
Qed.

Lemma built_entries_follow_registry_witness :
  exists target,
    updateActions Sample.services 2 (Sample.withRecent (Some Sample.oneRecent))
      MenubarFileMenu = Some target
    /\ Forall2
         (entry_matches Sample.services
            (Sample.withRecent (Some Sample.oneRecent))
            (updateActions Sample.services 1
               (Sample.withRecent (Some Sample.oneRecent))))
         (flat_map snd (Sample.registry MenubarFileMenu))
         (filter is_registry_entry target).
Proof.
  eexists. split; [vm_compute; reflexivity |].
  apply (built_entries_follow_registry Sample.services
           (Sample.withRecent (Some Sample.oneRecent)) 1 MenubarFileMenu).
  vm_compute. reflexivity.
Defined.

(** ** Building and rebuilding the buttons *)

Section SameSettings.

Context (env : Services) (s s' : MenubarPart).
Hypothesis Hcfg : configuration s' = configuration s.
Hypothesis Hrecent : recentlyOpened s' = recentlyOpened s.

Lemma calculateActionLabel_same_settings :
  forall a, calculateActionLabel env s' a = calculateActionLabel env s a.
Proof.
  intros a.
  unfold calculateActionLabel, currentMultiCursorSetting, currentSidebarPosition,
    currentStatusBarVisibility, currentActivityBarVisibility,
    currentEnableMenuBarMnemonics.
  rewrite Hcfg. reflexivity.
Qed.

Lemma setCheckedStatus_same_settings :
  forall a, setCheckedStatus s' a = setCheckedStatus s a.
Proof.
  intros a. unfold setCheckedStatus, currentAutoSaveSetting.
  rewrite Hcfg. reflexivity.
Qed.

Lemma insertActionsBefore_same_settings :
  forall r target,
    insertActionsBefore env s' r target = insertActionsBefore env s r target.
Proof.
  intros r target. unfold insertActionsBefore, getOpenRecentActions.
  rewrite Hrecent. reflexivity.
Qed.

Lemma pushActions_same_settings :
  forall f f' group target,
    (forall m, f' m = f m) ->
    pushActions env s' f' group target = pushActions env s f group target.
Proof.
  intros f f' group target Hf. revert target.
  induction group as [|[a | a sub] rest IH]; intros target;
    cbn [pushActions]; [reflexivity | |].
  - rewrite insertActionsBefore_same_settings, calculateActionLabel_same_settings,
      setCheckedStatus_same_settings. apply IH.
  - rewrite insertActionsBefore_same_settings, Hf.
    destruct (f sub); [apply IH | reflexivity].
Qed.

Lemma pushGroups_same_settings :
  forall f f' groups target,
    (forall m, f' m = f m) ->
    pushGroups env s' f' groups target = pushGroups env s f groups target.
Proof.
  intros f f' groups target Hf. revert target.
  induction groups as [|[gid group] rest IH]; intros target;
    cbn [pushGroups]; [reflexivity |].
  rewrite (pushActions_same_settings f f' group target Hf).
  destruct (pushActions env s f group target); [apply IH | reflexivity].
Qed.

(** [updateActions] reads the configuration and the recently opened list
    of the part, nothing else. *)
Lemma updateActions_same_settings :
  forall fuel menu,
    updateActions env fuel s' menu = updateActions env fuel s menu.
Proof.
  induction fuel as [|fuel IH]; intros menu; [reflexivity |].
  cbn [updateActions].
  rewrite (pushGroups_same_settings (updateActions env fuel s)
             (updateActions env fuel s') _ _ IH).
  reflexivity.
Qed.

End SameSettings.

Lemma js_index_middle :
  forall {A} (pre : list A) (b : A) (rest : list A),
    js_index (pre ++ b :: rest) (Num (Z.of_nat (length pre))) = Some b.
Proof.
  intros A pre b rest. unfold js_index.
  destruct (Z.of_nat (length pre) <? 0)%Z eqn:E;
    [apply Z.ltb_lt in E; lia |].
  rewrite Nat2Z.id, nth_error_app2 by lia.
  rewrite Nat.sub_diag. reflexivity.
Qed.

Lemma set_actions_middle :
  forall pre b rest v,
    set_actions (length pre) v (pre ++ b :: rest)
    = pre ++ {| title := title b; buttonElement := buttonElement b;
                titleElement := titleElement b; actions := v |} :: rest.
Proof.
  induction pre as [|p pre IH]; intros b rest v; [reflexivity |].
  cbn [length app set_actions]. rewrite IH. reflexivity.
Qed.

Lemma with_customMenus_twice :
  forall a b s,
    with_customMenus a (with_customMenus b s) = with_customMenus a s.
Proof. intros a b []. reflexivity. Qed.

(** The rounds of a rebuild. *)
Lemma setupMenus_rebuild :
  forall env fuel s0 menus pre buttons s,
    configuration s = configuration s0 ->
    recentlyOpened s = recentlyOpened s0 ->
    customMenus s = Some (pre ++ buttons) ->
    length menus <= length buttons ->
    buildable env fuel s0 menus = true ->
    setupMenus env fuel false menus (length pre) s
    = Some (Ok tt (with_customMenus
                     (Some (pre ++ refreshed env fuel s0 menus buttons)) s)).
Proof.
  intros env fuel s0. induction menus as [|[name menu] menus IH];
    intros pre buttons s Hc Hr Hm Hlen Hb.
  - cbn. rewrite <- Hm. destruct s; reflexivity.
  - destruct buttons as [|b buttons]; [cbn in Hlen; lia |].
    cbn [buildable forallb fst snd] in Hb. apply andb_prop in Hb.
    destruct Hb as [Hone Hb].
    destruct (topLevelTitles env name) as [t|] eqn:Ht; [| discriminate].
    destruct (updateActions env fuel s0 menu) as [target|] eqn:Hu;
      [| discriminate].
    cbn [setupMenus]. unfold setupMenu, prepareButton.
    unfold when, customMenuAt, bind, gets, deref, ret.
    rewrite Ht, Hm. cbn -[js_index updateActions]. rewrite js_index_middle.
    rewrite (updateActions_same_settings env s0 s Hc Hr), Hu, Hm.
    cbn [option_map]. rewrite set_actions_middle.
    set (b' := {| title := title b; buttonElement := buttonElement b;
                  titleElement := titleElement b; actions := Some target |}).
    replace (pre ++ b' :: buttons) with ((pre ++ [b']) ++ buttons)
      by (rewrite <- app_assoc; reflexivity).
    replace (S (length pre)) with (length (pre ++ [b']))
      by (rewrite length_app; cbn; lia).
    rewrite (IH (pre ++ [b']) buttons); trivial.
    + rewrite with_customMenus_twice, <- app_assoc. reflexivity.
    + cbn in Hlen. lia.
Qed.

(** The rounds of the first setup. *)
Lemma setupMenus_first :
  forall env fuel s0 menus pre s,
    configuration s = configuration s0 ->
    recentlyOpened s = recentlyOpened s0 ->
    customMenus s = Some pre ->
    buildable env fuel s0 menus = true ->
    setupMenus env fuel true menus (length pre) s
    = Some (Ok tt (with_customMenus
                     (Some (pre ++ created env fuel s0 menus (nextHandle s)))
                     (with_nextHandle (nextHandle s + 2 * length menus) s))).
Proof.
  intros env fuel s0. induction menus as [|[name menu] menus IH];
    intros pre s Hc Hr Hm Hb.
  - cbn. rewrite app_nil_r, <- Hm, Nat.add_0_r. destruct s; reflexivity.
  - cbn [buildable forallb fst snd] in Hb. apply andb_prop in Hb.
    destruct Hb as [Hone Hb].
    destruct (topLevelTitles env name) as [t|] eqn:Ht; [| discriminate].
    destruct (updateActions env fuel s0 menu) as [target|] eqn:Hu;
      [| discriminate].
    destruct s as [fs fm cm up fr ct ro ks cfg nh tr].
    cbn in Hc, Hr, Hm. subst cm.
    cbn [setupMenus]. unfold setupMenu, prepareButton.
    unfold when, fresh, customMenuAt, bind, gets, modify, deref, ret.
    rewrite Ht. cbn -[js_index updateActions]. rewrite js_index_middle.
    rewrite Hu.
    match goal with
    | |- context [updateActions env fuel ?st menu] =>
        rewrite (updateActions_same_settings env s0 st Hc Hr fuel menu), Hu
    end.
    cbn [option_map customMenus with_customMenus with_nextHandle].
    rewrite set_actions_middle. cbn [title buttonElement titleElement].
    set (b'' := {| title := name; buttonElement := nh;
                   titleElement := S nh; actions := Some target |}).
    replace (S (length pre)) with (length (pre ++ [b'']))
      by (rewrite length_app; cbn; lia).
    rewrite (IH (pre ++ [b'']) _); trivial.
    cbn. rewrite <- app_assoc. cbn [app].
    replace (S (S (nh + (length menus + (length menus + 0)))))
      with (nh + S (length menus + S (length menus + 0))) by lia.
    reflexivity.
Qed.

Lemma created_titles :
  forall env fuel s menus h,
    map title (created env fuel s menus h) = map fst menus.
Proof.
  intros env fuel s. induction menus as [|[name menu] menus IH]; intros h;
    [reflexivity |].
  cbn. rewrite IH. reflexivity.
Qed.

Lemma created_actions :
  forall env fuel s menus h,
    map actions (created env fuel s menus h) = builtActions env fuel s menus.
Proof.
  intros env fuel s. induction menus as [|[name menu] menus IH]; intros h;
    [reflexivity |].
  cbn. rewrite IH. reflexivity.
Qed.

Lemma created_handles :
  forall env fuel s menus h,
    handles (created env fuel s menus h) = seq h (2 * length menus).
Proof.
  intros env fuel s. induction menus as [|[name menu] menus IH]; intros h;
    [reflexivity |].
  cbn [created handles flat_map app length buttonElement titleElement].
  fold (handles (created env fuel s menus (S (S h)))). rewrite IH.
  replace (2 * S (length menus)) with (S (S (2 * length menus))) by lia.
  reflexivity.
Qed.


Lemma refreshed_elements :
  forall env fuel s menus buttons,
    button_elements (refreshed env fuel s menus buttons)
    = button_elements buttons.
Proof.
  intros env fuel s. induction menus as [|[name menu] menus IH];
    intros [|b buttons]; try reflexivity.
  cbn [refreshed button_elements map title buttonElement titleElement].
  f_equal. apply IH.
Qed.

Lemma refreshed_actions :
  forall env fuel s menus buttons,
    length menus <= length buttons ->
    firstn (length menus) (map actions (refreshed env fuel s menus buttons))
    = builtActions env fuel s menus.
Proof.
  intros env fuel s. induction menus as [|[name menu] menus IH];
    intros [|b buttons] Hlen; try reflexivity; cbn in Hlen; [lia |].
  cbn. rewrite IH by lia. reflexivity.
Qed.

Lemma refreshed_rest :
  forall env fuel s menus buttons,
    skipn (length menus) (refreshed env fuel s menus buttons)
    = skipn (length menus) buttons.
Proof.
  intros env fuel s. induction menus as [|[name menu] menus IH];
    intros [|b buttons]; try reflexivity.
  cbn. apply IH.
Qed.






(** The first setup, as one step. *)
Lemma setupCustomMenubar_first :
  forall env fuel s,
    isFocused s = false ->
    container s <> None ->
    customMenus s = None ->
    buildable env fuel s (topLevelMenus env) = true ->
    setupCustomMenubar env fuel s
    = Some (Ok tt
              (with_customMenus
                 (Some (created env fuel s (topLevelMenus env) (nextHandle s)))
                 (with_nextHandle
                    (nextHandle s + 2 * length (topLevelMenus env)) s))).
Proof.
  intros env fuel s Hf Hc Hm Hb. unfold setupCustomMenubar.
  rewrite Hf, Hm. destruct (container s); [| contradiction Hc; reflexivity].
  pose proof (setupMenus_first env fuel s (topLevelMenus env) []
                (with_customMenus (Some []) s) eq_refl eq_refl eq_refl Hb) as H.
  cbn [length app] in H. rewrite H. destruct s; reflexivity.
Qed.

(** A rebuild, as one step. *)
Lemma setupCustomMenubar_rebuild :
  forall env fuel s buttons,
    isFocused s = false ->
    container s <> None ->
    customMenus s = Some buttons ->
    length (topLevelMenus env) <= length buttons ->
    buildable env fuel s (topLevelMenus env) = true ->
    setupCustomMenubar env fuel s
    = Some (Ok tt
              (with_customMenus
                 (Some (refreshed env fuel s (topLevelMenus env) buttons)) s)).
Proof.
  intros env fuel s buttons Hf Hc Hm Hlen Hb. unfold setupCustomMenubar.
  rewrite Hf, Hm. destruct (container s); [| contradiction Hc; reflexivity].
  apply (setupMenus_rebuild env fuel s (topLevelMenus env) [] buttons s);
    trivial.
Qed.





(** X24: the first setup of a bar that is not focused, has its container
    and can build every top-level menu returns normally with one button
    per top-level menu, in the order of the menus: the buttons carry the
    names of the menus and the lists [updateActions] builds for them, their
    elements are new and pairwise distinct, and every other field of the
    part is as before. *)
Theorem first_setup_creates_buttons :
  forall (env : Services) (fuel : nat) (s : MenubarPart),
    isFocused s = false ->
    container s <> None ->
    customMenus s = None ->
    buildable env fuel s (topLevelMenus env) = true ->
    exists s' buttons,
      setupCustomMenubar env fuel s = Some (Ok tt s')
      /\ customMenus s' = Some buttons
      /\ map title buttons = map fst (topLevelMenus env)
      /\ map actions buttons = builtActions env fuel s (topLevelMenus env)
      /\ handles buttons
         = seq (nextHandle s) (2 * length (topLevelMenus env))
      /\ NoDup (handles buttons)
      /\ nextHandle s' = nextHandle s + 2 * length (topLevelMenus env)
      /\ built s'
      /\ same_but_buttons s s'.
Proof.
  intros env fuel s Hf Hc Hm Hb.
  exists (with_customMenus
            (Some (created env fuel s (topLevelMenus env) (nextHandle s)))
            (with_nextHandle
               (nextHandle s + 2 * length (topLevelMenus env)) s)).
  exists (created env fuel s (topLevelMenus env) (nextHandle s)).
  split; [apply setupCustomMenubar_first; assumption |].
  split; [reflexivity |].
  split; [apply created_titles |].
  split; [apply created_actions |].
  split; [apply created_handles |].
  split; [rewrite created_handles; apply seq_NoDup |].
  split; [reflexivity |].
  split.
  - split.
    + destruct (container s) as [c|] eqn:E; [| contradiction Hc; reflexivity].
      exists c. cbn. exact E.
    + unfold topLevelMenus. cbn. eexists. eexists. reflexivity.
  - unfold same_but_buttons. cbn. repeat split; reflexivity.
Qed.

Lemma first_setup_creates_buttons_witness :
  exists s' buttons,
    setupCustomMenubar Sample.services 3
      (Scenario.unbuilt Sample.noConfiguration) = Some (Ok tt s')
    /\ customMenus s' = Some buttons
    /\ map title buttons = map fst (topLevelMenus Sample.services)
    /\ nextHandle s' = 19.
Proof.
  destruct (first_setup_creates_buttons Sample.services 3
              (Scenario.unbuilt Sample.noConfiguration))
    as [s' [buttons [R [M [T [_ [_ [_ [N _]]]]]]]]].
  - reflexivity.
  - discriminate.
  - reflexivity.
  - vm_compute. reflexivity.
  - exists s', buttons.
    split; [exact R |]. split; [exact M |]. split; [exact T | exact N].
Defined.

(** X25: a later setup of a bar that is not focused and holds at least a
    button per top-level menu creates no element: every button keeps its
    name and its two elements, the buttons of the top-level menus get the
    lists [updateActions] builds now, buttons past them are left as they
    are, and every other field of the part is as before. *)
Theorem rebuild_keeps_buttons :
  forall (env : Services) (fuel : nat) (s : MenubarPart)
         (buttons : list CustomMenu),
    isFocused s = false ->
    container s <> None ->
    customMenus s = Some buttons ->
    length (topLevelMenus env) <= length buttons ->
    buildable env fuel s (topLevelMenus env) = true ->
    exists s' buttons',
      setupCustomMenubar env fuel s = Some (Ok tt s')
      /\ customMenus s' = Some buttons'
      /\ button_elements buttons' = button_elements buttons
      /\ firstn (length (topLevelMenus env)) (map actions buttons')
         = builtActions env fuel s (topLevelMenus env)
      /\ skipn (length (topLevelMenus env)) buttons'
         = skipn (length (topLevelMenus env)) buttons
      /\ nextHandle s' = nextHandle s
      /\ same_but_buttons s s'.
Proof.
  intros env fuel s buttons Hf Hc Hm Hlen Hb.
  exists (with_customMenus
            (Some (refreshed env fuel s (topLevelMenus env) buttons)) s).
  exists (refreshed env fuel s (topLevelMenus env) buttons).
  split; [apply setupCustomMenubar_rebuild; assumption |].
  split; [reflexivity |].
  split; [apply refreshed_elements |].
  split; [apply refreshed_actions; exact Hlen |].
  split; [apply refreshed_rest |].
  split; [reflexivity |].
  unfold same_but_buttons. cbn. repeat split; reflexivity.
Qed.

Lemma rebuild_keeps_buttons_witness :
  exists s' buttons',
    setupCustomMenubar Sample.services 3 Scenario.nineBar = Some (Ok tt s')
    /\ customMenus s' = Some buttons'
    /\ button_elements buttons' = button_elements Scenario.nineButtons
    /\ nextHandle s' = 1.
Proof.
  destruct (rebuild_keeps_buttons Sample.services 3 Scenario.nineBar
              Scenario.nineButtons)
    as [s' [buttons' [R [M [E [_ [_ [N _]]]]]]]].
  - reflexivity.
  - discriminate.
  - reflexivity.
  - cbn. lia.
  - vm_compute. reflexivity.
  - exists s', buttons'.
    split; [exact R |]. split; [exact M |]. split; [exact E | exact N].
Defined.



(** X27: a setup asked for while the bar is focused builds nothing,
    whatever the registry holds: it only raises [updatePending].  When the
    bar then goes back to its resting state the menu updater is scheduled
    once and the flag is lowered. *)
Theorem setup_deferred_while_focused :
  forall (env : Services) (fuel : nat) (s : MenubarPart),
    well_formed s ->
    isFocused s = true ->
    exists s1 s2,
      setupCustomMenubar env fuel s = Some (Ok tt s1)
      /\ customMenus s1 = customMenus s
      /\ trace s1 = trace s
      /\ updatePending s1 = true
      /\ setUnfocusedState s1 = Ok tt s2
      /\ updatePending s2 = false
      /\ updater_schedules (trace s2) = S (updater_schedules (trace s)).
Proof.
  intros env fuel s [Hb Hc] Hf.
  exists (with_updatePending true s).
  assert (Hb1 : built (with_updatePending true s)) by (destruct s; exact Hb).
  assert (Hr1 : focus_in_range (with_updatePending true s)).
  { pose proof (consistent_in_range s Hc) as H. destruct s; exact H. }
  destruct (set_focusState_built
              (restingState (with_updatePending true s))
              (with_updatePending true s) Hb1 Hr1)
    as [s2 [R [_ [_ [_ [_ [P [U _]]]]]]]].
  exists s2.
  split; [unfold setupCustomMenubar; rewrite Hf; reflexivity |].
  split; [destruct s; reflexivity |].
  split; [destruct s; reflexivity |].
  split; [destruct s; reflexivity |].
  split; [exact R |].
  assert (Hf1 : isFocused (with_updatePending true s) = true)
    by (rewrite <- Hf; destruct s; reflexivity).
  assert (Hlt : state_lt (restingState (with_updatePending true s)) FOCUSED
                = true).
  { unfold restingState.
    destruct (js_string_is _ "toggle"); reflexivity. }
  rewrite Hf1, Hlt in P, U.
  split; [exact P |].
  rewrite U. replace (trace (with_updatePending true s)) with (trace s)
    by (destruct s; reflexivity).
  replace (updatePending (with_updatePending true s)) with true
    by (destruct s; reflexivity).
  cbn. lia.
Qed.

Lemma setup_deferred_while_focused_witness :
  exists s1 s2,
    setupCustomMenubar Scenario.loopingServices 0 (Sample.focusedBar 1)
    = Some (Ok tt s1)
    /\ setUnfocusedState s1 = Ok tt s2
    /\ updater_schedules (trace s2) = 1.
Proof.
  destruct (setup_deferred_while_focused Scenario.loopingServices 0
              (Sample.focusedBar 1))
    as [s1 [s2 [R [_ [_ [_ [U [_ N]]]]]]]].
  - split.
    + split; [eexists; reflexivity | eexists; eexists; reflexivity].
    + cbn. repeat split; try reflexivity; lia.
  - reflexivity.
  - exists s1, s2. split; [exact R |]. split; [exact U | exact N].
Defined.

(** ** The items sent to the native menu bar *)

Lemma joined_ends_with_separator :
  forall {A} (sp : A) (bodies : list (list A)),
    bodies <> [] -> exists front, joined sp bodies = front ++ [sp].
Proof.
  intros A sp bodies Hn.
  destruct (exists_last Hn) as [front [body ->]].
  exists (joined sp front ++ body).
  unfold joined. rewrite flat_map_app. cbn [flat_map].
  rewrite app_nil_r, app_assoc. reflexivity.
Qed.

Lemma native_items_of_groups :
  forall env s (groups : list Group),
    filter (fun i => negb (is_menubar_separator i))
      (joined MenubarItemSeparator
         (map (fun g : Group => map (menubarMenuItem env s) (snd g)) groups))
    = map (menubarMenuItem env s) (flat_map snd groups).
Proof.
  intros env s. induction groups as [|[gid group] rest IH]; [reflexivity |].
  unfold joined in *. cbn [map flat_map snd].
  rewrite !filter_app, IH, map_app. cbn [filter is_menubar_separator negb app].
  f_equal. rewrite app_nil_r. clear IH.
  induction group as [|r group IHg]; [reflexivity |].
  cbn [map filter menubarMenuItem is_menubar_separator negb].
  f_equal. exact IHg.
Qed.

(** X28: the items a top-level menu sends to the native menu bar are,
    separators apart, one item per action of the registry in the order of
    the groups, each with the label of [calculateActionLabel] and the
    checked status of [setCheckedStatus]: a submenu or the open-recent
    slot stays one item and is not expanded. *)
Theorem native_items_follow_registry :
  forall (env : Services) (s : MenubarPart) (menu : MenuId),
    filter (fun i => negb (is_menubar_separator i))
      (menubarMenuItems env s menu)
    = map (menubarMenuItem env s) (flat_map snd (getActions env menu)).
Proof.
  intros env s menu. unfold menubarMenuItems. cbv zeta.
  rewrite pushMenubarGroups_joined, app_nil_l.
  destruct (0 <? length _) eqn:E; [| apply native_items_of_groups].
  rewrite <- native_items_of_groups.
  destruct (getActions env menu) as [|g gs]; [reflexivity |].
  destruct (joined_ends_with_separator MenubarItemSeparator
              (map (fun g0 : Group => map (menubarMenuItem env s) (snd g0))
                 (g :: gs))) as [front Hfront]; [discriminate |].
  rewrite Hfront, removelast_last, filter_app. cbn. rewrite app_nil_r.
  reflexivity.
Qed.
